(** * Session and workflow orchestration engine of [backend/vahan_automation.py]

    A shallow embedding of the engine (session store, status reporter,
    login gate, session manager, step sequencer, loop controller) as
    programs of a small state-and-exception monad, together with the
    properties the specification states about them.

    Conventions of the embedding.
    - Everything outside the Python process (the browser driven through
      Selenium, the control port, the clock, the failure of file system
      calls) is an oracle: a function from a command and the current
      state of the outside world to an answer or an exception and the next
      state of the world.  Theorems quantify over every oracle.
    - What the process itself determines is explicit state: the module
      globals [driver_instance] and [is_logged_in], the content of the
      session file, the browsing context selected by [switch_to], and the
      list of commands issued so far.
    - Python dictionaries are association lists from keys to values.
    - Strings are sequences of 8-bit characters; a character outside
      ASCII stands as the bytes of its UTF-8 encoding.  [lower] and
      [upper] change the ASCII letters only, and [take] counts 8-bit
      characters, where Python's [str.lower], [str.upper] and slices work
      on code points: the two agree on ASCII text, which is what the page
      texts, locations and hardware identifiers handled here are, and the
      slices only shorten the text of an exception inside a message.
    - The readings of the clock are IEEE 754 double-precision numbers, and
      their differences are rounded as Python rounds them.
    - [safe_print] (it catches every exception itself) and [time.sleep]
      outside the login gate have no effect on any modelled component and
      are left out; local counters that only feed log lines are left out
      with them. *)

From Stdlib Require Import String Ascii List Bool Arith Lia ZArith QArith Lqa.
From Stdlib Require Import SpecFloat.
From Stdlib Require Import DecimalString.
Import ListNotations.

Close Scope Q_scope.
Open Scope nat_scope.
Open Scope list_scope.
Open Scope string_scope.

Set Implicit Arguments.

(* ================================================================== *)
(** ** Python values, dictionaries and strings *)

Inductive value : Type :=
| VNone
| VBool (b : bool)
| VInt (n : nat)
| VFloat (x : spec_float)
| VStr (s : string).

Definition dict := list (string * value).

Fixpoint dict_lookup (k : string) (d : dict) : option value :=
  match d with
  | [] => None
  | (k', v) :: d' => if String.eqb k k' then Some v else dict_lookup k d'
  end.

(** [d.get(k)] and [d.get(k, default)]. *)
Definition dict_get (d : dict) (k : string) : value :=
  match dict_lookup k d with Some v => v | None => VNone end.

Definition dict_get_default (d : dict) (k : string) (default : value) : value :=
  match dict_lookup k d with Some v => v | None => default end.

(** Python truth value of an object. *)
Definition truthy (v : value) : bool :=
  match v with
  | VNone => false
  | VBool b => b
  | VInt n => negb (Nat.eqb n 0)
  | VFloat (S754_zero _) => false
  | VFloat _ => true
  | VStr s => negb (String.eqb s "")
  end.

(** The string an f-string substitutes for a value; only strings and
    integers are ever substituted by the engine. *)
Definition string_of_nat (n : nat) : string :=
  NilEmpty.string_of_uint (Nat.to_uint n).

Definition format_value (v : value) : string :=
  match v with
  | VStr s => s
  | VInt n => string_of_nat n
  | VBool true => "True"
  | VBool false => "False"
  | _ => "None"
  end.

(** [s.lower()] on ASCII letters. *)
Definition lower_ascii (c : ascii) : ascii :=
  let n := nat_of_ascii c in
  if andb (Nat.leb 65 n) (Nat.leb n 90) then ascii_of_nat (n + 32) else c.

Fixpoint lower (s : string) : string :=
  match s with
  | EmptyString => EmptyString
  | String c s' => String (lower_ascii c) (lower s')
  end.

(** [needle in hay] for strings. *)
Fixpoint contains (needle hay : string) : bool :=
  if String.prefix needle hay then true
  else match hay with
       | EmptyString => false
       | String _ hay' => contains needle hay'
       end.

(** [s[:n]]. *)
Definition take (n : nat) (s : string) : string := substring 0 n s.

Definition nonempty {A : Type} (l : list A) : bool :=
  match l with [] => false | _ => true end.

(** A Python [float] is an IEEE 754 binary64 number: [spec_float] of the
    standard library with 53 bits of precision and exponents below 1024,
    whose operations round to nearest, ties to even. *)

(** [x - y] on floats. *)
Definition float_sub (x y : spec_float) : spec_float := SFsub 53 1024 x y.

(** [float(n)] for an integer [n], rounded to nearest; the infinity
    stands for an integer beyond the range of the format, for which
    Python raises OverflowError. *)
Definition float_of_int (n : Z) : spec_float :=
  binary_normalize 53 1024 n 0 false.

(** [x < n] for a float [x] and an integer [n]: Python compares the two
    numbers exactly. *)
Definition float_lt_int (x : spec_float) (n : Z) : bool :=
  match x with
  | S754_nan => false
  | S754_infinity negative => negative
  | S754_zero _ => (0 <? n)%Z
  | S754_finite negative m e =>
      let mantissa := if negative then Z.neg m else Z.pos m in
      match e with
      | Z.neg shift => (mantissa <? n * 2 ^ Z.pos shift)%Z
      | _ => (mantissa * 2 ^ e <? n)%Z
      end
  end.


(* ================================================================== *)
(** ** Exceptions and outcomes *)

(** The exception classes the engine distinguishes.  Selenium's
    [TimeoutException] is a subclass of [WebDriverException]; every other
    Selenium error (no such element, stale element, click intercepted, lost
    session ...) is [WebDriverException]; [PyException] stands for every
    other subclass of [Exception] (OSError, TypeError, AttributeError, the
    plain [Exception] the code raises itself). *)
Inductive exn : Type :=
| TimeoutException (msg : string)
| WebDriverException (msg : string)
| PyException (msg : string).

Definition str (e : exn) : string :=
  match e with
  | TimeoutException m | WebDriverException m | PyException m => m
  end.

Definition is_TimeoutException (e : exn) : bool :=
  match e with TimeoutException _ => true | _ => false end.

Definition is_WebDriverException (e : exn) : bool :=
  match e with PyException _ => false | _ => true end.

(** What running a block of statements of a function returning [R] ends
    in: it runs to its end with a value, executes a [return], raises, or
    (for the loops unrolled with fuel) has not finished when the fuel is
    used up. *)
Inductive outcome (R A : Type) : Type :=
| Normal (a : A)
| Return (r : R)
| Raise (e : exn)
| Diverged.

Arguments Normal {R A} a.
Arguments Return {R A} r.
Arguments Raise {R A} e.
Arguments Diverged {R A}.

(** Answer of the outside world to a command. *)
Inductive reply (A : Type) : Type :=
| Ok (a : A)
| Err (e : exn).

Arguments Ok {A} a.
Arguments Err {A} e.

(* ================================================================== *)
(** ** Commands sent to the outside world *)

Definition WebDriver := nat.
Definition WebElement := nat.

Inductive By : Type := By_ID | By_XPATH | By_CSS_SELECTOR | By_CLASS_NAME.

Definition locator := (By * string)%type.

Definition By_eqb (a b : By) : bool :=
  match a, b with
  | By_ID, By_ID | By_XPATH, By_XPATH
  | By_CSS_SELECTOR, By_CSS_SELECTOR | By_CLASS_NAME, By_CLASS_NAME => true
  | _, _ => false
  end.

Definition locator_eqb (a b : locator) : bool :=
  andb (By_eqb (fst a) (fst b)) (String.eqb (snd a) (snd b)).

(** The scripts handed to [execute_script]. *)
Inductive script : Type :=
| js_hide_overlays                       (* hide .ui-widget-overlay, .ui-dialog-mask *)
| js_click (el : WebElement)             (* arguments[0].click(); *)
| js_scroll_into_view (el : WebElement)  (* arguments[0].scrollIntoView({block: 'center'}); *)
| js_angular_defined.                    (* return window.angular !== undefined; *)

(** The two ways [uc.Chrome] is called: with the [debuggerAddress] option
    (attach to the browser listening on the control port) or with the base
    options, which carry [--remote-debugging-port] (start a browser). *)
Inductive chrome_request : Type :=
| Attach (debuggerAddress : string)
| Launch (version_main : option nat) (driver_executable_path : option string).

Inductive dcmd : Type :=
| CurrentUrl
| Quit
| Get (url : string)
| SetPageLoadTimeout (seconds : nat)
| PageSource
| FindElement (l : locator)
| FindElements (l : locator)
| WaitClickable (seconds : nat) (l : locator)
| WaitPresence (seconds : nat) (l : locator)
| WaitClickableElement (seconds : nat) (el : WebElement)
| WaitReadyStateComplete (seconds : nat)
| ExecuteScript (js : script)
| SwitchToFrame (el : WebElement)
| SwitchToDefaultContent
| Click (el : WebElement)
| Text (el : WebElement)
| TagName (el : WebElement)
| IsDisplayed (el : WebElement)
| IsSelected (el : WebElement)
| GetAttribute (el : WebElement) (name : string)
| ElementFindElement (el : WebElement) (l : locator).

Inductive cmd : Type :=
| TimeTime
| Sleep (seconds : Q)
| SocketConnect (port : Z)
| FileRead
| FileWrite (content : dict)
| FileRemove
| UcChrome (rq : chrome_request)
| ChromeDriverManagerInstall
| Driver (d : WebDriver) (c : dcmd).

Definition danswer (c : dcmd) : Type :=
  match c with
  | CurrentUrl | PageSource | Text _ | TagName _ => string
  | FindElement _ | WaitClickable _ _ | WaitPresence _ _
  | ElementFindElement _ _ => WebElement
  | FindElements _ => list WebElement
  | IsDisplayed _ | IsSelected _ => bool
  | GetAttribute _ _ => option string
  | _ => unit
  end.

Definition answer (c : cmd) : Type :=
  match c with
  | TimeTime => spec_float
  | SocketConnect _ => Z
  | UcChrome _ => WebDriver
  | ChromeDriverManagerInstall => string
  | Driver _ c => danswer c
  | _ => unit
  end.

(* ================================================================== *)
(** ** The monad of statement blocks *)

Definition M (St R A : Type) : Type := St -> outcome R A * St.

Definition ret {St R A} (a : A) : M St R A := fun s => (Normal a, s).

Definition bind {St R A B} (m : M St R A) (k : A -> M St R B) : M St R B :=
  fun s =>
    match m s with
    | (Normal a, s') => k a s'
    | (Return r, s') => (Return r, s')
    | (Raise e, s') => (Raise e, s')
    | (Diverged, s') => (Diverged, s')
    end.

Definition raise {St R A} (e : exn) : M St R A := fun s => (Raise e, s).

(** The [return] statement. *)
Definition return_ {St R A} (r : R) : M St R A := fun s => (Return r, s).

Definition diverge {St R A} : M St R A := fun s => (Diverged, s).

(** [try: body except ... as e: handler e].  The handler decides by the
    class of [e]; a class that no clause names is raised again by it. *)
Definition try_except {St R A} (body : M St R A) (handler : exn -> M St R A)
  : M St R A :=
  fun s =>
    match body s with
    | (Raise e, s') => handler e s'
    | other => other
    end.

(** A call of a function whose body is [body]: a [return] inside the body
    ends the call with that value. *)
Definition call {St R R'} (body : M St R R) : M St R' R :=
  fun s =>
    match body s with
    | (Normal r, s') => (Normal r, s')
    | (Return r, s') => (Normal r, s')
    | (Raise e, s') => (Raise e, s')
    | (Diverged, s') => (Diverged, s')
    end.

Definition read {St R A} (f : St -> A) : M St R A := fun s => (Normal (f s), s).

Definition modify {St R} (f : St -> St) : M St R unit :=
  fun s => (Normal tt, f s).

Declare Scope py_scope.
Delimit Scope py_scope with py.

Notation "x <- m ;; k" := (bind m (fun x => k))
  (at level 100, m at next level, right associativity) : py_scope.
Notation "m ;; k" := (bind m (fun _ => k))
  (at level 100, right associativity) : py_scope.

Open Scope py_scope.

(** [for x in xs: body x]. *)
Fixpoint for_each {St R A} (xs : list A) (body : A -> M St R unit)
  : M St R unit :=
  match xs with
  | [] => ret tt
  | x :: xs' => body x ;; for_each xs' body
  end.

(** [pass] *)
Definition pass {St R} : M St R unit := ret tt.

(* ================================================================== *)
(** ** State of the engine and of what it drives *)

Inductive browsing_context : Type := TopLevel | InFrame.

Record state (World : Type) : Type := mkState {
  world : World;                        (* the outside world, see [oracle] *)
  driver_instance : option WebDriver;   (* global driver_instance *)
  is_logged_in : bool;                  (* global is_logged_in *)
  session_file : option dict;           (* content of SESSION_FILE, if it exists *)
  context : browsing_context;           (* document the driver's commands address *)
  trace : list cmd                      (* commands issued, latest first *)
}.

Arguments mkState {World}.

Definition oracle_type (World : Type) : Type :=
  forall c : cmd, World -> reply (answer c) * World.

Definition VAHAN_URL : string :=
  "https://vahan.parivahan.gov.in/vahan/vahan/ui/login/login.xhtml".
Definition CHROME_DEBUG_PORT : Z := 9222%Z.

Section Engine.

Context {World : Type}.
Variable oracle : oracle_type World.

Local Abbreviation St := (state World).

Definition set_driver_instance {R} (d : option WebDriver) : M St R unit :=
  modify (fun s => mkState (world s) d (is_logged_in s) (session_file s)
                           (context s) (trace s)).

Definition set_is_logged_in {R} (b : bool) : M St R unit :=
  modify (fun s => mkState (world s) (driver_instance s) b (session_file s)
                           (context s) (trace s)).

Definition set_session_file {R} (f : option dict) : M St R unit :=
  modify (fun s => mkState (world s) (driver_instance s) (is_logged_in s) f
                           (context s) (trace s)).

Definition set_context {R} (c : browsing_context) : M St R unit :=
  modify (fun s => mkState (world s) (driver_instance s) (is_logged_in s)
                           (session_file s) c (trace s)).

(** Issue a command: the oracle answers, the command is recorded. *)
Definition perform {R} (c : cmd) : M St R (answer c) :=
  fun s =>
    let (r, w) := oracle c (world s) in
    let s' := mkState w (driver_instance s) (is_logged_in s) (session_file s)
                      (context s) (c :: trace s) in
    match r with
    | Ok a => (Normal a, s')
    | Err e => (Raise e, s')
    end.

(** A method call on a driver object; on [None] Python raises
    AttributeError. *)
Definition on {R} (driver : option WebDriver) (c : dcmd) : M St R (danswer c) :=
  match driver with
  | Some d => perform (Driver d c)
  | None => raise (PyException "'NoneType' object has no attribute")
  end.

(** [driver.switch_to.frame(el)] and [driver.switch_to.default_content()]:
    the context changes when the command succeeds. *)
Definition switch_to_frame {R} (driver : option WebDriver) (el : WebElement)
  : M St R unit :=
  on driver (SwitchToFrame el) ;; set_context InFrame.

Definition switch_to_default_content {R} (driver : option WebDriver)
  : M St R unit :=
  on driver SwitchToDefaultContent ;; set_context TopLevel.

(* ------------------------------------------------------------------ *)
(** *** Session store *)

(** [os.path.exists(SESSION_FILE)] *)
Definition path_exists {R} : M St R bool :=
  read (fun s => match session_file s with Some _ => true | None => false end).

(** [with open(SESSION_FILE, 'w') as f: json.dump(d, f)] *)
Definition write_file {R} (d : dict) : M St R unit :=
  perform (FileWrite d) ;; set_session_file (Some d).

(** [with open(SESSION_FILE, 'r') as f: json.load(f)] *)
Definition read_file {R} : M St R dict :=
  perform FileRead ;;
  f <- read (@session_file World) ;;
  match f with
  | Some d => ret d
  | None => raise (PyException "FileNotFoundError")
  end.

(** [os.remove(SESSION_FILE)] *)
Definition remove_file {R} : M St R unit :=
  perform FileRemove ;; set_session_file None.

(** The float a value stands for in [time.time() - v]: an integer or a
    boolean is converted, an integer beyond the range of the floats raises
    OverflowError, a value that is no number raises TypeError. *)
Definition as_number {R} (v : value) : M St R spec_float :=
  match v with
  | VFloat x => ret x
  | VInt n =>
      match float_of_int (Z.of_nat n) with
      | S754_infinity _ =>
          raise (PyException "OverflowError: int too large to convert to float")
      | x => ret x
      end
  | VBool b => ret (float_of_int (if b then 1 else 0))
  | _ => raise (PyException "TypeError: unsupported operand type(s) for -")
  end.

Definition is_not_None {A} (o : option A) : bool :=
  match o with Some _ => true | None => false end.

(** The dictionary [save_session_info] builds. *)
Definition session_data (has_driver logged_in : bool) (timestamp : spec_float)
  : dict :=
  [("has_driver", VBool has_driver);
   ("is_logged_in", VBool logged_in);
   ("timestamp", VFloat timestamp)].

Definition save_session_info {R} : M St R unit :=
  call (
    try_except
      (has_driver <- read (fun s => is_not_None (driver_instance s)) ;;
       logged_in <- read (@is_logged_in World) ;;
       timestamp <- perform TimeTime ;;
       write_file (session_data has_driver logged_in timestamp))
      (fun e => pass)).

Definition load_session_info {R} : M St R (option dict) :=
  call (
    try_except
      (ex <- path_exists ;;
       (if ex then
          session_data <- read_file ;;
          now <- perform TimeTime ;;
          saved <- as_number (dict_get_default session_data "timestamp" (VInt 0)) ;;
          if float_lt_int (float_sub now saved) 3600
          then return_ (Some session_data)
          else pass
        else pass) ;;
       return_ None)
      (fun e => return_ None)).

Definition clear_session_info {R} : M St R unit :=
  call (
    try_except
      (ex <- path_exists ;;
       if ex then remove_file else pass)
      (fun e => pass)).

(* ------------------------------------------------------------------ *)
(** *** Session manager *)

(** The socket is created, given a timeout of 1 second, connected with
    [connect_ex] and closed: one probe of the control port. *)
Definition is_chrome_debugging_available {R} : M St R bool :=
  call (
    try_except
      (result <- perform (SocketConnect CHROME_DEBUG_PORT) ;;
       return_ (Z.eqb result 0))
      (fun e => return_ false)).

Definition try_connect_to_existing_chrome {R} : M St R (option WebDriver) :=
  call (
    try_except
      (available <- is_chrome_debugging_available ;;
       (if negb available then return_ None else pass) ;;
       driver <- perform (UcChrome (Attach "127.0.0.1:9222")) ;;
       try_except
         (perform (Driver driver CurrentUrl) ;;
          return_ (Some driver))
         (fun e =>
            try_except (perform (Driver driver Quit)) (fun _ => pass) ;;
            return_ None))
      (fun e => return_ None)).

Definition creation_error_msg : string :=
  "❌ Chrome Driver Initialization Failed!

🔍 This is typically caused by a version mismatch between Chrome browser and ChromeDriver.

🛠️  SOLUTIONS (try in order):
1. UPDATE CHROME: Update your Chrome browser to the latest version
2. RESTART: Close all Chrome instances and restart your computer
3. UPDATE PACKAGES: Run 'pip install --upgrade undetected-chromedriver selenium webdriver-manager'
".

Definition create_vahan_driver {R} : M St R WebDriver :=
  call (
    existing_driver <- try_connect_to_existing_chrome ;;
    match existing_driver with
    | Some d => return_ d
    | None => pass
    end ;;
    (* Strategy 1: auto-detect the Chrome version *)
    try_except
      (d <- perform (UcChrome (Launch None None)) ;; return_ d)
      (fun e => pass) ;;
    (* Strategy 2: Chrome version 140 *)
    try_except
      (d <- perform (UcChrome (Launch (Some 140) None)) ;; return_ d)
      (fun e => pass) ;;
    (* Strategy 3: webdriver_manager *)
    try_except
      (chromedriver_path <- perform ChromeDriverManagerInstall ;;
       d <- perform (UcChrome (Launch None (Some chromedriver_path))) ;;
       return_ d)
      (fun e => pass) ;;
    (* Strategy 4: other common Chrome versions *)
    for_each [139; 138; 137; 136] (fun version =>
      try_except
        (d <- perform (UcChrome (Launch (Some version) None)) ;; return_ d)
        (fun e => pass)) ;;
    raise (PyException creation_error_msg)).

(* ------------------------------------------------------------------ *)
(** *** Status reporter *)

(** [d[k]]; a missing key raises KeyError. *)
Definition item {R} (d : dict) (k : string) : M St R value :=
  match dict_lookup k d with
  | Some v => ret v
  | None => raise (PyException ("KeyError: " ++ k))
  end.

Definition looks_logged_in (current_url : string) : bool :=
  andb (contains "vahan.parivahan.gov.in" current_url)
       (negb (contains "login" (lower current_url))).

Definition check_browser_status {R} : M St R dict :=
  call (
    handle <- read (@driver_instance World) ;;
    (if negb (is_not_None handle) then
       available <- is_chrome_debugging_available ;;
       (if negb available then
          return_ [("browser_open", VBool false);
                   ("logged_in", VBool false);
                   ("message", VStr "No browser instance found. Click 'Start' to open browser.")]
        else pass) ;;
       try_except
         (existing_driver <- try_connect_to_existing_chrome ;;
          match existing_driver with
          | Some d => set_driver_instance (Some d)
          | None =>
              return_ [("browser_open", VBool false);
                       ("logged_in", VBool false);
                       ("message", VStr "Cannot connect to browser")]
          end)
         (fun e =>
            return_ [("browser_open", VBool false);
                     ("logged_in", VBool false);
                     ("message", VStr "No browser instance found")])
     else pass) ;;
    try_except
      (handle <- read (@driver_instance World) ;;
       current_url <- on handle CurrentUrl ;;
       if looks_logged_in current_url then
         set_is_logged_in true ;;
         save_session_info ;;
         return_ [("browser_open", VBool true);
                  ("logged_in", VBool true);
                  ("message", VStr "Browser is open and user is logged in");
                  ("current_url", VStr current_url)]
       else
         set_is_logged_in false ;;
         save_session_info ;;
         return_ [("browser_open", VBool true);
                  ("logged_in", VBool false);
                  ("message", VStr "Browser is open but user is not logged in");
                  ("current_url", VStr current_url)])
      (fun e =>
         set_driver_instance None ;;
         set_is_logged_in false ;;
         clear_session_info ;;
         return_ [("browser_open", VBool false);
                  ("logged_in", VBool false);
                  ("message", VStr "Browser instance is not responding")])).

(* ------------------------------------------------------------------ *)
(** *** Login gate *)

Definition post_login_locator : locator :=
  (By_XPATH, "//a[contains(@href, 'logout')] | //button[contains(text(), 'Logout')] | //div[contains(@class, 'user')]").

(** The test of the first [if] of a poll: the URL has changed from the
    login page. *)
Definition url_changed (login_url current_url : string) : bool :=
  andb (negb (String.eqb current_url login_url))
       (negb (contains "login" (lower current_url))).

(** One pass through the body of the [while] of [wait_for_login], up to
    and including the [time.sleep(2)]. *)
Definition wait_for_login_poll (driver : option WebDriver) (login_url : string)
  : M St bool unit :=
  try_except
    (current_url <- on driver CurrentUrl ;;
     (if url_changed login_url current_url then return_ true else pass) ;;
     try_except
       (post_login_elements <- on driver (FindElements post_login_locator) ;;
        if nonempty post_login_elements then return_ true else pass)
       (fun e => pass))
    (fun e =>
       let error_str := str e in
       if orb (contains "connection" (lower error_str))
              (contains "target" (lower error_str))
       then return_ false
       else return_ false) ;;
  perform (Sleep 2).

(** [while time.time() - start_time < timeout: ...], unrolled [fuel]
    times. *)
Fixpoint wait_for_login_loop (fuel : nat) (driver : option WebDriver)
    (timeout : Z) (start_time : spec_float) (login_url : string)
  : M St bool unit :=
  match fuel with
  | 0 => diverge
  | S fuel' =>
      now <- perform TimeTime ;;
      if float_lt_int (float_sub now start_time) timeout then
        wait_for_login_poll driver login_url ;;
        wait_for_login_loop fuel' driver timeout start_time login_url
      else pass
  end.

Definition wait_for_login {R} (fuel : nat) (driver : option WebDriver)
    (timeout : Z) : M St R bool :=
  call (
    start_time <- perform TimeTime ;;
    login_url <- try_except (on driver CurrentUrl) (fun e => return_ false) ;;
    try_except
      (wait_for_login_loop fuel driver timeout start_time login_url ;;
       return_ false)
      (fun e => return_ false)).

(* ------------------------------------------------------------------ *)
(** *** Starting and closing the session *)

(** [while retry_count < max_retries and not page_loaded: ...] of
    [start_vahan_browser]; the value is the final [page_loaded]. *)
Fixpoint navigation_loop {R} (fuel : nat) (driver : WebDriver)
    (max_retries retry_count : nat) : M St R bool :=
  match fuel with
  | 0 => diverge
  | S fuel' =>
      if Nat.ltb retry_count max_retries then
        step <-
          try_except
            (perform (Driver driver (SetPageLoadTimeout 60)) ;;
             perform (Driver driver (Get VAHAN_URL)) ;;
             perform (Driver driver (WaitReadyStateComplete 30)) ;;
             current_url <- perform (Driver driver CurrentUrl) ;;
             if orb (contains "vahan.parivahan.gov.in" current_url)
                    (contains "login" (lower current_url))
             then ret (true, retry_count)
             else ret (false, S retry_count))
            (fun e =>
               if is_TimeoutException e then ret (false, S retry_count)
               else if is_WebDriverException e then
                 if orb (contains "ERR_CONNECTION_RESET" (str e))
                        (contains "net::" (str e))
                 then ret (false, S retry_count)
                 else raise e
               else raise e) ;;
        if fst step then ret true
        else navigation_loop fuel' driver max_retries (snd step)
      else ret false
  end.

Definition start_vahan_browser {R} (fuel : nat) : M St R dict :=
  call (
    status <- check_browser_status ;;
    browser_open <- item status "browser_open" ;;
    logged_in <- item status "logged_in" ;;
    (if andb (truthy browser_open) (truthy logged_in) then
       return_ [("success", VBool true);
                ("message", VStr "Browser already open and logged in. Ready for automation!");
                ("status", VStr "already_logged_in");
                ("reused_session", VBool true)]
     else pass) ;;
    (if andb (truthy browser_open) (negb (truthy logged_in)) then
       try_except
         (handle <- read (@driver_instance World) ;;
          login_success <- wait_for_login fuel handle 300 ;;
          if login_success then
            set_is_logged_in true ;;
            return_ [("success", VBool true);
                     ("message", VStr "Login acknowledged successfully!");
                     ("status", VStr "login_success")]
          else
            return_ [("success", VBool false);
                     ("message", VStr "Login timeout - please try again and login within 5 minutes");
                     ("status", VStr "login_timeout")])
         (fun e =>
            return_ [("success", VBool false);
                     ("message", VStr ("Error waiting for login: " ++ str e));
                     ("status", VStr "error")])
     else pass) ;;
    (* No browser open, start fresh *)
    try_except
      (driver <- create_vahan_driver ;;
       set_driver_instance (Some driver) ;;
       page_loaded <- navigation_loop 4 driver 3 0 ;;
       (if negb page_loaded then
          handle <- read (@driver_instance World) ;;
          match handle with
          | Some d =>
              try_except
                (perform (Driver d Quit) ;; set_driver_instance None)
                (fun _ => pass)
          | None => pass
          end ;;
          return_ [("success", VBool false);
                   ("message", VStr "Failed to connect to Vahan website. Please check your internet connection and try again. See logs for details.");
                   ("status", VStr "connection_error")]
        else pass) ;;
       login_success <- wait_for_login fuel (Some driver) 300 ;;
       if login_success then
         set_is_logged_in true ;;
         save_session_info ;;
         return_ [("success", VBool true);
                  ("message", VStr "Browser started and login acknowledged successfully!");
                  ("status", VStr "login_success")]
       else
         return_ [("success", VBool false);
                  ("message", VStr "Login timeout - please try again and login within 5 minutes");
                  ("status", VStr "login_timeout")])
      (fun e =>
         let error_msg := "Error starting Vahan browser: " ++ str e in
         handle <- read (@driver_instance World) ;;
         match handle with
         | Some d =>
             try_except
               (perform (Driver d Quit) ;;
                set_driver_instance None ;;
                clear_session_info)
               (fun _ => pass)
         | None => pass
         end ;;
         return_ [("success", VBool false);
                  ("message", VStr error_msg);
                  ("status", VStr "error")])).

Definition close_vahan_browser {R} : M St R bool :=
  call (
    handle <- read (@driver_instance World) ;;
    match handle with
    | Some d =>
        try_except
          (perform (Driver d Quit) ;;
           set_driver_instance None ;;
           set_is_logged_in false ;;
           clear_session_info ;;
           return_ true)
          (fun e =>
             set_driver_instance None ;;
             set_is_logged_in false ;;
             clear_session_info ;;
             return_ false)
    | None =>
        clear_session_info ;;
        return_ true
    end).

(* ------------------------------------------------------------------ *)
(** *** Recovery affordance *)

Definition back_button_id : locator := (By_ID, "j_idt45").

Definition back_to_home_text : locator :=
  (By_XPATH, "//*[contains(translate(text(), 'ABCDEFGHIJKLMNOPQRSTUVWXYZ', 'abcdefghijklmnopqrstuvwxyz'), 'back to home page') or contains(translate(@value, 'ABCDEFGHIJKLMNOPQRSTUVWXYZ', 'abcdefghijklmnopqrstuvwxyz'), 'back to home page') or contains(translate(text(), 'ABCDEFGHIJKLMNOPQRSTUVWXYZ', 'abcdefghijklmnopqrstuvwxyz'), 'back to home-page')]").

Definition back_to_home_ancestor : locator :=
  (By_XPATH, "//*[contains(translate(text(), 'ABCDEFGHIJKLMNOPQRSTUVWXYZ', 'abcdefghijklmnopqrstuvwxyz'), 'back to home')]//ancestor::button | //*[contains(translate(text(), 'ABCDEFGHIJKLMNOPQRSTUVWXYZ', 'abcdefghijklmnopqrstuvwxyz'), 'back to home')]//ancestor::a").

Definition clickable_tag (tag_name : string) : bool :=
  orb (String.eqb tag_name "button")
      (orb (String.eqb tag_name "a") (String.eqb tag_name "input")).

Definition check_for_back_to_home_page {R} (driver : option WebDriver)
  : M St R bool :=
  call (
    try_except
      ((* Approach 1: the button with id j_idt45 *)
       try_except
         (back_button_by_id <- on driver (FindElement back_button_id) ;;
          text <- on driver (Text back_button_by_id) ;;
          if contains "back to home" (lower text) then
            on driver (Click back_button_by_id) ;;
            return_ true
          else pass)
         (fun _ => pass) ;;
       (* Approach 2: any element carrying the text *)
       back_to_home_elements <- on driver (FindElements back_to_home_text) ;;
       (if nonempty back_to_home_elements then
          for_each back_to_home_elements (fun element =>
            try_except
              (tag_name <- on driver (TagName element) ;;
               if clickable_tag tag_name then
                 on driver (Click element) ;;
                 return_ true
               else pass)
              (fun _ => pass)) ;;
          try_except
            (back_button <- on driver (FindElement back_to_home_ancestor) ;;
             on driver (Click back_button) ;;
             return_ true)
            (fun _ => pass)
        else pass) ;;
       return_ false)
      (fun e => return_ false)).

Definition error_text : locator :=
  (By_XPATH, "//*[contains(text(), 'Sorry') or contains(text(), 'Went Wrong') or contains(text(), 'Error')]").

(** [check_for_error_page]: an element object is true, so the second
    lookup decides by whether it finds the button. *)
Definition check_for_error_page {R} (driver : option WebDriver)
  : M St R bool :=
  call (
    try_except
      (error_elements <- on driver (FindElements error_text) ;;
       (if nonempty error_elements then return_ true else pass) ;;
       try_except
         (back_button <- on driver (FindElement back_button_id) ;;
          return_ true)
         (fun _ => pass) ;;
       return_ false)
      (fun e => return_ false)).

(* ------------------------------------------------------------------ *)
(** *** Step sequencer: results *)

Definition failure (message status : string) : dict :=
  [("success", VBool false); ("message", VStr message); ("status", VStr status)].

Definition button_not_found : dict :=
  [("success", VBool false);
   ("message", VStr "⚠️ Dashboard Pendency button not found. Please ensure you are logged in correctly. If you see a login page, please login and try again.");
   ("status", VStr "button_not_found");
   ("action_required", VStr "login")].

(** The terminal result: the table holds no approve button. *)
Definition no_approve_button : dict :=
  failure "No more pending applications to process." "no_approve_button".

Definition table_not_found : dict :=
  failure "Pending Applications table or Approve button not found. The page may not have loaded correctly." "table_not_found".

Definition checkbox_not_found : dict :=
  failure "Verification checkbox not found. The approval page may not have loaded correctly." "checkbox_not_found".

Definition tab_not_found : dict :=
  failure "Documents Uploaded tab not found. The page may not have loaded correctly." "tab_not_found".

Definition modify_button_not_found : dict :=
  failure "Modify/View Documents button not found. The Documents Uploaded tab content may not have loaded correctly." "modify_button_not_found".

Definition modal_close_not_found : dict :=
  failure "Modal close button not found." "modal_close_not_found".

Definition popup_close_not_found : dict :=
  failure "Could not close success message popup." "popup_close_not_found".

Definition modify_button_2_not_found : dict :=
  failure "Modify/View Documents button not found on second attempt." "modify_button_2_not_found".

Definition modify_button_2_click_error (e : exn) : dict :=
  failure ("Could not click Modify/View Documents button - it may be blocked by another element. Error: " ++ take 100 (str e))
          "modify_button_2_click_error".

Definition checkboxes_not_found : dict :=
  failure "ApprovedStatus checkboxes not found. The page may not have loaded completely, or Angular is still initializing." "checkboxes_not_found".

Definition checkbox_processing_error (e : exn) : dict :=
  failure ("Error processing approvedStatus checkboxes: " ++ take 100 (str e))
          "checkbox_processing_error".

Definition modal_close_2_not_found : dict :=
  failure "Modal close button not found on second attempt." "modal_close_2_not_found".

Definition popup_close_2_not_found : dict :=
  failure "Could not close success message popup on second attempt." "popup_close_not_found".

Definition save_options_not_found : dict :=
  failure "Save-Options button not found." "save_options_not_found".

Definition file_movement_not_found : dict :=
  failure "File Movement option not found in dropdown." "file_movement_not_found".

Definition dealer_registration_not_found : dict :=
  failure "Dealer Registration element not found. The page may not have loaded correctly." "element_not_found".

Definition automation_error (e : exn) : dict :=
  failure ("Error during automation: " ++ str e) "error".

Definition completed_once : dict :=
  [("success", VBool true);
   ("message", VStr "Automation completed successfully! All steps executed: Dashboard Pendency → Dealer Registration → New Registration (Dealer Side) → NEW-RC-APPROVAL View Detail → First Approve Button → Verification Checkbox → Documents Uploaded Tab → Modify/View Documents → Close Modal → OK → Modify/View Documents Again → Check All Approved Checkboxes → Close Modal → OK → Save-Options → File Movement → Modal Opened → Proceed to Next Seat Selected → Save Clicked → Yes Confirmed.");
   ("status", VStr "completed")].

(* ------------------------------------------------------------------ *)
(** *** Step sequencer: locators *)

Definition dashboard_pendency : locator :=
  (By_XPATH, "//button[@title='Dashboard Pendency']").
Definition alert_dialog_locator : locator :=
  (By_XPATH, "//div[@id='primefacesmessagedlg' and contains(@class, 'ui-message-dialog')]").
Definition alert_close : locator :=
  (By_XPATH, "//div[@id='primefacesmessagedlg']//a[contains(@class, 'ui-dialog-titlebar-close')]").
Definition dealer_expanded : locator :=
  (By_XPATH, "//td[.//label[contains(., 'Dealer Registration')]]//span[contains(@class, 'ui-icon-triangle-1-s')]").
Definition dealer_toggle : locator :=
  (By_XPATH, "//td[.//label[contains(., 'Dealer Registration')]]//span[@class='ui-treetable-toggler ui-icon ui-icon-triangle-1-e ui-c']").
Definition new_registration_expanded : locator :=
  (By_XPATH, "//label[contains(., 'New Registration (Dealer Side)')]/preceding-sibling::span[contains(@class, 'ui-icon-triangle-1-s')]").
Definition new_registration_toggle : locator :=
  (By_XPATH, "//label[contains(., 'New Registration (Dealer Side)')]/preceding-sibling::span[@class='ui-treetable-toggler ui-icon ui-icon-triangle-1-e ui-c']").
Definition view_detail : locator :=
  (By_XPATH, "//tr[.//label[contains(., 'NEW-RC-APPROVAL')]]//td[@role='gridcell']//a[contains(@class, 'ui-commandlink')]").
Definition work_details : locator := (By_ID, "workDetails").
Definition approve_button : locator :=
  (By_XPATH, "//tbody[@id='workDetails_data']//tr[@data-ri='0']//button[contains(@id, 'workDetails:0:')]").
Definition first_row : locator :=
  (By_XPATH, "//tbody[@id='workDetails_data']//tr[@data-ri='0']").
Definition verify_check_value : locator :=
  (By_ID, "workbench_tabview:verifyCheckValue").
Definition chkbox_box : locator := (By_CLASS_NAME, "ui-chkbox-box").
Definition documents_tab : locator :=
  (By_XPATH, "//ul[contains(@class, 'ui-tabs-nav')]//li[@data-index='5']//a[contains(text(), 'Documents Uploaded')]").
Definition id_view_doc : locator := (By_ID, "workbench_tabview:idViewDoc").
Definition dms_title : locator :=
  (By_ID, "workbench_tabview:viewUploadedDms_title").
Definition dms_close : locator :=
  (By_XPATH, "//div[@id='workbench_tabview:viewUploadedDms']//a[contains(@class, 'ui-dialog-titlebar-close')]").
Definition css_close : locator := (By_CSS_SELECTOR, "a.ui-dialog-titlebar-close").
Definition aria_close : locator :=
  (By_XPATH, "//a[@aria-label='Close' and contains(@class, 'ui-dialog-titlebar-close')]").
Definition confirmation_close : locator :=
  (By_XPATH, "//div[contains(@class, 'ui-dialog-titlebar')]//span[contains(text(), 'Confirmation')]/following-sibling::a[contains(@class, 'ui-dialog-titlebar-close')]").
Definition visible_dialog_close : locator :=
  (By_XPATH, "//div[contains(@class, 'ui-dialog') and contains(@style, 'display: block')]//a[contains(@class, 'ui-dialog-titlebar-close')]").
Definition dms_iframe : locator :=
  (By_XPATH, "//iframe[contains(@src, 'dms-app/dealer-search-within-dms')]").
Definition approved_status : locator :=
  (By_XPATH, "//input[@type='checkbox' and starts-with(@name, 'approvedStatus')]").
Definition save_options : locator :=
  (By_XPATH, "//button[.//span[contains(text(), 'Save-Options')]]").
Definition file_movement : locator :=
  (By_XPATH, "//a[.//span[contains(text(), 'File Movement')]]").
Definition file_movement_modal : locator :=
  (By_XPATH, "//div[contains(@class, 'ui-dialog') and contains(@style, 'display: block')] | //div[@id='panelAppDisapp' and contains(@style, 'display: block')]").
Definition proceed_label : locator :=
  (By_XPATH, "//label[contains(text(), 'Proceed to Next Seat')]").
Definition radio_button_box (radio_button_id : option string) : locator :=
  (By_XPATH, "//input[@id='"
             ++ match radio_button_id with Some i => i | None => "None" end
             ++ "']/ancestor::div[contains(@class, 'ui-radiobutton')]//div[contains(@class, 'ui-radiobutton-box')]").
Definition save_in_modal : locator :=
  (By_XPATH, "//div[contains(@class, 'ui-dialog') and contains(@style, 'display: block')]//a[contains(@class, 'ui-commandlink') and contains(text(), 'Save')]").
Definition save_by_id : locator := (By_ID, "app_disapp_form:j_idt1949").
Definition save_anywhere : locator :=
  (By_XPATH, "//a[contains(@class, 'ui-commandlink') and contains(text(), 'Save')]").
Definition save_by_data : locator :=
  (By_XPATH, "//a[contains(@class, 'ui-commandlink') and contains(@data-pfconfirmcommand, 'PF')]").
Definition yes_by_class : locator :=
  (By_XPATH, "//button[contains(@class, 'ui-confirmdialog-yes')]").
Definition yes_by_text : locator :=
  (By_XPATH, "//button[contains(@class, 'ui-button')]//span[contains(text(), 'Yes')]").
Definition yes_by_id : locator :=
  (By_XPATH, "//button[contains(@id, 'app_disapp_form:j_idt') and contains(@class, 'ui-confirmdialog-yes')]").

(* ------------------------------------------------------------------ *)
(** *** Step sequencer: the steps of [execute_remaining_steps]

    Each step is the block of statements under the comment of that number
    in the source; a step ends normally (the next one runs), executes a
    [return] with a result, or raises into the handlers that close the
    function. *)

Section Steps.

Variable driver : option WebDriver.

(** [needle in v] where [v] came from [get_attribute]: on [None] Python
    raises TypeError. *)
Definition in_attribute {R} (needle : string) (v : option string) : M St R bool :=
  match v with
  | Some s => ret (contains needle s)
  | None => raise (PyException "argument of type 'NoneType' is not iterable")
  end.

(** Truth value of the result of [get_attribute]. *)
Definition attribute_set (v : option string) : bool :=
  match v with
  | Some s => negb (String.eqb s "")
  | None => false
  end.

(** Step 1.5: close the optional alert popup. *)
Definition step_alert_popup : M St dict unit :=
  try_except
    (alert_dialog <- on driver (FindElements alert_dialog_locator) ;;
     displayed <- match alert_dialog with
                  | [] => ret false
                  | first :: _ => on driver (IsDisplayed first)
                  end ;;
     if displayed then
       on driver (ExecuteScript js_hide_overlays) ;;
       close_clicked <-
         try_except
           (close_button <- on driver (WaitClickable 3 alert_close) ;;
            on driver (Click close_button) ;;
            ret true)
           (fun _ => ret false) ;;
       (if negb close_clicked then
          try_except
            (close_button <- on driver (FindElement alert_close) ;;
             on driver (ExecuteScript (js_click close_button)))
            (fun _ => pass)
        else pass)
     else pass)
    (fun e => pass).

(** Step 2: expand Dealer Registration unless it is expanded. *)
Definition step_dealer_registration : M St dict unit :=
  on driver (WaitReadyStateComplete 10) ;;
  try_except
    (already_expanded <- on driver (FindElements dealer_expanded) ;;
     if nonempty already_expanded then pass
     else
       dealer_registration_span <- on driver (WaitClickable 10 dealer_toggle) ;;
       on driver (Click dealer_registration_span))
    (fun e =>
       dealer_registration_span <- on driver (WaitClickable 5 dealer_toggle) ;;
       on driver (Click dealer_registration_span)).

(** Step 3: expand New Registration (Dealer Side) unless it is expanded. *)
Definition step_new_registration : M St dict unit :=
  try_except
    (already_expanded_new_reg <- on driver (FindElements new_registration_expanded) ;;
     if nonempty already_expanded_new_reg then pass
     else
       new_registration_span <- on driver (WaitClickable 15 new_registration_toggle) ;;
       on driver (Click new_registration_span))
    (fun e =>
       new_registration_span <- on driver (WaitClickable 10 new_registration_toggle) ;;
       on driver (Click new_registration_span)).

(** Step 4: the View Detail link beside NEW-RC-APPROVAL. *)
Definition step_view_detail : M St dict unit :=
  view_detail_link <- on driver (WaitClickable 10 view_detail) ;;
  on driver (Click view_detail_link).

(** Step 5, the work-item gate: the table of pending applications and its
    first Approve button. *)
Definition step_approve_gate : M St dict unit :=
  try_except
    (on driver (WaitPresence 15 work_details) ;;
     approve_buttons <- on driver (FindElements approve_button) ;;
     (if negb (nonempty approve_buttons) then return_ no_approve_button
      else pass) ;;
     first_approve_button <- on driver (WaitClickable 10 approve_button) ;;
     on driver (Click first_approve_button))
    (fun e =>
       if is_TimeoutException e then
         try_except
           (on driver (FindElement work_details) ;;
            rows <- on driver (FindElements first_row) ;;
            if negb (nonempty rows) then return_ no_approve_button else pass)
           (fun _ => pass) ;;
         return_ table_not_found
       else raise e).

(** Step 6: tick the verification checkbox unless it is ticked. *)
Definition step_verification_checkbox : M St dict unit :=
  try_except
    (checkbox_container <- on driver (WaitPresence 15 verify_check_value) ;;
     checkbox_box <- on driver (ElementFindElement checkbox_container chkbox_box) ;;
     checkbox_classes <- on driver (GetAttribute checkbox_box "class") ;;
     active <- in_attribute "ui-state-active" checkbox_classes ;;
     if active then pass
     else on driver (Click checkbox_box))
    (fun e =>
       if is_TimeoutException e then return_ checkbox_not_found else raise e).

(** Step 7: the Documents Uploaded tab. *)
Definition step_documents_tab : M St dict unit :=
  try_except
    (tab <- on driver (WaitClickable 10 documents_tab) ;;
     on driver (Click tab))
    (fun e =>
       if is_TimeoutException e then return_ tab_not_found else raise e).

(** Step 8: the Modify/View Documents button. *)
Definition step_modify_view : M St dict unit :=
  try_except
    (modify_view_button <- on driver (WaitClickable 15 id_view_doc) ;;
     on driver (Text modify_view_button) ;;
     on driver (Click modify_view_button))
    (fun e =>
       if is_TimeoutException e then return_ modify_button_not_found
       else raise e).

(** The close button of the DMS modal, by three locators in turn. *)
Definition find_modal_close : M St dict WebElement :=
  try_except
    (on driver (FindElement dms_close))
    (fun _ =>
       try_except
         (on driver (FindElement css_close))
         (fun _ => on driver (FindElement aria_close))).

(** Steps 9 and 13: close the DMS modal. *)
Definition step_close_modal (not_found : dict) : M St dict unit :=
  try_except
    (switch_to_default_content driver ;;
     on driver (WaitPresence 10 dms_title) ;;
     close_modal_button <- find_modal_close ;;
     try_except
       (on driver (ExecuteScript (js_scroll_into_view close_modal_button)) ;;
        on driver (WaitClickableElement 5 close_modal_button) ;;
        on driver (Click close_modal_button))
       (fun e => on driver (ExecuteScript (js_click close_modal_button))))
    (fun e => if is_TimeoutException e then return_ not_found else raise e).

(** Steps 10 and 14: close the confirmation popup. *)
Definition step_close_popup (not_found : dict) : M St dict unit :=
  try_except
    (close_popup_button <-
       try_except
         (on driver (WaitPresence 15 confirmation_close))
         (fun _ => on driver (WaitPresence 15 visible_dialog_close)) ;;
     try_except
       (on driver (ExecuteScript js_hide_overlays) ;;
        on driver (Click close_popup_button))
       (fun e => on driver (ExecuteScript (js_click close_popup_button))))
    (fun e => return_ not_found).

(** Step 11: the Modify/View Documents button again, by script. *)
Definition step_modify_view_again : M St dict unit :=
  try_except
    (modify_view_button_2 <- on driver (WaitPresence 15 id_view_doc) ;;
     on driver (ExecuteScript (js_click modify_view_button_2)))
    (fun e =>
       if is_TimeoutException e then return_ modify_button_2_not_found
       else if is_WebDriverException e then return_ (modify_button_2_click_error e)
       else raise e).

(** The body of the loop of step 12 for one checkbox. *)
Definition sweep_checkbox (checkbox : WebElement) : M St dict unit :=
  try_except
    (on driver (GetAttribute checkbox "name") ;;
     is_disabled <- on driver (GetAttribute checkbox "disabled") ;;
     is_checked <- on driver (IsSelected checkbox) ;;
     checked_attr <- on driver (GetAttribute checkbox "checked") ;;
     if attribute_set is_disabled then pass
     else if orb is_checked (attribute_set checked_attr) then pass
     else
       on driver (ExecuteScript (js_scroll_into_view checkbox)) ;;
       try_except
         (on driver (ExecuteScript (js_click checkbox)))
         (fun click_err => on driver (Click checkbox)))
    (fun e => pass).

(** The [try] block of step 12: enter the DMS iframe, tick every
    approvedStatus checkbox, leave the iframe. *)
Definition sweep_in_iframe : M St dict unit :=
  try_except
    (iframe <- on driver (WaitPresence 10 dms_iframe) ;;
     switch_to_frame driver iframe)
    (fun e => raise e) ;;
  on driver (WaitPresence 15 approved_status) ;;
  try_except (on driver (ExecuteScript js_angular_defined)) (fun _ => pass) ;;
  approved_checkboxes <- on driver (FindElements approved_status) ;;
  for_each approved_checkboxes sweep_checkbox ;;
  switch_to_default_content driver.

(** Step 12 with its handlers; [recur] is [run_automation_internal]. *)
Definition step_checkbox_sweep (recur : nat -> nat -> M St dict dict)
    (retry_count max_retries : nat) : M St dict unit :=
  try_except
    sweep_in_iframe
    (fun e =>
       if is_TimeoutException e then
         try_except (switch_to_default_content driver) (fun _ => pass) ;;
         try_except (on driver PageSource ;; pass) (fun _ => pass) ;;
         recovered <- check_for_back_to_home_page driver ;;
         (if recovered then
            if Nat.ltb retry_count max_retries then
              r <- recur (retry_count + 1) max_retries ;;
              return_ r
            else pass
          else pass) ;;
         return_ checkboxes_not_found
       else
         try_except (switch_to_default_content driver) (fun _ => pass) ;;
         return_ (checkbox_processing_error e)).

(** Step 15: the Save-Options dropdown. *)
Definition step_save_options : M St dict unit :=
  try_except
    (save_options_button <- on driver (WaitClickable 15 save_options) ;;
     on driver (Click save_options_button))
    (fun e =>
       if is_TimeoutException e then return_ save_options_not_found
       else raise e).

(** Step 16: File Movement in the dropdown. *)
Definition step_file_movement : M St dict unit :=
  try_except
    (file_movement_link <- on driver (WaitClickable 10 file_movement) ;;
     on driver (Click file_movement_link))
    (fun e =>
       if is_TimeoutException e then return_ file_movement_not_found
       else raise e).

(** Step 17: wait for the File Movement modal; a timeout is only logged. *)
Definition step_file_movement_modal : M St dict unit :=
  try_except
    (on driver (WaitPresence 10 file_movement_modal) ;; pass)
    (fun e => if is_TimeoutException e then pass else raise e).

(** Step 18: select Proceed to Next Seat unless it is selected. *)
Definition step_proceed_to_next_seat : M St dict unit :=
  try_except
    (label <- on driver (WaitPresence 10 proceed_label) ;;
     radio_button_id <- on driver (GetAttribute label "for") ;;
     radio_box <- on driver (WaitClickable 10 (radio_button_box radio_button_id)) ;;
     box_classes <- on driver (GetAttribute radio_box "class") ;;
     active <- in_attribute "ui-state-active" box_classes ;;
     if negb active then on driver (Click radio_box) else pass)
    (fun e =>
       if is_TimeoutException e then
         return_ (failure "Could not find 'Proceed to Next Seat' radio button in File Movement modal" "element_not_found")
       else
         return_ (failure ("Error selecting radio button: " ++ str e) "error")).

(** One strategy of steps 19 and 20: [try: ...; clicked = True] with an
    [except] that leaves [clicked] as it was, run when nothing has
    clicked yet. *)
Definition strategy (clicked : bool) (attempt : M St dict unit) : M St dict bool :=
  if clicked then ret true
  else try_except (attempt ;; ret true) (fun _ => ret false).

(** Step 19: the Save button of the File Movement modal. *)
Definition step_save : M St dict unit :=
  try_except
    (save_clicked <- strategy false
       (save_button <- on driver (WaitClickable 5 save_in_modal) ;;
        on driver (Click save_button)) ;;
     save_clicked <- strategy save_clicked
       (save_button <- on driver (WaitClickable 5 save_by_id) ;;
        on driver (Click save_button)) ;;
     save_clicked <- strategy save_clicked
       (save_button <- on driver (FindElement save_anywhere) ;;
        on driver (ExecuteScript (js_click save_button))) ;;
     save_clicked <- strategy save_clicked
       (save_button <- on driver (WaitClickable 5 save_by_data) ;;
        on driver (ExecuteScript (js_click save_button))) ;;
     if negb save_clicked then
       raise (PyException "All strategies to click Save button failed")
     else pass)
    (fun e =>
       if is_TimeoutException e then
         return_ (failure "Could not find Save button in File Movement modal" "element_not_found")
       else
         return_ (failure ("Error clicking Save button: " ++ str e) "error")).

(** Step 20: Yes in the confirmation dialog. *)
Definition step_yes : M St dict unit :=
  try_except
    (yes_clicked <- strategy false
       (yes_button <- on driver (WaitClickable 10 yes_by_class) ;;
        on driver (ExecuteScript js_hide_overlays) ;;
        on driver (Click yes_button)) ;;
     yes_clicked <- strategy yes_clicked
       (yes_button <- on driver (WaitClickable 5 yes_by_text) ;;
        on driver (Click yes_button)) ;;
     yes_clicked <- strategy yes_clicked
       (yes_button <- on driver (WaitPresence 5 yes_by_id) ;;
        on driver (ExecuteScript (js_click yes_button))) ;;
     if negb yes_clicked then
       raise (PyException "All strategies to click Yes button failed")
     else pass)
    (fun e =>
       if is_TimeoutException e then
         return_ (failure "Could not find Yes button in confirmation dialog" "element_not_found")
       else
         return_ (failure ("Error clicking Yes button: " ++ str e) "error")).

(** Steps 2 to 4, which precede the gate, and steps 6 to 11 and 13 to 20,
    which surround the checkbox sweep. *)
Definition steps_before_gate : M St dict unit :=
  step_dealer_registration ;;
  step_new_registration ;;
  step_view_detail.

Definition steps_before_sweep : M St dict unit :=
  step_verification_checkbox ;;
  step_documents_tab ;;
  step_modify_view ;;
  step_close_modal modal_close_not_found ;;
  step_close_popup popup_close_not_found ;;
  step_modify_view_again.

Definition steps_after_sweep : M St dict unit :=
  step_close_modal modal_close_2_not_found ;;
  step_close_popup popup_close_2_not_found ;;
  step_save_options ;;
  step_file_movement ;;
  step_file_movement_modal ;;
  step_proceed_to_next_seat ;;
  step_save ;;
  step_yes.

Definition execute_remaining_steps (recur : nat -> nat -> M St dict dict)
    (retry_count max_retries : nat) : M St dict dict :=
  call (
    step_alert_popup ;;
    try_except
      (steps_before_gate ;;
       step_approve_gate ;;
       steps_before_sweep ;;
       step_checkbox_sweep recur retry_count max_retries ;;
       steps_after_sweep ;;
       return_ completed_once)
      (fun e =>
         if is_TimeoutException e then return_ dealer_registration_not_found
         else return_ (automation_error e))).

End Steps.

(** Step 1: the Dashboard Pendency button, with the recovery on a
    locate timeout; [recur] is [run_automation_internal]. *)
Definition step_dashboard_pendency (driver : option WebDriver)
    (recur : nat -> nat -> M St dict dict) (retry_count max_retries : nat)
  : M St dict unit :=
  try_except
    (dashboard_button <- on driver (WaitClickable 10 dashboard_pendency) ;;
     on driver (Click dashboard_button))
    (fun e =>
       if is_TimeoutException e then
         (if Nat.ltb retry_count max_retries then
            recovered <- check_for_back_to_home_page driver ;;
            if recovered then
              r <- recur (retry_count + 1) max_retries ;;
              return_ r
            else pass
          else pass) ;;
         return_ button_not_found
       else raise e).

(** The body of [run_automation_internal]. *)
Definition run_automation_internal_body (recur : nat -> nat -> M St dict dict)
    (retry_count max_retries : nat) : M St dict dict :=
  call (
    driver <- read (@driver_instance World) ;;
    check_for_back_to_home_page driver ;;
    step_dashboard_pendency driver recur retry_count max_retries ;;
    r <- execute_remaining_steps driver recur retry_count max_retries ;;
    return_ r).

(** The recursion of [run_automation_internal] on itself, unrolled [fuel]
    deep; [run_automation_internal] gives it the depth the test
    [retry_count < max_retries] allows. *)
Fixpoint run_automation_internal_fuel (fuel : nat) (retry_count max_retries : nat)
  : M St dict dict :=
  match fuel with
  | 0 => diverge
  | S fuel' =>
      run_automation_internal_body (run_automation_internal_fuel fuel')
                                   retry_count max_retries
  end.

Definition run_automation_internal (retry_count max_retries : nat)
  : M St dict dict :=
  run_automation_internal_fuel (S (max_retries - retry_count))
                               retry_count max_retries.

(* ------------------------------------------------------------------ *)
(** *** Loop controller *)

(** [a == b] for the values the loop compares. *)
Definition py_eq (a b : value) : bool :=
  match a, b with
  | VStr x, VStr y => String.eqb x y
  | VBool x, VBool y => Bool.eqb x y
  | VInt x, VInt y => Nat.eqb x y
  | VNone, VNone => true
  | _, _ => false
  end.

Definition max_consecutive_errors : nat := 3.

Definition all_processed (processed_count : nat) : dict :=
  [("success", VBool true);
   ("message", VStr ("✅ Automation completed successfully! Processed "
                     ++ string_of_nat processed_count
                     ++ " item(s). No more pending approvals found."));
   ("status", VStr "completed");
   ("processed_count", VInt processed_count)].

Definition stopped_on_errors (processed_count : nat) (result : dict) : dict :=
  [("success", VBool false);
   ("message", VStr ("⚠️ Automation stopped after "
                     ++ string_of_nat max_consecutive_errors
                     ++ " consecutive errors. Processed "
                     ++ string_of_nat processed_count
                     ++ " item(s) successfully before errors. Last error: "
                     ++ format_value (dict_get result "message")));
   ("status", dict_get_default result "status" (VStr "error"));
   ("processed_count", VInt processed_count);
   ("error", dict_get result "message")].

(** [while True: ...] of [run_automation], unrolled [fuel] times, with the
    loop variables as arguments. *)
Fixpoint run_automation_loop (fuel : nat) (processed_count error_count : nat)
  : M St dict dict :=
  match fuel with
  | 0 => diverge
  | S fuel' =>
      result <- run_automation_internal 0 2 ;;
      if truthy (dict_get result "success") then
        run_automation_loop fuel' (processed_count + 1) 0
      else if py_eq (dict_get result "status") (VStr "no_approve_button") then
        return_ (all_processed processed_count)
      else
        let error_count := error_count + 1 in
        if Nat.leb max_consecutive_errors error_count then
          return_ (stopped_on_errors processed_count result)
        else
          run_automation_loop fuel' processed_count error_count
  end.

Definition run_automation {R} (fuel : nat) : M St R dict :=
  call (
    status <- check_browser_status ;;
    browser_open <- item status "browser_open" ;;
    (if negb (truthy browser_open) then
       return_ (failure "⚠️ Browser is not open. Please click 'Start' to open the browser and login first." "browser_not_open")
     else pass) ;;
    logged_in <- item status "logged_in" ;;
    (if negb (truthy logged_in) then
       return_ (failure "⚠️ You are not logged in. Please login to Vahan website first." "not_logged_in")
     else pass) ;;
    run_automation_loop fuel 0 0).

(* ------------------------------------------------------------------ *)
(** *** The HTTP layer over the engine ([backend/main.py])

    The handlers of the four routes that call the engine; the value is
    the JSON object of the response. *)

Definition start_browser_endpoint {R} (fuel : nat) : M St R dict :=
  call (
    try_except
      (result <- start_vahan_browser fuel ;;
       if truthy (dict_get result "success") then
         return_ [("success", VBool true);
                  ("message", dict_get_default result "message"
                                (VStr "Browser started and login acknowledged!"));
                  ("status", dict_get_default result "status"
                               (VStr "login_success"));
                  ("reused_session", dict_get_default result "reused_session"
                                       (VBool false))]
       else
         return_ [("success", VBool false);
                  ("message", dict_get_default result "message"
                                (VStr "Failed to start browser"));
                  ("status", dict_get_default result "status" (VStr "error"))])
      (fun e =>
         return_ [("success", VBool false);
                  ("message", VStr ("Error starting browser: " ++ str e));
                  ("status", VStr "error")])).

Definition check_browser_status_endpoint {R} : M St R dict :=
  call (
    try_except
      (result <- check_browser_status ;;
       return_ [("success", VBool true);
                ("browser_open", dict_get_default result "browser_open"
                                   (VBool false));
                ("logged_in", dict_get_default result "logged_in" (VBool false));
                ("message", dict_get_default result "message"
                              (VStr "Status checked"));
                ("current_url", dict_get_default result "current_url" VNone)])
      (fun e =>
         return_ [("success", VBool false);
                  ("browser_open", VBool false);
                  ("logged_in", VBool false);
                  ("message", VStr ("Error checking status: " ++ str e))])).

Definition close_browser_endpoint {R} : M St R dict :=
  call (
    try_except
      (result <- close_vahan_browser ;;
       if (result : bool) then
         return_ [("success", VBool true);
                  ("message", VStr "Browser closed successfully")]
       else
         return_ [("success", VBool false);
                  ("message", VStr "Failed to close browser")])
      (fun e =>
         return_ [("success", VBool false);
                  ("message", VStr ("Error closing browser: " ++ str e))])).

Definition run_automation_endpoint {R} (fuel : nat) : M St R dict :=
  call (
    try_except
      (result <- run_automation fuel ;;
       if truthy (dict_get result "success") then
         return_ [("success", VBool true);
                  ("message", dict_get_default result "message"
                                (VStr "Automation completed successfully!"));
                  ("status", dict_get_default result "status"
                               (VStr "completed"));
                  ("processed_count", dict_get_default result "processed_count"
                                        (VInt 0))]
       else
         return_ [("success", VBool false);
                  ("message", dict_get_default result "message"
                                (VStr "Automation failed"));
                  ("status", dict_get_default result "status" (VStr "error"));
                  ("processed_count", dict_get_default result "processed_count"
                                        (VInt 0));
                  ("error", dict_get_default result "error"
                              (dict_get result "message"))])
      (fun e =>
         return_ [("success", VBool false);
                  ("message", VStr ("Error running automation: " ++ str e));
                  ("status", VStr "error");
                  ("processed_count", VInt 0);
                  ("error", VStr (str e))])).

End Engine.

Arguments perform {World} oracle {R} c _.
Arguments on {World} oracle {R} driver c _.

(* ================================================================== *)
(** ** A simulated browser

    One concrete outside world, used to run the engine on explicit
    scenarios.  Its state says what the browser will still do; every
    command it is not told about succeeds with a fixed answer. *)

Record sim : Type := mkSim {
  back_home_shown : list bool; (* for each coming lookup of the Back to
                                  Home-Page button: is it on the page *)
  dashboard_missing : bool;    (* the Dashboard Pendency button never gets clickable *)
  click_intercepted : bool;    (* clicks on page elements are intercepted *)
  rows_pending : bool;         (* the table holds an Approve button *)
  verification_missing : bool; (* the verification checkbox never appears *)
  checkboxes_missing : bool;   (* the approvedStatus checkboxes never appear *)
  login_reads : nat;           (* reads of the location that still show the login page *)
  port_closed : bool           (* nothing listens on the control port *)
}.

Definition home_url : string :=
  "https://vahan.parivahan.gov.in/vahan/vahan/home.xhtml".

(** The element the simulated browser shows as Back to Home-Page. *)
Definition back_element : WebElement := 45.

Definition next_lookup (w : sim) : sim :=
  mkSim (tl (back_home_shown w)) (dashboard_missing w) (click_intercepted w)
        (rows_pending w) (verification_missing w) (checkboxes_missing w)
        (login_reads w) (port_closed w).

Definition use_login_read (w : sim) : sim :=
  mkSim (back_home_shown w) (dashboard_missing w) (click_intercepted w)
        (rows_pending w) (verification_missing w) (checkboxes_missing w)
        (pred (login_reads w)) (port_closed w).

Definition sim_driver (c : dcmd) (w : sim) : reply (danswer c) * sim :=
  match c as c0 return reply (danswer c0) * sim with
  | CurrentUrl =>
      match login_reads w with
      | 0 => (Ok home_url, w)
      | S _ => (Ok VAHAN_URL, use_login_read w)
      end
  | PageSource => (Ok "", w)
  | Text el =>
      (Ok (if Nat.eqb el back_element then "Back to Home-Page" else ""), w)
  | TagName el => (Ok "div", w)
  | FindElement l =>
      if locator_eqb l back_button_id then
        match back_home_shown w with
        | true :: _ => (Ok back_element, next_lookup w)
        | _ => (Err (WebDriverException "no such element"), next_lookup w)
        end
      else (Ok 0, w)
  | ElementFindElement _ _ => (Ok 0, w)
  | WaitClickable _ l =>
      if andb (locator_eqb l dashboard_pendency) (dashboard_missing w)
      then (Err (TimeoutException "Message: "), w)
      else (Ok 0, w)
  | WaitPresence _ l =>
      if orb (andb (locator_eqb l approved_status) (checkboxes_missing w))
             (andb (locator_eqb l verify_check_value) (verification_missing w))
      then (Err (TimeoutException "Message: "), w)
      else (Ok 0, w)
  | FindElements l =>
      if andb (locator_eqb l approve_button) (rows_pending w)
      then (Ok [1], w)
      else (Ok [], w)
  | IsDisplayed _ => (Ok false, w)
  | IsSelected _ => (Ok false, w)
  | GetAttribute _ _ => (Ok (Some "ui-state-active"), w)
  | Click el =>
      if Nat.eqb el back_element then (Ok tt, w)
      else if click_intercepted w
      then (Err (WebDriverException "element click intercepted"), w)
      else (Ok tt, w)
  | SwitchToDefaultContent => (Ok tt, w)
  | Quit => (Ok tt, w)
  | Get _ => (Ok tt, w)
  | SetPageLoadTimeout _ => (Ok tt, w)
  | WaitClickableElement _ _ => (Ok tt, w)
  | WaitReadyStateComplete _ => (Ok tt, w)
  | ExecuteScript _ => (Ok tt, w)
  | SwitchToFrame _ => (Ok tt, w)
  end.

Definition sim_oracle : oracle_type sim :=
  fun c w =>
    match c as c0 return reply (answer c0) * sim with
    | TimeTime => (Ok (S754_zero false), w)
    | Sleep _ => (Ok tt, w)
    | SocketConnect _ => (Ok (if port_closed w then 111%Z else 0%Z), w)
    | FileRead => (Ok tt, w)
    | FileWrite _ => (Ok tt, w)
    | FileRemove => (Ok tt, w)
    | UcChrome _ => (Ok 0, w)
    | ChromeDriverManagerInstall => (Ok "chromedriver", w)
    | Driver _ c' => sim_driver c' w
    end.

(** The browser when everything works: logged in, nothing pending. *)
Definition calm : sim :=
  mkSim [] false false false false false 0 false.

(** The Back to Home-Page button is on the page at the next [k] lookups:
    it is shown exactly [k] times and is there whenever it is looked for
    until then. *)
Definition shown_from_now (k : nat) : list bool := repeat true k.

(** The Back to Home-Page button is away at each start of the sequence
    and on the page at the lookup after each of the next [j] timeouts. *)
Fixpoint shown_at_timeouts (j : nat) : list bool :=
  match j with
  | 0 => []
  | S j' => false :: true :: shown_at_timeouts j'
  end.

(** The Dashboard Pendency button never gets clickable. *)
Definition stuck_at_dashboard (shown : list bool) : sim :=
  mkSim shown true false false false false 0 false.

(** Work is pending and the verification checkbox never appears. *)
Definition stuck_at_verification (shown : list bool) : sim :=
  mkSim shown false false true true false 0 false.

(** Work is pending and the approvedStatus checkboxes never appear in the
    iframe. *)
Definition stuck_at_checkboxes (shown : list bool) : sim :=
  mkSim shown false false true false true 0 false.

(** Work is pending and every click on a page element is intercepted. *)
Definition clicks_blocked : sim :=
  mkSim [] false true true false false 0 false.

(** The browser shows the login page for two more reads of its location,
    then the home page: the operator logs in while the gate polls. *)
Definition operator_logs_in : sim :=
  mkSim [] false false false false false 2 false.

(** No browser listens on the control port. *)
Definition no_browser : sim :=
  mkSim [] false false false false false 0 true.

(** The engine attached to driver 0 of a simulated browser. *)
Definition attached (w : sim) : state sim :=
  mkState w (Some 0) true None TopLevel [].

(** The engine just started: no handle, not logged in, no session file. *)
Definition fresh (w : sim) : state sim :=
  mkState w None false None TopLevel [].



(** A browser with pending work whose iframe cannot be left: the
    approvedStatus checkboxes never appear in it, and once the driver has
    switched to a frame [switch_to.default_content()] fails.  The world
    says whether the driver has switched to a frame. *)
Definition trap_driver (c : dcmd) (inside : bool) : reply (danswer c) * bool :=
  match c as c0 return reply (danswer c0) * bool with
  | SwitchToFrame _ => (Ok tt, true)
  | SwitchToDefaultContent =>
      if inside then (Err (WebDriverException "no such window"), inside)
      else (Ok tt, inside)
  | c' => (fst (sim_driver c' (stuck_at_checkboxes [])), inside)
  end.

Definition trap_oracle : oracle_type bool :=
  fun c inside =>
    match c as c0 return reply (answer c0) * bool with
    | Driver _ c' => trap_driver c' inside
    | c' => (fst (sim_oracle c' calm), inside)
    end.

(** A machine on which the session file cannot be removed; everything
    else answers as the calm browser does. *)
Definition locked_file_oracle : oracle_type unit :=
  fun c w =>
    match c as c0 return reply (answer c0) * unit with
    | FileRemove => (Err (PyException "PermissionError"), w)
    | c' => (fst (sim_oracle c' calm), w)
    end.

(** A browser that shows an error page with the Back to Home-Page button
    until the button has been clicked twice: the Dashboard Pendency button
    gets clickable only then, and the table of pending applications is
    empty.  The world is the number of clicks on the button. *)
Definition revived_driver (c : dcmd) (clicks : nat)
  : reply (danswer c) * nat :=
  match c as c0 return reply (danswer c0) * nat with
  | FindElement l =>
      (Ok (if locator_eqb l back_button_id then back_element else 0), clicks)
  | WaitClickable _ l =>
      if andb (locator_eqb l dashboard_pendency) (Nat.ltb clicks 2)
      then (Err (TimeoutException "Message: "), clicks)
      else (Ok 0, clicks)
  | Click el =>
      (Ok tt, if Nat.eqb el back_element then S clicks else clicks)
  | c' => (fst (sim_driver c' calm), clicks)
  end.

Definition revived_oracle : oracle_type nat :=
  fun c clicks =>
    match c as c0 return reply (answer c0) * nat with
    | Driver _ c' => revived_driver c' clicks
    | c' => (fst (sim_oracle c' calm), clicks)
    end.

(** Number of times a run has looked for the Dashboard Pendency button:
    one per start of the step sequence. *)
Definition is_step1_locate (c : cmd) : bool :=
  match c with
  | Driver _ (WaitClickable _ l) => locator_eqb l dashboard_pendency
  | _ => false
  end.

Definition sequence_starts (t : list cmd) : nat :=
  length (filter is_step1_locate t).

(** Restarts of the step sequence: every start but the first. *)
Definition restarts (t : list cmd) : nat := sequence_starts t - 1.

(** Commands that start a browser or fetch a driver for one. *)
Definition creates_endpoint (c : cmd) : bool :=
  match c with
  | UcChrome (Launch _ _) => true
  | ChromeDriverManagerInstall => true
  | _ => false
  end.

(* ================================================================== *)
(** ** The system identifier of [backend/main.py] *)

(** [generate_systemId] of [backend/main.py] derives the identifier of an
    installation from two hardware serials.  It is a pure function of its
    two arguments.  The hash itself is not modelled: [blake2b] stands for
    [int(hashlib.blake2b(text.encode('utf-8'), digest_size=32).hexdigest(), 16)],
    the digest read as a number, and is an argument of the model. *)

(** [c.upper()] for one character: the ASCII letters [a] to [z] become
    [A] to [Z], every other character of the byte string is left as it
    is. *)
Definition upper_ascii (c : ascii) : ascii :=
  let n := nat_of_ascii c in
  if ((97 <=? n)%nat && (n <=? 122)%nat)%bool then ascii_of_nat (n - 32) else c.

(** [s.upper()] *)
Fixpoint upper (s : string) : string :=
  match s with
  | EmptyString => EmptyString
  | String c s' => String (upper_ascii c) (upper s')
  end.

Definition base36_chars : string := "0123456789ABCDEFGHIJKLMNOPQRSTUVWXYZ".

(** [text[i]]: [None] stands for the [IndexError] of an index that is
    out of range. *)
Definition char_at (text : string) (i : N) : option ascii :=
  String.get (N.to_nat i) text.

(** The [while big_int_value > 0] loop, one turn per unit of [fuel];
    [None] when the fuel runs out before the loop ends, or when the
    index into [base36_chars] is out of range. *)
Fixpoint base36_loop (fuel : nat) (big_int_value : N) (base36_result : string)
  : option string :=
  match fuel with
  | O => None
  | S fuel' =>
      if (0 <? big_int_value)%N then
        let (quotient, remainder) := N.div_eucl big_int_value 36 in
        match char_at base36_chars remainder with
        | Some digit =>
            base36_loop fuel' quotient (String digit base36_result)
        | None => None
        end
      else Some base36_result
  end.

(** [s.zfill(width)]: zeros on the left up to [width], after a leading
    sign when there is one; [s] itself when it is long enough. *)
Definition zfill (width : nat) (s : string) : string :=
  let fill := String.concat "" (repeat "0" (width - String.length s)) in
  match s with
  | String c s' =>
      if (Ascii.eqb c "+" || Ascii.eqb c "-")%bool
      then String c (fill ++ s')
      else fill ++ s
  | EmptyString => fill
  end.

(** [s[i:j]] for indices that are not negative; a slice that reaches
    beyond the end of [s] is cut there. *)
Definition slice (i j : nat) (s : string) : string := substring i (j - i) s.

(** [range(0, stop, step)] for a positive [step]. *)
Definition range_step (stop step : nat) : list nat :=
  map (fun k => k * step) (seq 0 ((stop + step - 1) / step)).

Definition generate_systemId (blake2b : string -> N) (fuel : nat)
    (processorId motherboardSerial : string) : option string :=
  let input_string := upper (processorId ++ ":" ++ motherboardSerial) in
  let big_int_value := blake2b input_string in
  match base36_loop fuel big_int_value "" with
  | None => None
  | Some base36_result =>
      let base36_result :=
        if String.eqb base36_result "" then "0" else base36_result in
      let base36 := upper base36_result in
      let raw_key := slice 0 16 (zfill 16 base36) in
      let formatted_key :=
        String.concat "-"
          (map (fun i => slice i (i + 4) raw_key)
               (range_step (String.length raw_key) 4)) in
      Some formatted_key
  end.

(** The BLAKE2b digest (32 bytes, as a number) of the text
    [BFEBFBFF000906EA:PF1ABCDE], for running the model on a sample. *)
Definition sample_digest : N :=
  57180978836602588216784882787463186851936806812586011094172643310566922577600.

(* ================================================================== *)
(** ** More simulated worlds *)

(** An office with a queue of pending applications: the world is their
    number; the table shows an Approve button while one is pending, and
    confirming with Yes takes one off the queue.  Everything else answers
    as the calm browser does. *)
Definition yes_element : WebElement := 20.

Definition queue_driver (c : dcmd) (pending : nat)
  : reply (danswer c) * nat :=
  match c as c0 return reply (danswer c0) * nat with
  | FindElements l =>
      (Ok (if andb (locator_eqb l approve_button) (Nat.ltb 0 pending)
           then [1] else []), pending)
  | WaitClickable _ l =>
      (Ok (if locator_eqb l yes_by_class then yes_element else 0), pending)
  | Click el =>
      (Ok tt, if Nat.eqb el yes_element then pred pending else pending)
  | c' => (fst (sim_driver c' calm), pending)
  end.

Definition queue_oracle : oracle_type nat :=
  fun c pending =>
    match c as c0 return reply (answer c0) * nat with
    | Driver _ c' => queue_driver c' pending
    | c' => (fst (sim_oracle c' calm), pending)
    end.

(** A browser that accepts the attach on the control port and then
    answers no command. *)
Definition mute_oracle : oracle_type unit :=
  fun c w =>
    match c as c0 return reply (answer c0) * unit with
    | Driver _ _ => (Err (WebDriverException "no such window"), w)
    | SocketConnect _ => (Ok 0%Z, w)
    | c' => (fst (sim_oracle c' calm), w)
    end.

(** A machine on which no browser can be attached to or started. *)
Definition barren_oracle : oracle_type unit :=
  fun c w =>
    match c as c0 return reply (answer c0) * unit with
    | UcChrome _ => (Err (PyException "cannot connect to chrome"), w)
    | ChromeDriverManagerInstall => (Err (PyException "no network"), w)
    | Driver _ _ => (Err (WebDriverException "no such window"), w)
    | c' => (fst (sim_oracle c' calm), w)
    end.

(** The engine attached to the browser of an office with [pending]
    applications in the queue. *)
Definition at_office (pending : nat) : state nat :=
  mkState pending (Some 0) true None TopLevel [].

(** The engine attached to driver 0 of the browser of [revived_oracle],
    which shows its error page. *)
Definition on_error_page : state nat :=
  mkState 0 (Some 0) true None TopLevel [].

(* ================================================================== *)
(** ** Notions used to state the properties *)

Section Notions.

Context {World : Type}.
Variable oracle : oracle_type World.

Local Abbreviation St := (state World).

(** [m] keeps the invariant [I] of the state, however it ends. *)
Definition preserves {R A} (I : St -> Prop) (m : M St R A) : Prop :=
  forall s, I s -> I (snd (m s)).

(** [m] ends normally or raises: it executes no [return] of the enclosing
    function and runs no loop out of fuel. *)
Definition plain {R A} (m : M St R A) : Prop :=
  forall s, match fst (m s) with
            | Normal _ | Raise _ => True
            | _ => False
            end.

(** [m] ends: it does not run a loop or a recursion out of fuel. *)
Definition finishes {R A} (m : M St R A) : Prop :=
  forall s, fst (m s) <> Diverged.

(** The driver's commands address the top-level document. *)
Definition at_top_level (s : St) : Prop := context s = TopLevel.

(** The commands issued since the trace was [t0] all satisfy [P]. *)
Definition issued_since (P : cmd -> Prop) (t0 : list cmd) (s : St) : Prop :=
  exists l, trace s = (l ++ t0)%list /\ Forall P l.

(** The commands of a read-only status probe: probing the control port,
    attaching to the browser that listens there, reading its location,
    dropping a handle that does not answer, and keeping the session file. *)
Definition status_probe_cmd (c : cmd) : bool :=
  match c with
  | SocketConnect port => Z.eqb port CHROME_DEBUG_PORT
  | UcChrome (Attach _) => true
  | Driver _ CurrentUrl | Driver _ Quit => true
  | TimeTime | FileWrite _ | FileRemove => true
  | _ => false
  end.

(** The control port does not accept the connection. *)
Definition port_reported_closed (a : reply Z) : Prop :=
  match a with
  | Ok code => code <> 0%Z
  | Err _ => True
  end.

(** A result of the step sequencer that is neither a success nor the
    terminal signal. *)
Definition is_failure (result : dict) : Prop :=
  truthy (dict_get result "success") = false /\
  py_eq (dict_get result "status") (VStr "no_approve_button") = false.

(** *** The two globals of the engine *)

(** The login flag is up only while there is a handle. *)
Definition engine_invariant (s : St) : Prop :=
  driver_instance s = None -> is_logged_in s = false.

(** The globals of the engine are as given. *)
Definition globals (d : option WebDriver) (b : bool) (s : St) : Prop :=
  driver_instance s = d /\ is_logged_in s = b.

(** The login flag is down. *)
Definition flag_down (s : St) : Prop := is_logged_in s = false.

(** There is a handle. *)
Definition has_handle (s : St) : Prop := driver_instance s <> None.

(** What [check_browser_status] reports under [browser_open] agrees with
    the globals. *)
Definition agrees (browser_open : value) (s : St) : Prop :=
  if truthy browser_open then has_handle s else globals None false s.

(** [m] assigns to neither global. *)
Definition keeps_globals {R A} (m : M St R A) : Prop :=
  forall d b, preserves (globals d b) m.

(** [P] speaks of the two globals only. *)
Definition about_globals (P : St -> Prop) : Prop :=
  forall s s', driver_instance s' = driver_instance s ->
               is_logged_in s' = is_logged_in s -> P s -> P s'.

(** [m] ends normally: it neither raises, nor returns from the enclosing
    function, nor runs out of fuel. *)
Definition silent {R A} (m : M St R A) : Prop :=
  forall s, exists a, fst (m s) = Normal a.

(** From a state in [P], [m] ends in a state in [N] when it ends
    normally, in [XR] when it returns from the enclosing function, in [XE]
    when it raises and in [XD] when its fuel runs out. *)
Definition hoare {R A} (P : St -> Prop) (m : M St R A)
    (N : A -> St -> Prop) (XR : R -> St -> Prop) (XE XD : St -> Prop) : Prop :=
  forall s, P s ->
    match m s with
    | (Normal a, s') => N a s'
    | (Return r, s') => XR r s'
    | (Raise _, s') => XE s'
    | (Diverged, s') => XD s'
    end.

(** The operations of the engine, as the HTTP layer calls them; [fuel]
    bounds the turns of their loops. *)
Inductive operation : Type :=
| Status
| Start (fuel : nat)
| Run (fuel : nat)
| Close.

(** The state an operation leaves, however it ends. *)
Definition after (op : operation) (s : St) : St :=
  match op with
  | Status => snd (check_browser_status oracle (R:=unit) s)
  | Start fuel => snd (start_vahan_browser oracle (R:=unit) fuel s)
  | Run fuel => snd (run_automation oracle (R:=unit) fuel s)
  | Close => snd (close_vahan_browser oracle (R:=unit) s)
  end.

(** The states of the engine: the module is loaded with no handle and the
    flag down, the operations are the only writers of the two globals,
    and everything else may change between two operations. *)
Inductive reachable : St -> Prop :=
| reachable_loaded (s : St) :
    driver_instance s = None -> is_logged_in s = false -> reachable s
| reachable_operation (op : operation) (s : St) :
    reachable s -> reachable (after op s)
| reachable_outside (s s' : St) :
    reachable s ->
    driver_instance s' = driver_instance s ->
    is_logged_in s' = is_logged_in s ->
    reachable s'.

(** *** Poll ticks of the login gate *)

Section Ticks.

Variable driver : option WebDriver.
Variable start_time : spec_float.
Variable timeout : Z.
Variable login_url : string.

(** The clock read that opens a tick from [s] is within the timeout, by
    the test [time.time() - start_time < timeout] of the loop, and leaves
    the engine in [s']. *)
Definition tick_within (s s' : St) : Prop :=
  exists now,
    perform oracle (R:=bool) TimeTime s = (Normal now, s') /\
    float_lt_int (float_sub now start_time) timeout = true.

(** The clock read that would open a tick from [s] fails the test of the
    loop: the timeout has elapsed. *)
Definition tick_expired (s s' : St) : Prop :=
  exists now,
    perform oracle (R:=bool) TimeTime s = (Normal now, s') /\
    float_lt_int (float_sub now start_time) timeout = false.

(** The location read of the poll from [s] fails, in [s']. *)
Definition location_read_fails (s s' : St) : Prop :=
  exists e, on oracle (R:=bool) driver CurrentUrl s = (Raise e, s').

(** The poll from [s] observes the authentication signal: the location
    differs from the initial one and does not match login, or a
    post-authentication marker is present. *)
Definition signal_observed (s : St) : Prop :=
  exists current_url s1,
    on oracle (R:=bool) driver CurrentUrl s = (Normal current_url, s1) /\
    ((current_url <> login_url /\
      contains "login" (lower current_url) = false)
     \/
     exists markers s2,
       on oracle (R:=bool) driver (FindElements post_login_locator) s1
       = (Normal markers, s2) /\ markers <> [])%type.

(** The poll from [s] reads the location, observes no signal (a failing
    marker lookup counts as no marker), sleeps, and leaves the engine in
    [s']. *)
Definition no_signal_poll (s s' : St) : Prop :=
  exists current_url s1 s2,
    on oracle (R:=bool) driver CurrentUrl s = (Normal current_url, s1) /\
    url_changed login_url current_url = false /\
    (on oracle (R:=bool) driver (FindElements post_login_locator) s1
       = (Normal [], s2)
     \/ exists e,
          on oracle (R:=bool) driver (FindElements post_login_locator) s1
          = (Raise e, s2)) /\
    perform oracle (R:=bool) (Sleep 2) s2 = (Normal tt, s').

(** A tick within the timeout that observes nothing. *)
Definition idle_tick (s s' : St) : Prop :=
  exists s1, tick_within s s1 /\ no_signal_poll s1 s'.

Fixpoint idle_ticks (n : nat) (s s' : St) : Prop :=
  match n with
  | 0 => s = s'
  | S n' => exists s1, idle_tick s s1 /\ idle_ticks n' s1 s'
  end.

End Ticks.

End Notions.

(* ------------------------------------------------------------------ *)
(** *** Notions for the properties of the rest of the engine *)

Section FurtherNotions.

Context {World : Type}.
Variable oracle : oracle_type World.

Local Abbreviation St := (state World).

(** [m] lets no exception out. *)
Definition never_raises {R A} (m : M St R A) : Prop :=
  forall s e, fst (m s) <> Raise e.

(** The values [m] ends with satisfy [QN], the values it returns from the
    enclosing function satisfy [QR]. *)
Definition yields {R A} (QN : A -> Prop) (QR : R -> Prop) (m : M St R A)
  : Prop :=
  forall s, match fst (m s) with
            | Normal a => QN a
            | Return r => QR r
            | _ => True
            end.

(** The report of [check_browser_status] says what the globals say:
    [browser_open] that there is a handle, [logged_in] that there is a
    handle and the login flag is up. *)
Definition report_ok (status : dict) (s : St) : Prop :=
  dict_lookup "browser_open" status
  = Some (VBool (is_not_None (driver_instance s))) /\
  dict_lookup "logged_in" status
  = Some (VBool (andb (is_not_None (driver_instance s)) (is_logged_in s))) /\
  exists message, dict_lookup "message" status = Some (VStr message).

(** The results of [start_vahan_browser]. *)
Definition start_statuses : list string :=
  ["already_logged_in"; "login_success"; "login_timeout"; "connection_error";
   "error"].

(** A result of [start_vahan_browser]: it carries a message and one of the
    five statuses, its [success] is true for [already_logged_in] and
    [login_success] and for no other, and then the engine has a handle
    and the login flag up. *)
Definition start_result_ok (result : dict) (s : St) : Prop :=
  exists message status,
    dict_lookup "message" result = Some (VStr message) /\
    dict_lookup "status" result = Some (VStr status) /\
    In status start_statuses /\
    dict_lookup "success" result
    = Some (VBool (orb (String.eqb status "already_logged_in")
                       (String.eqb status "login_success"))) /\
    (dict_lookup "success" result = Some (VBool true) ->
     is_logged_in s = true /\ driver_instance s <> None).

(** A result of the step sequencer or of the loop: [success] is a
    boolean, [message] and [status] are strings, and [success] is true
    only with the status [completed]. *)
Definition result_ok (result : dict) : Prop :=
  exists success message status,
    dict_lookup "success" result = Some (VBool success) /\
    dict_lookup "message" result = Some (VStr message) /\
    dict_lookup "status" result = Some (VStr status) /\
    (success = true -> status = "completed").

(** Since the trace was [t0], the Dashboard Pendency button has been
    looked for at most [k] times. *)
Definition starts_added (k : nat) (t0 : list cmd) (s : St) : Prop :=
  exists l, trace s = (l ++ t0)%list /\ sequence_starts l <= k.

(** [n] invocations of the step sequencer in a row, each with a result
    whose [success] is true, lead from [s] to [s']. *)
Fixpoint successes (n : nat) (s s' : St) : Prop :=
  match n with
  | 0 => s = s'
  | S n' =>
      exists result s1,
        run_automation_internal oracle 0 2 s = (Normal result, s1) /\
        truthy (dict_get result "success") = true /\
        successes n' s1 s'
  end.

(** A command with the answer the outside world gave to it. *)
Record exchange : Type := { sent : cmd; got : reply (answer sent) }.

(** The exchanges of the commands [l] (the latest first), issued one
    after the other from the world [w], and the world they leave. *)
Fixpoint replay (l : list cmd) (w : World) : list exchange * World :=
  match l with
  | [] => ([], w)
  | c :: l' =>
      let (h, w1) := replay l' w in
      let (r, w2) := oracle c w1 in
      ({| sent := c; got := r |} :: h, w2)
  end.

(** [h] is what happened between [s0] and [s]: the commands issued since
    [s0] with the answers they got, the latest first. *)
Definition happened (s0 s : St) (h : list exchange) : Prop :=
  exists l, trace s = (l ++ trace s0)%list /\
            replay l (world s0) = (h, world s).

(** Since [s0], what happened satisfies [F]. *)
Definition seen (s0 : St) (F : list exchange -> Prop) (s : St) : Prop :=
  exists h, happened s0 s h /\ F h.

(** The command was carried out: its answer is no exception. *)
Definition answered (x : exchange) : bool :=
  match got x with Ok _ => true | Err _ => false end.

Definition is_click (c : cmd) : bool :=
  match c with Driver _ (Click _) => true | _ => false end.

(** The latest exchange is a click on a page element that the browser
    carried out. *)
Definition click_carried_out (h : list exchange) : Prop :=
  exists x h', h = x :: h' /\ is_click (sent x) = true /\ answered x = true.

(** A launch that gave a browser. *)
Definition browser_started (x : exchange) : bool :=
  match sent x with
  | UcChrome (Launch _ _) => answered x
  | _ => false
  end.

(** The browser [d] was taken over: the attach on the control port gave
    [d], [d] answered the read of its location, and nothing was started
    or downloaded. *)
Definition taken_over (d : WebDriver) (h : list exchange) : Prop :=
  (exists url h',
     h = {| sent := Driver d CurrentUrl; got := Ok url |}
           :: {| sent := UcChrome (Attach "127.0.0.1:9222"); got := Ok d |}
           :: h') /\
  Forall (fun x => creates_endpoint (sent x) = false) h.

(** The browser [d] was started: the latest exchange is the launch that
    gave [d], and no launch before it gave a browser. *)
Definition started (d : WebDriver) (h : list exchange) : Prop :=
  exists version path h',
    h = {| sent := UcChrome (Launch version path); got := Ok d |} :: h' /\
    filter browser_started h' = [].

(** The commands that only look at the page. *)
Definition lookup_cmd (c : cmd) : bool :=
  match c with
  | Driver _ (FindElements _) | Driver _ (FindElement _) => true
  | _ => false
  end.

(** Two states differ at most in the outside world and the trace. *)
Definition same_engine (s s' : St) : Prop :=
  driver_instance s' = driver_instance s /\
  is_logged_in s' = is_logged_in s /\
  session_file s' = session_file s /\
  context s' = context s.

(** The commands of one who watches for a login: reading the clock and
    the location, looking for elements, sleeping. *)
Definition watching_cmd (c : cmd) : bool :=
  match c with
  | TimeTime | Sleep _ => true
  | Driver _ CurrentUrl | Driver _ (FindElements _) => true
  | _ => false
  end.

(** Loading a page. *)
Definition is_navigation (c : cmd) : bool :=
  match c with
  | Driver _ (Get _) => true
  | _ => false
  end.

(** Since the trace was [t0], at most [k] commands in [p] were issued. *)
Definition count_added (p : cmd -> bool) (k : nat) (t0 : list cmd) (s : St)
  : Prop :=
  exists l, trace s = (l ++ t0)%list /\ length (filter p l) <= k.

(** A response of the HTTP layer: a boolean [success] and a string
    [message]. *)
Definition response_ok (response : dict) : Prop :=
  exists success message,
    dict_lookup "success" response = Some (VBool success) /\
    dict_lookup "message" response = Some (VStr message).

(** The two globals and the session file are as in [s]. *)
Definition same_session (s s' : St) : Prop :=
  driver_instance s' = driver_instance s /\
  is_logged_in s' = is_logged_in s /\
  session_file s' = session_file s.

(** The session file holds the record of the globals. *)
Definition record_saved (s : St) : Prop :=
  exists timestamp,
    session_file s
    = Some (session_data (is_not_None (driver_instance s)) (is_logged_in s)
                         timestamp).

(** A character of the base-36 alphabet. *)
Definition is_base36 (c : ascii) : bool :=
  existsb (Ascii.eqb c) (list_ascii_of_string base36_chars).

(** A group of an identifier: four characters of the base-36 alphabet. *)
Definition is_group (g : string) : bool :=
  (String.length g =? 4)%nat && forallb is_base36 (list_ascii_of_string g).

(** *** Recoveries of the step sequencer *)

(** The [try] block of step 1: wait for the Dashboard Pendency button
    and click it. *)
Definition step_1_try (driver : option WebDriver) : M St dict unit :=
  dashboard_button <- on oracle driver (WaitClickable 10 dashboard_pendency) ;;
  on oracle driver (Click dashboard_button).

(** What the handler of step 12 does on a timeout before it decides: back
    to the top-level document, a look at the page source, and the check
    for the Back to Home-Page button. *)
Definition after_sweep_timeout (driver : option WebDriver) : M St dict bool :=
  try_except (switch_to_default_content oracle driver) (fun _ => pass) ;;
  try_except (on oracle driver PageSource ;; pass) (fun _ => pass) ;;
  check_for_back_to_home_page oracle driver.

(** [m], run in [s], raises TimeoutException and leaves [s']. *)
Definition times_out {A} (m : M St dict A) (s s' : St) : Prop :=
  exists e, is_TimeoutException e = true /\ m s = (Raise e, s').

(** The invocation of [run_automation_internal] started in [s] is at
    step 1 in [s1]: the check that opens every invocation has answered. *)
Definition opens (s s1 : St) : Prop :=
  exists found,
    check_for_back_to_home_page oracle (R:=dict) (driver_instance s) s
    = (Normal found, s1).

(** The invocation started in [s] is at the gate (step 5) in [sg]: step 1
    and steps 1.5 to 4 have run to their end. *)
Definition reaches_gate (s sg : St) : Prop :=
  let driver := driver_instance s in
  exists s1,
    opens s s1 /\
    (step_1_try driver ;;
     step_alert_popup oracle driver ;;
     steps_before_gate oracle driver) s1 = (Normal tt, sg).

(** The invocation started in [s] is at step 6 in [s6]: the gate has found
    work and opened it. *)
Definition reaches_step_6 (s s6 : St) : Prop :=
  exists sg,
    reaches_gate s sg /\
    step_approve_gate oracle (driver_instance s) sg = (Normal tt, s6).

(** The invocation started in [s] is at step 12 in [s12]. *)
Definition reaches_sweep (s s12 : St) : Prop :=
  exists s6,
    reaches_step_6 s s6 /\
    steps_before_sweep oracle (driver_instance s) s6 = (Normal tt, s12).

(** In the invocation started in [s] the locate of step 1 times out and
    the check that follows finds the Back to Home-Page button and clicks
    it, which leaves [s']. *)
Definition recovers_at_step_1 (s s' : St) : Prop :=
  let driver := driver_instance s in
  exists s1 s2,
    opens s s1 /\
    times_out (on oracle driver (WaitClickable 10 dashboard_pendency)) s1 s2 /\
    check_for_back_to_home_page oracle (R:=dict) driver s2 = (Normal true, s').

(** In the invocation started in [s] step 12 times out and the check that
    follows finds the button and clicks it, which leaves [s']. *)
Definition recovers_at_step_12 (s s' : St) : Prop :=
  let driver := driver_instance s in
  exists s12 s2,
    reaches_sweep s s12 /\
    times_out (sweep_in_iframe oracle driver) s12 s2 /\
    after_sweep_timeout driver s2 = (Normal true, s').

(** A recovery: a timeout at step 1 or at step 12 of the invocation
    started in [s] with [retry_count], after which the button is found,
    while [retry_count < max_retries]. *)
Definition recovery (retry_count max_retries : nat) (s s' : St) : Prop :=
  retry_count < max_retries /\
  (recovers_at_step_1 s s' \/ recovers_at_step_12 s s').

(** [j] recoveries in a row, the first in the invocation started in [s]
    with [retry_count], each in the invocation that starts where the one
    before left; the last leaves [s']. *)
Fixpoint recoveries (j retry_count max_retries : nat) (s s' : St) : Prop :=
  match j with
  | 0 => s' = s
  | S j' =>
      exists s1,
        recovery retry_count max_retries s s1 /\
        recoveries j' (retry_count + 1) max_retries s1 s'
  end.

(** The invocation started in [s] with [retry_count] ends on a locate
    timeout without a restart, in [s'] and with [result]:
    - at step 1 with the budget used up;
    - at step 1 when the check does not find the button;
    - at step 6 (the verification checkbox);
    - at step 12 when the check does not find the button or the budget is
      used up. *)
Inductive gives_up (retry_count max_retries : nat) (s s' : St)
  : dict -> Prop :=
| budget_spent_at_step_1 (s1 : St) :
    max_retries <= retry_count ->
    opens s s1 ->
    times_out (on oracle (driver_instance s)
                  (WaitClickable 10 dashboard_pendency)) s1 s' ->
    gives_up retry_count max_retries s s' button_not_found
| button_away_at_step_1 (s1 s2 : St) :
    retry_count < max_retries ->
    opens s s1 ->
    times_out (on oracle (driver_instance s)
                  (WaitClickable 10 dashboard_pendency)) s1 s2 ->
    check_for_back_to_home_page oracle (R:=dict) (driver_instance s) s2
    = (Normal false, s') ->
    gives_up retry_count max_retries s s' button_not_found
| timeout_at_step_6 (s6 : St) :
    reaches_step_6 s s6 ->
    times_out (on oracle (driver_instance s)
                  (WaitPresence 15 verify_check_value)) s6 s' ->
    gives_up retry_count max_retries s s' checkbox_not_found
| no_restart_at_step_12 (s12 s2 : St) (found : bool) :
    reaches_sweep s s12 ->
    times_out (sweep_in_iframe oracle (driver_instance s)) s12 s2 ->
    after_sweep_timeout (driver_instance s) s2 = (Normal found, s') ->
    found = false \/ max_retries <= retry_count ->
    gives_up retry_count max_retries s s' checkboxes_not_found.

(** The gate, run in [sg] on [driver], finds the table of pending
    applications and no Approve button in it; the lookup leaves [s']. *)
Definition gate_finds_nothing (driver : option WebDriver) (sg s' : St)
  : Prop :=
  exists table s2,
    on oracle (R:=dict) driver (WaitPresence 15 work_details) sg
    = (Normal table, s2) /\
    on oracle (R:=dict) driver (FindElements approve_button) s2
    = (Normal [], s').

(** The Dashboard Pendency button has been looked for [n] times. *)
Definition looked_for (n : nat) (s : St) : Prop :=
  sequence_starts (trace s) = n.

End FurtherNotions.

(* ================================================================== *)
(** ** Properties *)

Section Properties.

Context {World : Type}.
Variable oracle : oracle_type World.

Local Abbreviation St := (state World).

(* ------------------------------------------------------------------ *)
(** *** Reasoning by the structure of a block *)

Section Preserves.

Variable I : St -> Prop.

Lemma preserves_ret {R A} (a : A) : preserves I (ret (R:=R) a).
Proof. intros s H. exact H. Qed.

Lemma preserves_pass {R} : preserves I (pass (R:=R)).
Proof. intros s H. exact H. Qed.

Lemma preserves_raise {R A} e : preserves I (raise (R:=R) (A:=A) e).
Proof. intros s H. exact H. Qed.

Lemma preserves_return {R A} r : preserves I (return_ (R:=R) (A:=A) r).
Proof. intros s H. exact H. Qed.

Lemma preserves_diverge {R A} : preserves I (diverge (R:=R) (A:=A)).
Proof. intros s H. exact H. Qed.

Lemma preserves_read {R A} (f : St -> A) : preserves I (read (R:=R) f).
Proof. intros s H. exact H. Qed.

Lemma preserves_bind {R A B} (m : M St R A) (k : A -> M St R B) :
  preserves I m -> (forall a, preserves I (k a)) -> preserves I (bind m k).
Proof.
  intros Hm Hk s H. unfold bind. specialize (Hm s H).
  destruct (m s) as [[a|r|e|] s']; cbn in *; auto. apply Hk; auto.
Qed.

Lemma preserves_try_except {R A} (m : M St R A) h :
  preserves I m -> (forall e, preserves I (h e)) ->
  preserves I (try_except m h).
Proof.
  intros Hm Hh s H. unfold try_except. specialize (Hm s H).
  destruct (m s) as [[a|r|e|] s']; cbn in *; auto. apply Hh; auto.
Qed.

Lemma preserves_call {R R'} (m : M St R R) :
  preserves I m -> preserves I (call (R':=R') m).
Proof.
  intros Hm s H. unfold call. specialize (Hm s H).
  destruct (m s) as [[a|r|e|] s']; cbn in *; auto.
Qed.

Lemma preserves_for_each {R A} (xs : list A) (body : A -> M St R unit) :
  (forall x, preserves I (body x)) -> preserves I (for_each xs body).
Proof.
  intros Hb. induction xs as [|x xs IH]; cbn.
  - apply preserves_ret.
  - apply preserves_bind; auto.
Qed.

Lemma preserves_modify {R} (f : St -> St) :
  (forall s, I s -> I (f s)) -> preserves I (modify (R:=R) f).
Proof. intros Hf s H. cbn. auto. Qed.

Lemma preserves_perform {R} (c : cmd) :
  (forall s w, I s ->
     I (mkState w (driver_instance s) (is_logged_in s) (session_file s)
                (context s) (c :: trace s))) ->
  preserves I (perform oracle (R:=R) c).
Proof.
  intros Hc s H. unfold perform.
  destruct (oracle c (world s)) as [[a|e] w]; cbn; auto.
Qed.

End Preserves.

Ltac pres_structure :=
  first
    [ apply preserves_ret | apply preserves_pass | apply preserves_raise
    | apply preserves_return | apply preserves_diverge | apply preserves_read
    | apply preserves_bind; [| intros ?]
    | apply preserves_try_except; [| intros ?]
    | apply preserves_call
    | apply preserves_for_each; intros ?
    | match goal with
      | |- preserves _ (if ?b then _ else _) => destruct b
      | |- preserves _ (match ?x with _ => _ end) => destruct x
      | |- preserves _ (let _ := _ in _) => cbv zeta
      end ].

Ltac engine_unfold :=
  progress unfold
    on, switch_to_default_content, path_exists, write_file, read_file,
    remove_file, as_number, save_session_info, load_session_info,
    clear_session_info, is_chrome_debugging_available,
    try_connect_to_existing_chrome, create_vahan_driver, item,
    check_browser_status, wait_for_login_poll, check_for_back_to_home_page,
    in_attribute, step_alert_popup, step_dealer_registration,
    step_new_registration, step_view_detail, step_approve_gate,
    step_verification_checkbox, step_documents_tab, step_modify_view,
    find_modal_close, step_close_modal, step_close_popup,
    step_modify_view_again, sweep_checkbox, step_save_options,
    step_file_movement, step_file_movement_modal, step_proceed_to_next_seat,
    strategy, step_save, step_yes, steps_before_gate, steps_before_sweep,
    steps_after_sweep, set_driver_instance, set_is_logged_in,
    set_session_file, set_context.

(** [pres leaf] proves [preserves I m] along the structure of [m]; [leaf]
    closes the side conditions of commands and assignments. *)
Ltac pres leaf :=
  repeat first
    [ assumption
    | pres_structure
    | match goal with
      | |- preserves ?I (perform _ ?c) =>
          refine (@preserves_perform I _ c _); intros ? ? ?; leaf
      end
    | apply preserves_modify; intros ? ?; leaf
    | engine_unfold ].

(** Unfold the monad on a concrete path. *)
Ltac run :=
  unfold save_session_info, load_session_info, clear_session_info, write_file,
    read_file, remove_file, path_exists, set_session_file,
    set_driver_instance, set_is_logged_in, set_context, as_number, item, on,
    call, try_except, bind, read, modify, perform, ret, return_, raise, pass;
  cbn.

Lemma issued_since_step P t0 (s : St) (w : World) c :
  P c -> issued_since P t0 s ->
  issued_since P t0 (mkState w (driver_instance s) (is_logged_in s)
                             (session_file s) (context s) (c :: trace s)).
Proof.
  intros Hc (l & Hl & HP). exists (c :: l). cbn. rewrite Hl. split; auto.
Qed.

Ltac trace_leaf :=
  cbn; first [ assumption
             | apply issued_since_step; [repeat split; reflexivity | assumption] ].

(* ------------------------------------------------------------------ *)
(** *** Session store *)



(* ------------------------------------------------------------------ *)
(** *** Status reporter *)

Lemma check_browser_status_probes R t0 :
  preserves (issued_since
               (fun c => status_probe_cmd c = true /\
                         creates_endpoint c = false) t0)
            (check_browser_status oracle (R:=R)).
Proof.
  pres trace_leaf.
Qed.

(** C5.  Purity of the status probe.  Called without a handle,
    [check_browser_status] issues only the commands of a read-only probe
    (port probe, attach to the browser listening on the port, location
    read, dropping a handle that does not answer, session file upkeep) and
    none that starts a browser; and when the port probe reports the port
    closed, that probe is all it does: it reports [browser_open] false and
    the handle is still absent. *)
Theorem status_probe_never_creates (s : St) :
  driver_instance s = None ->
  let r := check_browser_status oracle (R:=unit) s in
  (exists l,
     trace (snd r) = (l ++ trace s)%list /\
     Forall (fun c => status_probe_cmd c = true /\
                      creates_endpoint c = false) l)
  /\ (port_reported_closed
        (fst (oracle (SocketConnect CHROME_DEBUG_PORT) (world s))) ->
      (exists d, fst r = Normal d /\ dict_get d "browser_open" = VBool false) /\
      driver_instance (snd r) = None /\
      trace (snd r) = SocketConnect CHROME_DEBUG_PORT :: trace s).
Proof.
  intros Hnone r. split.
  - apply (@check_browser_status_probes unit (trace s) s).
    exists []. split; [reflexivity | constructor].
  - subst r. unfold check_browser_status, is_chrome_debugging_available. run.
    rewrite Hnone. cbn.
    destruct (oracle (SocketConnect CHROME_DEBUG_PORT) (world s))
      as [[code|e] w]; cbn; intros Hclosed.
    + apply Z.eqb_neq in Hclosed. rewrite Hclosed. cbn.
      split; [eexists; split; reflexivity|]. split; [exact Hnone | reflexivity].
    + split; [eexists; split; reflexivity|]. split; [exact Hnone | reflexivity].
Qed.

(* ------------------------------------------------------------------ *)
(** *** Loop controller *)

(** One turn of the loop, given what the step sequencer returns. *)
Lemma run_automation_loop_turn fuel processed_count error_count
    (s s' : St) (result : dict) :
  run_automation_internal oracle 0 2 s = (Normal result, s') ->
  run_automation_loop oracle (S fuel) processed_count error_count s =
  if truthy (dict_get result "success") then
    run_automation_loop oracle fuel (processed_count + 1) 0 s'
  else if py_eq (dict_get result "status") (VStr "no_approve_button") then
    (Return (all_processed processed_count), s')
  else if Nat.leb max_consecutive_errors (error_count + 1) then
    (Return (stopped_on_errors processed_count result), s')
  else
    run_automation_loop oracle fuel processed_count (error_count + 1) s'.
Proof.
  intros H. cbn [run_automation_loop]. unfold bind at 1. rewrite H.
  destruct (truthy (dict_get result "success")); [reflexivity|].
  destruct (py_eq (dict_get result "status") (VStr "no_approve_button"));
    [reflexivity|].
  destruct (Nat.leb max_consecutive_errors (error_count + 1)); reflexivity.
Qed.

Lemma run_automation_loop_failure fuel processed_count error_count
    (s s' : St) (result : dict) :
  run_automation_internal oracle 0 2 s = (Normal result, s') ->
  is_failure result ->
  run_automation_loop oracle (S fuel) processed_count error_count s =
  if Nat.leb max_consecutive_errors (error_count + 1) then
    (Return (stopped_on_errors processed_count result), s')
  else
    run_automation_loop oracle fuel processed_count (error_count + 1) s'.
Proof.
  intros H [Hs Ht]. rewrite (run_automation_loop_turn _ _ _ _ H).
  rewrite Hs, Ht. reflexivity.
Qed.

(** C1.  Bounded loop failure.  From any point of the loop where the
    consecutive-error counter is zero, three calls of the step sequencer
    that each return a failure (neither success nor the terminal signal)
    end the loop at the third: it returns the count processed so far and
    the status and message of the last failure, it has not returned after
    the second, and a success in between sets the counter back to zero. *)
Theorem loop_stops_after_three_failures
    (s0 s1 s2 s3 : St) (r1 r2 r3 : dict) (processed_count fuel : nat) :
  run_automation_internal oracle 0 2 s0 = (Normal r1, s1) -> is_failure r1 ->
  run_automation_internal oracle 0 2 s1 = (Normal r2, s2) -> is_failure r2 ->
  run_automation_internal oracle 0 2 s2 = (Normal r3, s3) -> is_failure r3 ->
  run_automation_loop oracle (3 + fuel) processed_count 0 s0
    = (Return (stopped_on_errors processed_count r3), s3)
  /\ dict_get (stopped_on_errors processed_count r3) "processed_count"
     = VInt processed_count
  /\ dict_get (stopped_on_errors processed_count r3) "status"
     = dict_get_default r3 "status" (VStr "error")
  /\ dict_get (stopped_on_errors processed_count r3) "error"
     = dict_get r3 "message"
  /\ run_automation_loop oracle 2 processed_count 0 s0 = (Diverged, s2)
  /\ (forall (s s' : St) (r : dict) (count errors n : nat),
        run_automation_internal oracle 0 2 s = (Normal r, s') ->
        truthy (dict_get r "success") = true ->
        run_automation_loop oracle (S n) count errors s
        = run_automation_loop oracle n (count + 1) 0 s').
Proof.
  intros H1 F1 H2 F2 H3 F3.
  split; [|split; [reflexivity|split; [reflexivity|split; [reflexivity|split]]]].
  - change (3 + fuel) with (S (S (S fuel))).
    rewrite (run_automation_loop_failure _ _ _ _ H1 F1). cbn [Nat.leb Nat.add max_consecutive_errors].
    rewrite (run_automation_loop_failure _ _ _ _ H2 F2). cbn [Nat.leb Nat.add max_consecutive_errors].
    rewrite (run_automation_loop_failure _ _ _ _ H3 F3). reflexivity.
  - rewrite (run_automation_loop_failure _ _ _ _ H1 F1). cbn [Nat.leb Nat.add max_consecutive_errors].
    rewrite (run_automation_loop_failure _ _ _ _ H2 F2). reflexivity.
  - intros s s' r count errors n H Hs.
    rewrite (run_automation_loop_turn _ _ _ _ H). rewrite Hs. reflexivity.
Qed.

(* ------------------------------------------------------------------ *)
(** *** The work-item gate *)

Lemma bind_Normal_inv {R A B} (m : M St R A) (k : A -> M St R B)
    (s s' : St) (b : B) :
  bind m k s = (Normal b, s') ->
  exists a s1, m s = (Normal a, s1) /\ k a s1 = (Normal b, s').
Proof.
  unfold bind. destruct (m s) as [[a|r|e|] s1]; try discriminate.
  intros H. exists a, s1. auto.
Qed.

Lemma step_approve_gate_empty (driver : option WebDriver)
    (s1 s2 s3 : St) (table : WebElement) :
  on oracle (R:=dict) driver (WaitPresence 15 work_details) s1
    = (Normal table, s2) ->
  on oracle (R:=dict) driver (FindElements approve_button) s2
    = (Normal [], s3) ->
  step_approve_gate oracle driver s1 = (Return no_approve_button, s3).
Proof.
  intros H2 H3. unfold step_approve_gate, try_except, bind.
  rewrite H2, H3. reflexivity.
Qed.

(* ------------------------------------------------------------------ *)
(** *** Blocks that neither return nor run out of fuel *)

Lemma plain_ret {R A} (a : A) : plain (World:=World) (ret (R:=R) a).
Proof. intros s. exact Logic.I. Qed.

Lemma plain_raise {R A} e : plain (World:=World) (raise (R:=R) (A:=A) e).
Proof. intros s. exact Logic.I. Qed.

Lemma plain_read {R A} (f : St -> A) : plain (read (R:=R) f).
Proof. intros s. exact Logic.I. Qed.

Lemma plain_modify {R} (f : St -> St) : plain (modify (R:=R) f).
Proof. intros s. exact Logic.I. Qed.

Lemma plain_perform {R} (c : cmd) : plain (perform oracle (R:=R) c).
Proof.
  intros s. unfold perform.
  destruct (oracle c (world s)) as [[a|e] w]; exact Logic.I.
Qed.

Lemma plain_bind {R A B} (m : M St R A) (k : A -> M St R B) :
  plain m -> (forall a, plain (k a)) -> plain (bind m k).
Proof.
  intros Hm Hk s. unfold bind. specialize (Hm s).
  destruct (m s) as [[a|r|e|] s']; cbn in *; auto. apply Hk.
Qed.

Lemma plain_try_except {R A} (m : M St R A) h :
  plain m -> (forall e, plain (h e)) -> plain (try_except m h).
Proof.
  intros Hm Hh s. unfold try_except. specialize (Hm s).
  destruct (m s) as [[a|r|e|] s']; cbn in *; auto. apply Hh.
Qed.

Lemma plain_for_each {R A} (xs : list A) (body : A -> M St R unit) :
  (forall x, plain (body x)) -> plain (for_each xs body).
Proof.
  intros Hb. induction xs as [|x xs IH]; cbn.
  - apply plain_ret.
  - apply plain_bind; auto.
Qed.

Ltac plain_blocks :=
  repeat first
    [ apply plain_ret | apply plain_raise | apply plain_read
    | apply plain_modify
    | match goal with
      | |- plain (perform _ ?c) => refine (@plain_perform _ c)
      | |- plain (pass) => apply plain_ret
      end
    | apply plain_bind; [| intros ?]
    | apply plain_try_except; [| intros ?]
    | apply plain_for_each; intros ?
    | match goal with
      | |- plain (if ?b then _ else _) => destruct b
      | |- plain (match ?x with _ => _ end) => destruct x
      end
    | progress unfold on, switch_to_frame, switch_to_default_content,
        sweep_checkbox, set_context ].

Lemma sweep_in_iframe_plain driver : plain (sweep_in_iframe oracle driver).
Proof. unfold sweep_in_iframe. plain_blocks. Qed.

(* ------------------------------------------------------------------ *)
(** *** Context-switch discipline *)

Ltac top_leaf := cbn; first [assumption | reflexivity].

Ltac keeps_top :=
  repeat first
    [ match goal with
      | H : forall _ _, preserves _ _ |- _ => apply H
      end
    | pres top_leaf ].

Section Discipline.

(** The driver carries out [switch_to.default_content()]. *)
Hypothesis restore_works :
  forall d w, fst (oracle (Driver d SwitchToDefaultContent) w) = Ok tt.

Lemma restore_reaches_top R (d : WebDriver) (s : St) :
  at_top_level
    (snd (try_except (switch_to_default_content oracle (R:=R) (Some d))
                     (fun _ => pass) s)).
Proof.
  unfold try_except, switch_to_default_content, on, bind, perform, set_context,
    modify, at_top_level.
  specialize (restore_works d (world s)).
  destruct (oracle (Driver d SwitchToDefaultContent) (world s)) as [[[]|e] w];
    cbn in *; [reflexivity | discriminate].
Qed.

Lemma context_after_bind {R A B} (m : M St R A) (k : A -> M St R B) (s : St) :
  at_top_level (snd (m s)) ->
  (forall a, preserves at_top_level (k a)) ->
  at_top_level (snd (bind m k s)).
Proof.
  intros Hm Hk. unfold bind.
  destruct (m s) as [[a|r|e|] s']; cbn in *; auto. apply Hk; auto.
Qed.

Lemma sweep_in_iframe_normal (driver : option WebDriver) (s s' : St) :
  sweep_in_iframe oracle driver s = (Normal tt, s') -> at_top_level s'.
Proof.
  unfold sweep_in_iframe. intros H.
  repeat (apply bind_Normal_inv in H; destruct H as (? & ? & _ & H)).
  unfold set_context, modify in H. inversion H. reflexivity.
Qed.

Lemma step_checkbox_sweep_keeps_top (driver : option WebDriver)
    (recur : nat -> nat -> M St dict dict) (retry_count max_retries : nat) :
  (forall rc mr, preserves at_top_level (recur rc mr)) ->
  preserves at_top_level
    (step_checkbox_sweep oracle driver recur retry_count max_retries).
Proof.
  intros Hrecur s Htop. destruct driver as [d|].
  - unfold step_checkbox_sweep, try_except at 1.
    pose proof (@sweep_in_iframe_plain (Some d) s) as Hplain.
    destruct (sweep_in_iframe oracle (Some d) s) as [[[]|r|e|] s1] eqn:E;
      cbn in Hplain; try contradiction; cbn [snd].
    + exact (sweep_in_iframe_normal _ _ E).
    + destruct (is_TimeoutException e).
      * apply context_after_bind; [apply restore_reaches_top|].
        intros _. keeps_top.
      * apply context_after_bind; [apply restore_reaches_top|].
        intros _. keeps_top.
  - cbn. exact Htop.
Qed.

Lemma execute_remaining_steps_keeps_top (driver : option WebDriver)
    (recur : nat -> nat -> M St dict dict) (retry_count max_retries : nat) :
  (forall rc mr, preserves at_top_level (recur rc mr)) ->
  preserves at_top_level
    (execute_remaining_steps oracle driver recur retry_count max_retries).
Proof.
  intros Hrecur.
  pose proof (step_checkbox_sweep_keeps_top driver recur retry_count
                max_retries Hrecur) as Hsweep.
  unfold execute_remaining_steps. keeps_top.
Qed.

Lemma run_automation_internal_fuel_keeps_top (fuel : nat) :
  forall retry_count max_retries,
    preserves at_top_level
      (run_automation_internal_fuel oracle fuel retry_count max_retries).
Proof.
  induction fuel as [|fuel IH]; intros retry_count max_retries.
  - cbn. apply preserves_diverge.
  - cbn [run_automation_internal_fuel].
    unfold run_automation_internal_body, step_dashboard_pendency.
    apply preserves_call. apply preserves_bind; [apply preserves_read|].
    intros driver.
    pose proof (execute_remaining_steps_keeps_top driver
                  (run_automation_internal_fuel oracle fuel)
                  retry_count max_retries IH) as Hrest.
    keeps_top.
Qed.

End Discipline.

(** C7, as the code has it.  Context-switch discipline.  Provided the
    driver carries out
    [switch_to.default_content()] when asked: the checkbox-sweep step,
    started at the top-level document, leaves the driver at the top-level
    document on every way out (the sweep completes, a locate times out
    with or without a retry of the sequence, any other exception), and so
    does every invocation of the step sequencer, whatever it returns.
    Without the proviso the property fails: the handlers swallow a
    failure of that call. *)
Theorem sequencer_leaves_frame
    (fuel retry_count max_retries : nat) (driver : option WebDriver) (s : St) :
  (forall d w, fst (oracle (Driver d SwitchToDefaultContent) w) = Ok tt) ->
  context s = TopLevel ->
  context (snd (step_checkbox_sweep oracle driver
                  (run_automation_internal_fuel oracle fuel)
                  retry_count max_retries s)) = TopLevel
  /\ context (snd (run_automation_internal_fuel oracle fuel retry_count
                     max_retries s)) = TopLevel.
Proof.
  intros Hrestore Htop. split.
  - apply step_checkbox_sweep_keeps_top; auto.
    intros rc mr. apply run_automation_internal_fuel_keeps_top; auto.
  - apply run_automation_internal_fuel_keeps_top; auto.
Qed.

(* ------------------------------------------------------------------ *)
(** *** Login gate *)

Lemma url_changed_iff (login_url current_url : string) :
  url_changed login_url current_url = true <->
  current_url <> login_url /\ contains "login" (lower current_url) = false.
Proof.
  unfold url_changed. rewrite andb_true_iff, !negb_true_iff.
  rewrite String.eqb_neq. tauto.
Qed.

Section Gate.

Variable driver : option WebDriver.
Variable start_time : spec_float.
Variable timeout : Z.
Variable login_url : string.

Local Abbreviation poll := (wait_for_login_poll oracle driver login_url).
Local Abbreviation loop :=
  (fun fuel => wait_for_login_loop oracle fuel driver timeout start_time
                                   login_url).

Lemma on_plain {R} (d : option WebDriver) (c : dcmd) :
  plain (on oracle (R:=R) d c).
Proof. plain_blocks. Qed.

(** Discharge a case in which a command would have executed a [return]
    or run out of fuel. *)
Ltac not_plain E :=
  exfalso;
  match type of E with
  | on _ ?d ?c ?s = _ => generalize (@on_plain bool d c s)
  | perform _ ?c ?s = _ => generalize (@plain_perform bool c s)
  end;
  rewrite E; exact (fun H => H).

(** What one poll does, by what it observes. *)
Lemma poll_cases (s : St) :
  (signal_observed oracle driver login_url s /\ fst (poll s) = Return true)
  \/ (exists s', location_read_fails oracle driver s s' /\
                 poll s = (Return false, s'))
  \/ (exists s', no_signal_poll oracle driver login_url s s' /\
                 poll s = (Normal tt, s'))
  \/ (exists e, fst (poll s) = Raise e).
Proof.
  destruct (poll s) as [o sf] eqn:Ep. cbn [fst].
  revert Ep. unfold wait_for_login_poll, signal_observed, location_read_fails,
    no_signal_poll, bind, try_except, pass, ret, return_.
  destruct (on oracle (R:=bool) driver CurrentUrl s) as [[url|r|e|] s1] eqn:E1;
    [| not_plain E1 | | not_plain E1].
  - destruct (url_changed login_url url) eqn:Eu.
    + intros [= <- <-]. left. split; [|reflexivity].
      exists url, s1. split; [reflexivity|]. left.
      apply url_changed_iff. exact Eu.
    + destruct (on oracle (R:=bool) driver (FindElements post_login_locator) s1)
        as [[markers|r|e|] s2] eqn:E2; [| not_plain E2 | | not_plain E2].
      * destruct markers as [|m ms]; cbn [nonempty].
        -- destruct (perform oracle (R:=bool) (Sleep 2) s2)
             as [[[]|r|e|] s3] eqn:E3; [| not_plain E3 | | not_plain E3];
             intros [= <- <-].
           ++ right. right. left. exists s3. split; [|reflexivity].
              exists url, s1, s2. repeat split; auto.
           ++ right. right. right. exists e. reflexivity.
        -- intros [= <- <-]. left. split; [|reflexivity].
           exists url, s1. split; [reflexivity|]. right.
           exists (m :: ms), s2. split; [exact E2 | discriminate].
      * destruct (perform oracle (R:=bool) (Sleep 2) s2)
          as [[[]|r|e'|] s3] eqn:E3; [| not_plain E3 | | not_plain E3];
          intros [= <- <-].
        -- right. right. left. exists s3. split; [|reflexivity].
           exists url, s1, s2. split; [reflexivity|]. split; [exact Eu|].
           split; [right; exists e; exact E2 | exact E3].
        -- right. right. right. exists e'. reflexivity.
  - destruct (orb _ _); intros [= <- <-]; right; left; exists s1;
      (split; [exists e; reflexivity | reflexivity]).
Qed.

Lemma poll_signal (s : St) :
  signal_observed oracle driver login_url s -> fst (poll s) = Return true.
Proof.
  intros (url & s1 & E1 & H).
  unfold wait_for_login_poll.
  unfold bind at 1. unfold try_except at 1. unfold bind at 1. rewrite E1.
  unfold bind at 1.
  destruct (url_changed login_url url) eqn:Eu; [reflexivity|].
  destruct H as [H | (markers & s2 & E2 & Hm)].
  - apply url_changed_iff in H. congruence.
  - cbn [pass ret]. unfold try_except at 1, bind at 1. rewrite E2.
    destruct markers; [contradiction|reflexivity].
Qed.

Lemma poll_read_fails (s s' : St) :
  location_read_fails oracle driver s s' -> poll s = (Return false, s').
Proof.
  intros (e & E1). unfold wait_for_login_poll.
  unfold bind at 1. unfold try_except at 1. unfold bind at 1. rewrite E1.
  destruct (orb _ _); reflexivity.
Qed.

Lemma poll_no_signal (s s' : St) :
  no_signal_poll oracle driver login_url s s' -> poll s = (Normal tt, s').
Proof.
  intros (url & s1 & s2 & E1 & Eu & E2 & E3). unfold wait_for_login_poll.
  unfold bind at 1. unfold try_except at 1. unfold bind at 1. rewrite E1.
  unfold bind at 1. rewrite Eu. cbn [pass ret].
  unfold try_except at 1, bind at 1.
  destruct E2 as [E2 | (e & E2)]; rewrite E2; cbn [nonempty pass ret];
    exact E3.
Qed.

(** One turn of the loop. *)
Lemma loop_expired fuel (s s' : St) :
  tick_expired oracle start_time timeout s s' ->
  loop (S fuel) s = (Normal tt, s').
Proof.
  intros (now & E & Hle). cbn [wait_for_login_loop]. unfold bind at 1.
  rewrite E. rewrite Hle. reflexivity.
Qed.

Lemma loop_signal fuel (s s1 : St) :
  tick_within oracle start_time timeout s s1 ->
  signal_observed oracle driver login_url s1 ->
  fst (loop (S fuel) s) = Return true.
Proof.
  intros (now & E & Hlt) Hsig. cbn [wait_for_login_loop]. unfold bind at 1.
  rewrite E. rewrite Hlt.
  apply poll_signal in Hsig. unfold bind at 1.
  destruct (poll s1) as [o s2]. cbn in Hsig. subst o. reflexivity.
Qed.

Lemma loop_read_fails fuel (s s1 s' : St) :
  tick_within oracle start_time timeout s s1 ->
  location_read_fails oracle driver s1 s' ->
  loop (S fuel) s = (Return false, s').
Proof.
  intros (now & E & Hlt) Hfail. cbn [wait_for_login_loop]. unfold bind at 1.
  rewrite E. rewrite Hlt.
  unfold bind at 1. rewrite (poll_read_fails Hfail). reflexivity.
Qed.

Lemma loop_idle fuel (s s' : St) :
  idle_tick oracle driver start_time timeout login_url s s' ->
  loop (S fuel) s = loop fuel s'.
Proof.
  intros (s1 & (now & E & Hlt) & Hidle). cbn [wait_for_login_loop].
  unfold bind at 1. rewrite E. rewrite Hlt.
  unfold bind at 1. rewrite (poll_no_signal Hidle). reflexivity.
Qed.

Lemma loop_cases fuel (s : St) :
  (exists s', tick_expired oracle start_time timeout s s')
  \/ (exists s1, tick_within oracle start_time timeout s s1 /\
                 signal_observed oracle driver login_url s1)
  \/ (exists s1 s', tick_within oracle start_time timeout s s1 /\
                    location_read_fails oracle driver s1 s')
  \/ (exists s', idle_tick oracle driver start_time timeout login_url s s')
  \/ (exists e, fst (loop (S fuel) s) = Raise e).
Proof.
  destruct (perform oracle (R:=bool) TimeTime s) as [[now|r|e|] s1] eqn:E.
  - destruct (float_lt_int (float_sub now start_time) timeout) eqn:Hlt.
    + assert (Hin : tick_within oracle start_time timeout s s1)
        by (exists now; auto).
      destruct (poll_cases s1)
        as [[Hsig _] | [(s' & Hf & _) | [(s' & Hi & _) | (e & He)]]].
      * right. left. exists s1. auto.
      * right. right. left. exists s1, s'. auto.
      * right. right. right. left. exists s', s1. auto.
      * right. right. right. right. exists e.
        cbn [wait_for_login_loop]. unfold bind at 1. rewrite E.
        rewrite Hlt. unfold bind at 1.
        destruct (poll s1) as [o s2]. cbn in He. subst o. reflexivity.
    + left. exists s1, now. split; [exact E | exact Hlt].
  - exfalso. revert E. unfold perform.
    destruct (oracle TimeTime (world s)) as [[?|?] ?]; discriminate.
  - right. right. right. right. exists e.
    cbn [wait_for_login_loop]. unfold bind at 1. rewrite E. reflexivity.
  - exfalso. revert E. unfold perform.
    destruct (oracle TimeTime (world s)) as [[?|?] ?]; discriminate.
Qed.

(** The loop returns true exactly when some tick within the fuel and
    within the timeout, reached through idle ticks, observes the signal. *)
Lemma loop_true_iff fuel (s : St) :
  fst (loop fuel s) = Return true <->
  exists n s2 s3,
    n < fuel /\
    idle_ticks oracle driver start_time timeout login_url n s s2 /\
    tick_within oracle start_time timeout s2 s3 /\
    signal_observed oracle driver login_url s3.
Proof.
  revert s. induction fuel as [|fuel IH]; intros s.
  - split; [discriminate|]. intros (n & _ & _ & Hn & _). lia.
  - split.
    + intros H.
      destruct (loop_cases fuel s)
        as [(s' & He) | [(s1 & Hin & Hsig) | [(s1 & s' & Hin & Hf)
           | [(s' & Hi) | (e & He)]]]].
      * rewrite (loop_expired fuel He) in H. discriminate.
      * exists 0, s, s1. cbn. repeat split; auto. lia.
      * rewrite (loop_read_fails fuel Hin Hf) in H. discriminate.
      * rewrite (loop_idle fuel Hi) in H. apply IH in H.
        destruct H as (n & s2 & s3 & Hn & Hticks & Hin & Hsig).
        exists (S n), s2, s3. repeat split; auto; [lia|].
        exists s'. auto.
      * rewrite He in H. discriminate.
    + intros (n & s2 & s3 & Hn & Hticks & Hin & Hsig).
      destruct n as [|n]; cbn in Hticks.
      * subst s2. exact (loop_signal fuel Hin Hsig).
      * destruct Hticks as (s1 & Hi & Hticks).
        rewrite (loop_idle fuel Hi). apply IH.
        exists n, s2, s3. repeat split; auto. lia.
Qed.

Lemma loop_read_fails_after n : forall fuel (s s2 s3 s4 : St),
  n < fuel ->
  idle_ticks oracle driver start_time timeout login_url n s s2 ->
  tick_within oracle start_time timeout s2 s3 ->
  location_read_fails oracle driver s3 s4 ->
  loop fuel s = (Return false, s4).
Proof.
  induction n as [|n IH]; intros fuel s s2 s3 s4 Hn Hticks Hin Hf;
    (destruct fuel as [|fuel]; [lia|]); cbn in Hticks.
  - subst s2. exact (loop_read_fails fuel Hin Hf).
  - destruct Hticks as (s1 & Hi & Hticks). rewrite (loop_idle fuel Hi).
    apply (IH fuel s1 s2 s3 s4); auto. lia.
Qed.

Lemma loop_expired_after n : forall fuel (s s2 s3 : St),
  n < fuel ->
  idle_ticks oracle driver start_time timeout login_url n s s2 ->
  tick_expired oracle start_time timeout s2 s3 ->
  loop fuel s = (Normal tt, s3).
Proof.
  induction n as [|n IH]; intros fuel s s2 s3 Hn Hticks He;
    (destruct fuel as [|fuel]; [lia|]); cbn in Hticks.
  - subst s2. exact (loop_expired fuel He).
  - destruct Hticks as (s1 & Hi & Hticks). rewrite (loop_idle fuel Hi).
    apply (IH fuel s1 s2 s3); auto. lia.
Qed.

End Gate.

Lemma wait_for_login_unfold (fuel : nat) (driver : option WebDriver)
    (timeout : Z) (start_time : spec_float) (login_url : string)
    (s s0 s1 : St) :
  perform oracle (R:=bool) TimeTime s = (Normal start_time, s0) ->
  on oracle (R:=bool) driver CurrentUrl s0 = (Normal login_url, s1) ->
  wait_for_login oracle (R:=unit) fuel driver timeout s =
  match wait_for_login_loop oracle fuel driver timeout start_time login_url s1
  with
  | (Normal _, s') => (Normal false, s')
  | (Return b, s') => (Normal b, s')
  | (Raise _, s') => (Normal false, s')
  | (Diverged, s') => (Diverged, s')
  end.
Proof.
  intros H0 H1. unfold wait_for_login, call, bind, try_except, return_.
  rewrite H0, H1.
  destruct (wait_for_login_loop oracle fuel driver timeout start_time
              login_url s1) as [[[]|b|e|] s']; reflexivity.
Qed.

(** C8.  Verdict of the login gate.  Once the gate has read the clock:
    if the initial location read fails it returns false at once; and with
    the initial location [login_url] read, it returns true exactly when
    some poll tick, within the timeout and reached through ticks that
    observed nothing, observes the location changed to one that differs
    from [login_url] and does not match login, or a post-authentication
    marker; it returns false at once (in the state the failed read leaves)
    when the location read of a tick fails; and it returns false when a
    tick finds the timeout elapsed. *)
Theorem login_gate_verdict (fuel : nat) (driver : option WebDriver)
    (timeout : Z) (start_time : spec_float) (s s0 : St) :
  perform oracle (R:=bool) TimeTime s = (Normal start_time, s0) ->
  (forall s1,
     location_read_fails oracle driver s0 s1 ->
     wait_for_login oracle (R:=unit) fuel driver timeout s = (Normal false, s1))
  /\
  (forall login_url s1,
     on oracle (R:=bool) driver CurrentUrl s0 = (Normal login_url, s1) ->
     (fst (wait_for_login oracle (R:=unit) fuel driver timeout s) = Normal true
      <->
      exists n s2 s3,
        n < fuel /\
        idle_ticks oracle driver start_time timeout login_url n s1 s2 /\
        tick_within oracle start_time timeout s2 s3 /\
        signal_observed oracle driver login_url s3)
     /\
     (forall n s2 s3 s4,
        n < fuel ->
        idle_ticks oracle driver start_time timeout login_url n s1 s2 ->
        tick_within oracle start_time timeout s2 s3 ->
        location_read_fails oracle driver s3 s4 ->
        wait_for_login oracle (R:=unit) fuel driver timeout s
        = (Normal false, s4))
     /\
     (forall n s2 s3,
        n < fuel ->
        idle_ticks oracle driver start_time timeout login_url n s1 s2 ->
        tick_expired oracle start_time timeout s2 s3 ->
        wait_for_login oracle (R:=unit) fuel driver timeout s
        = (Normal false, s3))).
Proof.
  intros H0. split.
  - intros s1 (e & E1). unfold wait_for_login, call, bind, try_except, return_.
    rewrite H0, E1. reflexivity.
  - intros login_url s1 H1.
    rewrite (@wait_for_login_unfold fuel driver timeout start_time login_url
               s s0 s1 H0 H1).
    split; [|split].
    + rewrite <- loop_true_iff.
      destruct (wait_for_login_loop oracle fuel driver timeout start_time
                  login_url s1) as [[[]|b|e|] s']; cbn;
        split; intros H; try discriminate; congruence.
    + intros n s2 s3 s4 Hn Hticks Hin Hf.
      rewrite (@loop_read_fails_after driver start_time timeout login_url n
                 fuel s1 s2 s3 s4 Hn Hticks Hin Hf). reflexivity.
    + intros n s2 s3 Hn Hticks He.
      rewrite (@loop_expired_after driver start_time timeout login_url n
                 fuel s1 s2 s3 Hn Hticks He). reflexivity.
Qed.

(* ------------------------------------------------------------------ *)
(** *** The step sequencer returns *)

Lemma finishes_ret {R A} (a : A) : finishes (World:=World) (ret (R:=R) a).
Proof. intros s. discriminate. Qed.

Lemma finishes_raise {R A} e :
  finishes (World:=World) (raise (R:=R) (A:=A) e).
Proof. intros s. discriminate. Qed.

Lemma finishes_return {R A} r :
  finishes (World:=World) (return_ (R:=R) (A:=A) r).
Proof. intros s. discriminate. Qed.

Lemma finishes_read {R A} (f : St -> A) : finishes (read (R:=R) f).
Proof. intros s. discriminate. Qed.

Lemma finishes_modify {R} (f : St -> St) : finishes (modify (R:=R) f).
Proof. intros s. discriminate. Qed.

Lemma finishes_perform {R} (c : cmd) : finishes (perform oracle (R:=R) c).
Proof.
  intros s. unfold perform.
  destruct (oracle c (world s)) as [[a|e] w]; discriminate.
Qed.

Lemma finishes_bind {R A B} (m : M St R A) (k : A -> M St R B) :
  finishes m -> (forall a, finishes (k a)) -> finishes (bind m k).
Proof.
  intros Hm Hk s. unfold bind. specialize (Hm s).
  destruct (m s) as [[a|r|e|] s']; cbn in *; try discriminate.
  - apply Hk.
  - contradiction.
Qed.

Lemma finishes_try_except {R A} (m : M St R A) h :
  finishes m -> (forall e, finishes (h e)) -> finishes (try_except m h).
Proof.
  intros Hm Hh s. unfold try_except. specialize (Hm s).
  destruct (m s) as [[a|r|e|] s']; cbn in *; try discriminate.
  - apply Hh.
  - contradiction.
Qed.

Lemma finishes_call {R R'} (m : M St R R) :
  finishes m -> finishes (call (R':=R') m).
Proof.
  intros Hm s. unfold call. specialize (Hm s).
  destruct (m s) as [[a|r|e|] s']; cbn in *; try discriminate.
  contradiction.
Qed.

Lemma finishes_for_each {R A} (xs : list A) (body : A -> M St R unit) :
  (forall x, finishes (body x)) -> finishes (for_each xs body).
Proof.
  intros Hb. induction xs as [|x xs IH]; cbn.
  - apply finishes_ret.
  - apply finishes_bind; auto.
Qed.

(** [ends leaf] proves [finishes m] along the structure of [m]; [leaf]
    closes the recursive calls. *)
Ltac ends leaf :=
  repeat first
    [ apply finishes_ret | apply finishes_raise | apply finishes_return
    | apply finishes_read | apply finishes_modify
    | match goal with
      | |- finishes (perform _ ?c) => refine (@finishes_perform _ c)
      | |- finishes pass => apply finishes_ret
      end
    | apply finishes_bind; [| intros ?]
    | apply finishes_try_except; [| intros ?]
    | apply finishes_call
    | apply finishes_for_each; intros ?
    | match goal with
      | |- finishes (if ?b then _ else _) => destruct b eqn:?
      | |- finishes (match ?x with _ => _ end) => destruct x
      end
    | progress unfold switch_to_frame, sweep_in_iframe, step_checkbox_sweep,
        step_dashboard_pendency, execute_remaining_steps,
        run_automation_internal_body
    | engine_unfold
    | leaf ].

(** The recursion of [run_automation_internal] is as deep as the budget
    allows and no deeper: with the fuel [run_automation_internal] gives
    it, an invocation ends, for every outside world. *)
Lemma run_automation_internal_fuel_finishes (fuel : nat) :
  forall retry_count max_retries,
    max_retries - retry_count < fuel ->
    finishes (run_automation_internal_fuel oracle fuel retry_count max_retries).
Proof.
  induction fuel as [|fuel IH]; intros retry_count max_retries Hfuel; [lia|].
  cbn [run_automation_internal_fuel].
  ends ltac:(
    idtac;
    match goal with
    | E : Nat.ltb _ _ = true |- finishes (run_automation_internal_fuel _ _ _ _) =>
        apply IH; apply Nat.ltb_lt in E; lia
    end).
Qed.

Lemma run_automation_internal_finishes (retry_count max_retries : nat) :
  finishes (run_automation_internal oracle retry_count max_retries).
Proof.
  apply run_automation_internal_fuel_finishes. lia.
Qed.

(* ------------------------------------------------------------------ *)
(** *** Exceptions at the boundary of the step sequencer *)

Lemma step_alert_popup_never_raises (driver : option WebDriver) (s : St) e :
  fst (step_alert_popup oracle driver s) <> Raise e.
Proof.
  unfold step_alert_popup. unfold try_except at 1.
  match goal with
  | |- context [match ?body s with _ => _ end] =>
      destruct (body s) as [[[]|r|e'|] s1]
  end; cbn; discriminate.
Qed.

(** Steps 2 to 20 convert every exception into a result. *)
Lemma execute_remaining_steps_never_raises (driver : option WebDriver)
    (recur : nat -> nat -> M St dict dict) (retry_count max_retries : nat)
    (s : St) e :
  fst (execute_remaining_steps oracle driver recur retry_count max_retries s)
  <> Raise e.
Proof.
  unfold execute_remaining_steps, call. unfold bind at 1.
  pose proof (@step_alert_popup_never_raises driver s) as Halert.
  destruct (step_alert_popup oracle driver s) as [[[]|r|e'|] s1];
    cbn; try discriminate.
  - unfold try_except at 1.
    match goal with
    | |- context [match ?body s1 with _ => _ end] =>
        destruct (body s1) as [[a|r|e'|] s2]
    end; cbn; try discriminate.
    destruct (is_TimeoutException e'); cbn; discriminate.
  - exfalso. exact (Halert e' eq_refl).
Qed.

(* ------------------------------------------------------------------ *)
(** *** The login flag and the handle *)

(** Rules for [hoare], one for each construct of the monad. *)

Section Rules.
Context {R A : Type}.
Variables (P : St -> Prop) (N : A -> St -> Prop) (XR : R -> St -> Prop)
          (XE XD : St -> Prop).

Lemma hoare_ret (a : A) : (forall s, P s -> N a s) -> hoare P (ret a) N XR XE XD.
Proof. intros H s Hs. cbn. auto. Qed.

Lemma hoare_return (r : R) :
  (forall s, P s -> XR r s) -> hoare P (return_ (A:=A) r) N XR XE XD.
Proof. intros H s Hs. cbn. auto. Qed.

Lemma hoare_raise e :
  (forall s, P s -> XE s) -> hoare P (raise (A:=A) e) N XR XE XD.
Proof. intros H s Hs. cbn. auto. Qed.

Lemma hoare_diverge :
  (forall s, P s -> XD s) -> hoare P (diverge (A:=A)) N XR XE XD.
Proof. intros H s Hs. cbn. auto. Qed.

Lemma hoare_read (f : St -> A) :
  (forall s, P s -> N (f s) s) -> hoare P (read f) N XR XE XD.
Proof. intros H s Hs. cbn. auto. Qed.

Lemma hoare_bind {B} (m : M St R B) (k : B -> M St R A) (N1 : B -> St -> Prop) :
  hoare P m N1 XR XE XD ->
  (forall b, hoare (N1 b) (k b) N XR XE XD) ->
  hoare P (bind m k) N XR XE XD.
Proof.
  intros Hm Hk s Hs. unfold bind. specialize (Hm s Hs).
  destruct (m s) as [[b|r|e|] s1]; auto. apply Hk. exact Hm.
Qed.

Lemma hoare_try_except (m : M St R A) h (E1 : St -> Prop) :
  hoare P m N XR E1 XD ->
  (forall e, hoare E1 (h e) N XR XE XD) ->
  hoare P (try_except m h) N XR XE XD.
Proof.
  intros Hm Hh s Hs. unfold try_except. specialize (Hm s Hs).
  destruct (m s) as [[b|r|e|] s1]; auto. apply Hh. exact Hm.
Qed.

Lemma hoare_weaken (P' : St -> Prop) (m : M St R A) :
  (forall s, P s -> P' s) -> hoare P' m N XR XE XD -> hoare P m N XR XE XD.
Proof. intros H Hm s Hs. apply Hm. auto. Qed.

End Rules.

Lemma hoare_modify {R} (P : St -> Prop) (f : St -> St) N (XR : R -> St -> Prop) XE XD :
  (forall s, P s -> N tt (f s)) -> hoare P (modify f) N XR XE XD.
Proof. intros H s Hs. cbn. auto. Qed.

Lemma hoare_call {R R'} (P : St -> Prop) (m : M St R R) N (XR : R' -> St -> Prop) XE XD :
  hoare P m N N XE XD -> hoare P (call m) N XR XE XD.
Proof.
  intros Hm s Hs. unfold call. specialize (Hm s Hs).
  destruct (m s) as [[b|r|e|] s1]; auto.
Qed.


Lemma hoare_consequence {R A} (P : St -> Prop) (m : M St R A)
    (N N' : A -> St -> Prop) (XR XR' : R -> St -> Prop) (XE XE' XD XD' : St -> Prop) :
  hoare P m N' XR' XE' XD' ->
  (forall a s, N' a s -> N a s) -> (forall r s, XR' r s -> XR r s) ->
  (forall s, XE' s -> XE s) -> (forall s, XD' s -> XD s) ->
  hoare P m N XR XE XD.
Proof.
  intros Hm HN HR HE HD s Hs. specialize (Hm s Hs).
  destruct (m s) as [[b|r|e|] s1]; auto.
Qed.

(** Blocks that assign to neither global keep every condition on the
    globals. *)

Lemma keeps_globals_about {R A} (m : M St R A) (P : St -> Prop) :
  keeps_globals m -> about_globals P -> preserves P m.
Proof.
  intros Hm HP s Hs.
  destruct (Hm (driver_instance s) (is_logged_in s) s (conj eq_refl eq_refl)).
  eapply HP; eauto.
Qed.

Section Frames.
Context {R A : Type}.
Variables (P : St -> Prop) (m : M St R A).
Variables (N : A -> St -> Prop) (XR : R -> St -> Prop) (XE XD : St -> Prop).
Hypothesis keeps : keeps_globals m.
Hypothesis about : about_globals P.

Lemma hoare_keeps :
  (forall a s, P s -> N a s) -> (forall r s, P s -> XR r s) ->
  (forall s, P s -> XE s) -> (forall s, P s -> XD s) ->
  hoare P m N XR XE XD.
Proof.
  intros HN HR HE HD s Hs.
  pose proof (keeps_globals_about keeps about s Hs) as H.
  destruct (m s) as [[b|r|e|] s1]; cbn in *; auto.
Qed.

Lemma hoare_keeps_plain :
  plain m ->
  (forall a s, P s -> N a s) -> (forall s, P s -> XE s) ->
  hoare P m N XR XE XD.
Proof.
  intros Hp HN HE s Hs.
  pose proof (keeps_globals_about keeps about s Hs) as H.
  specialize (Hp s).
  destruct (m s) as [[b|r|e|] s1]; cbn in *; auto; contradiction.
Qed.

Lemma hoare_keeps_silent :
  silent m -> (forall a s, P s -> N a s) -> hoare P m N XR XE XD.
Proof.
  intros Hq HN s Hs.
  pose proof (keeps_globals_about keeps about s Hs) as H.
  destruct (Hq s) as [a Ha].
  destruct (m s) as [[b|r|e|] s1]; cbn in *; auto; discriminate.
Qed.

End Frames.

Lemma hoare_keeps_call {R R'} (P : St -> Prop) (m : M St R R) N
    (XR : R' -> St -> Prop) XE XD :
  keeps_globals (call m (R':=R')) -> about_globals P ->
  (forall a s, P s -> N a s) -> (forall s, P s -> XE s) ->
  (forall s, P s -> XD s) ->
  hoare P (call m) N XR XE XD.
Proof.
  intros Hk HP HN HE HD s Hs.
  pose proof (keeps_globals_about Hk HP s Hs) as H. revert H.
  unfold call. destruct (m s) as [[b|r|e|] s1]; cbn in *; auto.
Qed.

Ltac frame_leaf := first [assumption | unfold globals in *; cbn in *; assumption].

Ltac keeps :=
  intros ? ?;
  repeat first
    [ progress pres frame_leaf
    | match goal with
      | H : forall _, keeps_globals _ |- _ => apply H
      | H : forall _ _, keeps_globals _ |- _ => apply H
      | H : keeps_globals ?m |- preserves _ ?m => apply H
      end ].

Ltac about :=
  let s := fresh "s" in let s' := fresh "s'" in
  let Hd := fresh "Hd" in let Hb := fresh "Hb" in
  intros s s' Hd Hb;
  unfold agrees, engine_invariant, globals, flag_down, has_handle;
  repeat match goal with |- context [truthy ?v] => destruct (truthy v) end;
  rewrite ?Hd, ?Hb; exact (fun H => H).

Ltac inv_auto :=
  intros;
  unfold agrees, engine_invariant, globals, flag_down, has_handle in *;
  cbn in *;
  repeat match goal with
         | |- context [truthy ?v] => destruct (truthy v)
         | H : context [truthy ?v] |- _ => destruct (truthy v)
         end;
  intuition (try congruence; try discriminate).

Lemma is_chrome_debugging_available_keeps R :
  keeps_globals (is_chrome_debugging_available oracle (R:=R)).
Proof. keeps. Qed.

Lemma try_connect_to_existing_chrome_keeps R :
  keeps_globals (try_connect_to_existing_chrome oracle (R:=R)).
Proof. keeps. Qed.

Lemma create_vahan_driver_keeps R :
  keeps_globals (create_vahan_driver oracle (R:=R)).
Proof. keeps. Qed.

Lemma save_session_info_keeps R :
  keeps_globals (save_session_info oracle (R:=R)).
Proof. keeps. Qed.

Lemma clear_session_info_keeps R :
  keeps_globals (clear_session_info oracle (R:=R)).
Proof. keeps. Qed.

Lemma on_keeps R driver c : keeps_globals (on oracle (R:=R) driver c).
Proof. keeps. Qed.

Lemma item_keeps R d k : keeps_globals (item (World:=World) (R:=R) d k).
Proof. keeps. Qed.


Lemma wait_for_login_loop_keeps fuel driver timeout start_time login_url :
  keeps_globals
    (wait_for_login_loop oracle fuel driver timeout start_time login_url).
Proof.
  induction fuel as [|fuel IH]; cbn [wait_for_login_loop]; keeps.
Qed.

Lemma wait_for_login_keeps R fuel driver timeout :
  keeps_globals (wait_for_login oracle (R:=R) fuel driver timeout).
Proof.
  pose proof (wait_for_login_loop_keeps fuel driver timeout) as Hloop.
  unfold wait_for_login. keeps.
Qed.

Lemma navigation_loop_keeps R fuel driver max_retries :
  forall retry_count,
    keeps_globals
      (navigation_loop oracle (R:=R) fuel driver max_retries retry_count).
Proof.
  induction fuel as [|fuel IH]; intros retry_count;
    cbn [navigation_loop]; keeps.
Qed.

Lemma run_automation_internal_fuel_keeps fuel :
  forall retry_count max_retries,
    keeps_globals
      (run_automation_internal_fuel oracle fuel retry_count max_retries).
Proof.
  induction fuel as [|fuel IH]; intros retry_count max_retries;
    cbn [run_automation_internal_fuel].
  - keeps.
  - unfold run_automation_internal_body, step_dashboard_pendency,
      execute_remaining_steps, step_checkbox_sweep, sweep_in_iframe,
      switch_to_frame.
    keeps.
Qed.

Lemma run_automation_loop_keeps fuel :
  forall processed_count error_count,
    keeps_globals
      (run_automation_loop oracle fuel processed_count error_count).
Proof.
  induction fuel as [|fuel IH]; intros processed_count error_count d b;
    cbn [run_automation_loop].
  - apply preserves_diverge.
  - apply preserves_bind;
      [apply (run_automation_internal_fuel_keeps 3 0 2)|].
    intros result. revert d b. keeps.
Qed.

Lemma save_session_info_silent R : silent (save_session_info oracle (R:=R)).
Proof.
  intros s. unfold save_session_info, call, try_except.
  match goal with
  | |- context [match ?body s with _ => _ end] =>
      assert (Hp : plain body) by plain_blocks;
      specialize (Hp s); destruct (body s) as [[a|r|e|] s1]
  end; cbn in *; try contradiction; eexists; reflexivity.
Qed.


Lemma clear_session_info_silent R : silent (clear_session_info oracle (R:=R)).
Proof.
  intros s. unfold clear_session_info, call, try_except.
  match goal with
  | |- context [match ?body s with _ => _ end] =>
      assert (Hp : plain body) by plain_blocks;
      specialize (Hp s); destruct (body s) as [[a|r|e|] s1]
  end; cbn in *; try contradiction; eexists; reflexivity.
Qed.

Lemma item_plain {R} (d : dict) k : plain (item (World:=World) (R:=R) d k).
Proof. unfold item. plain_blocks. Qed.

Create HintDb frames.

#[local] Hint Resolve is_chrome_debugging_available_keeps
  try_connect_to_existing_chrome_keeps create_vahan_driver_keeps
  save_session_info_keeps clear_session_info_keeps on_keeps item_keeps
  wait_for_login_keeps navigation_loop_keeps run_automation_loop_keeps
  save_session_info_silent clear_session_info_silent on_plain item_plain
  : frames.

(** A block that keeps the globals, under a condition on the globals. *)
Ltac side :=
  first [ solve [auto with frames]
        | solve [refine (@plain_perform _ _)]
        | solve [intros ? ?; refine (@preserves_perform _ _ _ _);
                 intros ? ? ?; assumption]
        | solve [about] | solve [inv_auto] ].

Ltac framed :=
  first [ apply hoare_keeps_call; side | apply hoare_keeps_silent; side
        | apply hoare_keeps_plain; side | apply hoare_keeps; side ].

Tactic Notation "then_" uconstr(Q) "as" simple_intropattern(x) :=
  eapply hoare_bind with (N1 := fun _ => Q); [| intros x].
Tactic Notation "then_" uconstr(Q) := then_ Q as ?.
Ltac assign := apply hoare_modify; solve [inv_auto].
Ltac give_back := apply hoare_return; solve [inv_auto].
Ltac go_on := apply hoare_ret; solve [inv_auto].

Lemma check_browser_status_spec R' (XR : R' -> St -> Prop) :
  hoare engine_invariant (check_browser_status oracle (R:=R'))
        (fun status => agrees (dict_get status "browser_open"))
        XR engine_invariant engine_invariant.
Proof.
  unfold check_browser_status. apply hoare_call.
  eapply hoare_bind
    with (N1 := fun handle s => engine_invariant s /\ driver_instance s = handle).
  { apply hoare_read. auto. }
  intros handle.
  then_ has_handle.
  - destruct handle as [d|]; cbn [is_not_None negb].
    + go_on.
    + apply hoare_weaken with (P' := globals None false); [inv_auto|].
      then_ (globals None false); [framed|].
      then_ (globals None false).
      { destruct (negb _); [give_back | go_on]. }
      eapply hoare_try_except with (E1 := globals None false).
      * then_ (globals None false); [framed|].
        match goal with |- hoare _ (match ?x with _ => _ end) _ _ _ _ =>
          destruct x end; [assign | give_back].
      * intros e. give_back.
  - eapply hoare_try_except with (E1 := fun _ => True).
    + then_ has_handle; [apply hoare_read; auto|].
      then_ has_handle; [framed|].
      match goal with |- hoare _ (if ?x then _ else _) _ _ _ _ =>
        destruct x end.
      * then_ has_handle; [assign|].
        then_ has_handle; [framed|]. give_back.
      * then_ has_handle; [assign|].
        then_ has_handle; [framed|]. give_back.
    + intros e.
      then_ (fun s : St => driver_instance s = None); [assign|].
      then_ (globals None false); [assign|].
      then_ (globals None false); [framed|]. give_back.
Qed.


Ltac cases :=
  match goal with
  | |- hoare _ (if ?x then _ else _) _ _ _ _ => destruct x
  | |- hoare _ (match ?x with _ => _ end) _ _ _ _ => destruct x
  end.

Lemma start_vahan_browser_spec R' (XR : R' -> St -> Prop) (fuel : nat) :
  hoare engine_invariant (start_vahan_browser oracle (R:=R') fuel)
        (fun _ => engine_invariant) XR engine_invariant engine_invariant.
Proof.
  unfold start_vahan_browser. apply hoare_call.
  eapply hoare_bind; [apply check_browser_status_spec|]. intros status.
  eapply hoare_bind
    with (N1 := fun v s => v = dict_get status "browser_open" /\ agrees v s).
  { unfold item, dict_get.
    destruct (dict_lookup "browser_open" status);
      [apply hoare_ret | apply hoare_raise]; inv_auto. }
  intros browser_open.
  apply hoare_weaken with (P' := agrees browser_open); [tauto|].
  then_ (agrees browser_open) as logged_in; [framed|].
  unfold agrees. destruct (truthy browser_open); cbn [andb].
  - (* a browser is open *)
    destruct (truthy logged_in); cbn [negb].
    + then_ (fun _ : St => False); [give_back | intros s []].
    + then_ has_handle; [go_on|].
      then_ (fun _ : St => False); [|intros s []].
      eapply hoare_try_except with (E1 := has_handle).
      * then_ has_handle; [apply hoare_read; auto|].
        then_ has_handle; [framed|].
        cases; [then_ has_handle; [assign|]|]; give_back.
      * intros e. give_back.
  - (* no browser *)
    then_ (globals None false); [go_on|].
    then_ (globals None false); [go_on|].
    eapply hoare_try_except with (E1 := flag_down).
    + then_ (globals None false) as driver; [framed|].
      then_ (globals (Some driver) false); [assign|].
      then_ (globals (Some driver) false); [framed|].
      then_ (globals (Some driver) false).
      { cases; [|go_on].
        apply hoare_weaken with (P' := flag_down); [inv_auto|].
        then_ flag_down; [apply hoare_read; inv_auto|].
        then_ flag_down; [|give_back].
        cases; [|go_on].
        eapply hoare_try_except with (E1 := flag_down);
          [then_ flag_down; [framed | assign] | intros e; go_on]. }
      then_ (globals (Some driver) false); [framed|].
      cases; [|give_back].
      then_ (globals (Some driver) true); [assign|].
      then_ (globals (Some driver) true); [framed|]. give_back.
    + intros e. cbv zeta.
      then_ flag_down; [apply hoare_read; inv_auto|].
      then_ flag_down; [|give_back].
      cases; [|go_on].
      eapply hoare_try_except with (E1 := flag_down); [|intros e'; go_on].
      then_ flag_down; [framed|].
      then_ flag_down; [assign|]. framed.
Qed.


Lemma run_automation_spec R' (XR : R' -> St -> Prop) (fuel : nat) :
  hoare engine_invariant (run_automation oracle (R:=R') fuel)
        (fun _ => engine_invariant) XR engine_invariant engine_invariant.
Proof.
  unfold run_automation. apply hoare_call.
  eapply hoare_bind; [apply check_browser_status_spec|]. intros status.
  pose proof (run_automation_loop_keeps fuel 0 0) as Hloop.
  apply hoare_keeps; [keeps | about | inv_auto ..].
Qed.

Lemma close_vahan_browser_spec R' (XR : R' -> St -> Prop) :
  hoare engine_invariant (close_vahan_browser oracle (R:=R'))
        (fun _ => engine_invariant) XR engine_invariant engine_invariant.
Proof.
  unfold close_vahan_browser. apply hoare_call.
  eapply hoare_bind with (N1 := fun _ => engine_invariant);
    [apply hoare_read; auto|].
  intros [d|].
  - apply hoare_weaken with (P' := fun _ => True); [auto|].
    eapply hoare_try_except with (E1 := fun _ => True).
    + then_ (fun _ : St => True); [framed|].
      then_ (fun s : St => driver_instance s = None); [assign|].
      then_ (globals None false); [assign|].
      then_ (globals None false); [framed|]. give_back.
    + intros e.
      then_ (fun s : St => driver_instance s = None); [assign|].
      then_ (globals None false); [assign|].
      then_ (globals None false); [framed|]. give_back.
  - then_ engine_invariant; [framed|]. give_back.
Qed.

Lemma hoare_state {R A} (P : St -> Prop) (m : M St R A) (Q : St -> Prop) (s : St) :
  hoare P m (fun _ => Q) (fun _ => Q) Q Q -> P s -> Q (snd (m s)).
Proof.
  intros Hm Hs. specialize (Hm s Hs).
  destruct (m s) as [[a|r|e|] s1]; exact Hm.
Qed.

(** Every state of the engine has the flag down when there is no
    handle. *)
Lemma reachable_invariant (s : St) :
  reachable oracle s -> engine_invariant s.
Proof.
  induction 1 as [s Hd Hb | op s _ IH | s s' _ IH Hd Hb].
  - intros _. exact Hb.
  - destruct op; cbn [after]; (eapply hoare_state; [|exact IH]).
    + eapply hoare_consequence;
        [apply (check_browser_status_spec (fun _ : unit => engine_invariant))
        | inv_auto ..].
    + apply start_vahan_browser_spec.
    + apply run_automation_spec.
    + apply close_vahan_browser_spec.
  - unfold engine_invariant in *. rewrite Hd, Hb. exact IH.
Qed.

(* ------------------------------------------------------------------ *)
(** *** Closing the session *)

(** [clear_session_info] always ends, assigns to neither global, and
    leaves no session file when removing it does not fail. *)
Lemma clear_session_info_result R (s : St) :
  exists s',
    clear_session_info oracle (R:=R) s = (Normal tt, s') /\
    driver_instance s' = driver_instance s /\
    is_logged_in s' = is_logged_in s /\
    ((forall w, fst (oracle FileRemove w) = Ok tt) -> session_file s' = None).
Proof.
  run. destruct (session_file s) as [d|] eqn:E; cbn.
  - destruct (oracle FileRemove (world s)) as [[[]|e] w] eqn:Erm; cbn.
    + eexists. repeat split; reflexivity.
    + eexists. split; [reflexivity|]. repeat split.
      intros Hrm. specialize (Hrm (world s)). rewrite Erm in Hrm.
      discriminate.
  - eexists. split; [reflexivity|]. repeat split. intros _. exact E.
Qed.

(** C10, as the code has it.  [close_vahan_browser] always leaves the
    handle cleared, also when quitting the browser raises; in every state
    of the engine it leaves the login flag false; it returns true when no
    handle existed and when quitting succeeded, false only when quitting
    an existing handle raised; and it leaves no session record provided
    removing the file does not fail ([clear_session_info] swallows that
    failure, and the record stays). *)
Theorem close_clears_session (s : St) :
  let r := close_vahan_browser oracle (R:=unit) s in
  driver_instance (snd r) = None /\
  (reachable oracle s -> is_logged_in (snd r) = false) /\
  fst r = Normal
            match driver_instance s with
            | Some d => match fst (oracle (Driver d Quit) (world s)) with
                        | Ok _ => true
                        | Err _ => false
                        end
            | None => true
            end /\
  ((forall w, fst (oracle FileRemove w) = Ok tt) ->
   session_file (snd r) = None).
Proof.
  intros r. subst r.
  destruct (close_vahan_browser oracle (R:=unit) s) as [o s'] eqn:E.
  cbn [fst snd]. revert E.
  unfold close_vahan_browser, call, bind, read, try_except, perform,
    set_driver_instance, set_is_logged_in, modify, return_.
  destruct (driver_instance s) as [d|] eqn:Hd.
  - destruct (oracle (Driver d Quit) (world s)) as [[[]|e] w];
      match goal with
      | |- context [clear_session_info oracle ?s0] =>
          destruct (clear_session_info_result bool s0)
            as (s1 & -> & H1 & H2 & H3)
      end; cbn in *; intros [= <- <-]; auto.
  - destruct (clear_session_info_result bool s) as (s1 & -> & H1 & H2 & H3).
    cbn. intros [= <- <-]. split; [congruence|]. split; [|auto].
    intros Hreach. apply reachable_invariant in Hreach.
    rewrite H2. exact (Hreach Hd).
Qed.

End Properties.

(* ================================================================== *)
(** ** Properties of the rest of the engine *)

Section FurtherRules.

Context {World : Type}.
Variable oracle : oracle_type World.
Local Abbreviation St := (state World).

Lemma never_raises_ret {R A} (a : A) :
  never_raises (World:=World) (ret (R:=R) a).
Proof. intros s e. discriminate. Qed.

Lemma never_raises_return {R A} r :
  never_raises (World:=World) (return_ (R:=R) (A:=A) r).
Proof. intros s e. discriminate. Qed.

Lemma never_raises_diverge {R A} :
  never_raises (World:=World) (diverge (R:=R) (A:=A)).
Proof. intros s e. discriminate. Qed.

Lemma never_raises_read {R A} (f : St -> A) : never_raises (read (R:=R) f).
Proof. intros s e. discriminate. Qed.

Lemma never_raises_modify {R} (f : St -> St) : never_raises (modify (R:=R) f).
Proof. intros s e. discriminate. Qed.

Lemma never_raises_bind {R A B} (m : M St R A) (k : A -> M St R B) :
  never_raises m -> (forall a, never_raises (k a)) -> never_raises (bind m k).
Proof.
  intros Hm Hk s e. unfold bind. specialize (Hm s).
  destruct (m s) as [[a|r|e'|] s']; cbn in *; try discriminate.
  - apply Hk.
  - exfalso. exact (Hm e' eq_refl).
Qed.

(** A [try] whose handlers let nothing out lets nothing out, whatever its
    body does. *)
Lemma never_raises_try_except {R A} (m : M St R A) h :
  (forall e, never_raises (h e)) -> never_raises (try_except m h).
Proof.
  intros Hh s e. unfold try_except.
  destruct (m s) as [[a|r|e'|] s']; cbn; try discriminate. apply Hh.
Qed.

Lemma never_raises_call {R R'} (m : M St R R) :
  never_raises m -> never_raises (call (R':=R') m).
Proof.
  intros Hm s e. unfold call. specialize (Hm s).
  destruct (m s) as [[a|r|e'|] s']; cbn in *; try discriminate.
  exfalso. exact (Hm e' eq_refl).
Qed.

Lemma never_raises_for_each {R A} (xs : list A) (body : A -> M St R unit) :
  (forall x, never_raises (body x)) -> never_raises (for_each xs body).
Proof.
  intros Hb. induction xs as [|x xs IH]; cbn.
  - apply never_raises_ret.
  - apply never_raises_bind; auto.
Qed.

(** A function whose body lets nothing out and runs no loop out of fuel
    ends with a value. *)
Lemma call_silent {R R'} (m : M St R R) :
  never_raises m -> finishes m -> silent (call (R':=R') m).
Proof.
  intros Hr Hf s. unfold call. specialize (Hr s). specialize (Hf s).
  destruct (m s) as [[a|r|e|] s']; cbn in *.
  - eexists; reflexivity.
  - eexists; reflexivity.
  - exfalso. exact (Hr e eq_refl).
  - contradiction.
Qed.

Lemma silent_never_raises {R A} (m : M St R A) : silent m -> never_raises m.
Proof. intros H s e. destruct (H s) as [a Ha]. rewrite Ha. discriminate. Qed.

Lemma silent_finishes {R A} (m : M St R A) : silent m -> finishes m.
Proof. intros H s. destruct (H s) as [a Ha]. rewrite Ha. discriminate. Qed.

Lemma yields_ret {R A} (QN : A -> Prop) (QR : R -> Prop) a :
  QN a -> yields (World:=World) QN QR (ret a).
Proof. intros H s. exact H. Qed.

Lemma yields_return {R A} (QN : A -> Prop) (QR : R -> Prop) r :
  QR r -> yields (World:=World) QN QR (return_ r).
Proof. intros H s. exact H. Qed.

Lemma yields_raise {R A} (QN : A -> Prop) (QR : R -> Prop) e :
  yields (World:=World) QN QR (raise e).
Proof. intros s. exact Logic.I. Qed.

Lemma yields_diverge {R A} (QN : A -> Prop) (QR : R -> Prop) :
  yields (World:=World) QN QR diverge.
Proof. intros s. exact Logic.I. Qed.

Lemma yields_read {R A} (QN : A -> Prop) (QR : R -> Prop) (f : St -> A) :
  (forall s, QN (f s)) -> yields QN QR (read f).
Proof. intros H s. apply H. Qed.

Lemma yields_modify {R} (QN : unit -> Prop) (QR : R -> Prop) (f : St -> St) :
  QN tt -> yields QN QR (modify f).
Proof. intros H s. exact H. Qed.

Lemma yields_perform {R} (c : cmd) (QN : answer c -> Prop) (QR : R -> Prop) :
  (forall a, QN a) -> yields QN QR (perform oracle c).
Proof.
  intros H s. unfold perform.
  destruct (oracle c (world s)) as [[a|e] w]; cbn; auto.
Qed.

Lemma yields_bind {R A B} (QN1 : A -> Prop) (QN : B -> Prop) (QR : R -> Prop)
    (m : M St R A) (k : A -> M St R B) :
  yields QN1 QR m -> (forall a, QN1 a -> yields QN QR (k a)) ->
  yields QN QR (bind m k).
Proof.
  intros Hm Hk s. unfold bind. specialize (Hm s).
  destruct (m s) as [[a|r|e|] s']; cbn in *; auto. apply Hk. exact Hm.
Qed.

Lemma yields_try_except {R A} (QN : A -> Prop) (QR : R -> Prop)
    (m : M St R A) h :
  yields QN QR m -> (forall e, yields QN QR (h e)) ->
  yields QN QR (try_except m h).
Proof.
  intros Hm Hh s. unfold try_except. specialize (Hm s).
  destruct (m s) as [[a|r|e|] s']; cbn in *; auto. apply Hh.
Qed.

Lemma yields_call {R R'} (Q : R -> Prop) (QR : R' -> Prop) (m : M St R R) :
  yields Q Q m -> yields Q QR (call m).
Proof.
  intros Hm s. unfold call. specialize (Hm s).
  destruct (m s) as [[a|r|e|] s']; cbn in *; auto.
Qed.

Lemma yields_for_each {R A} (QN : unit -> Prop) (QR : R -> Prop)
    (xs : list A) (body : A -> M St R unit) :
  QN tt -> (forall x, yields (fun _ => True) QR (body x)) ->
  yields QN QR (for_each xs body).
Proof.
  intros Ht Hb. induction xs as [|x xs IH]; cbn.
  - apply yields_ret. exact Ht.
  - eapply yields_bind; [apply Hb | intros _ _; exact IH].
Qed.

Lemma yields_weaken {R A} (QN QN' : A -> Prop) (QR QR' : R -> Prop)
    (m : M St R A) :
  yields QN' QR' m -> (forall a, QN' a -> QN a) -> (forall r, QR' r -> QR r) ->
  yields QN QR m.
Proof.
  intros Hm HN HR s. specialize (Hm s).
  destruct (fst (m s)); auto.
Qed.

Lemma hoare_at {R A} (P : St -> Prop) (m : M St R A) N (XR : R -> St -> Prop)
    XE XD :
  (forall s0, P s0 -> hoare (fun s => s = s0) m N XR XE XD) ->
  hoare P m N XR XE XD.
Proof. intros H s Hs. exact (H s Hs s eq_refl). Qed.

Lemma hoare_ret_bind {R A B} (P : St -> Prop) (a : A) (k : A -> M St R B)
    N (XR : R -> St -> Prop) XE XD :
  hoare P (k a) N XR XE XD -> hoare P (bind (ret a) k) N XR XE XD.
Proof. intros H. exact H. Qed.

Lemma hoare_false {R A} (m : M St R A) N (XR : R -> St -> Prop) XE XD :
  hoare (fun _ => False) m N XR XE XD.
Proof. intros s []. Qed.

Lemma hoare_keeps_no_return {R A} (P : St -> Prop) (m : M St R A)
    N (XR : R -> St -> Prop) XE XD :
  keeps_globals m -> about_globals P ->
  yields (fun _ => True) (fun _ => False) m ->
  (forall a s, P s -> N a s) -> (forall s, P s -> XE s) ->
  (forall s, P s -> XD s) ->
  hoare P m N XR XE XD.
Proof.
  intros Hk Ha Hy HN HE HD s Hs.
  pose proof (keeps_globals_about Hk Ha s Hs) as H. specialize (Hy s).
  destruct (m s) as [[b|r|e|] s1]; cbn in *; auto; contradiction.
Qed.

Lemma yields_call_any {R R'} (QR : R' -> Prop) (m : M St R R) :
  yields (fun _ => True) QR (call m).
Proof.
  intros s. unfold call. destruct (m s) as [[a|r|e|] s']; exact Logic.I.
Qed.

(** A block that keeps [I], where no more than [J] is needed of the
    ways out other than the normal one. *)
Lemma hoare_preserves {R A} (I J : St -> Prop) (m : M St R A) :
  preserves I m -> (forall s, I s -> J s) ->
  hoare I m (fun _ => I) (fun _ => J) J J.
Proof.
  intros Hm HJ s Hs. specialize (Hm s Hs).
  destruct (m s) as [[b|r|e|] s1]; cbn in *; auto.
Qed.

Lemma starts_added_other k t0 (s : St) (w : World) c :
  is_step1_locate c = false -> starts_added k t0 s ->
  starts_added k t0 (mkState w (driver_instance s) (is_logged_in s)
                             (session_file s) (context s) (c :: trace s)).
Proof.
  intros Hc (l & Hl & Hk). exists (c :: l). cbn. rewrite Hl. split; auto.
  unfold sequence_starts in *. cbn. rewrite Hc. exact Hk.
Qed.

Lemma starts_added_locate k t0 (s : St) (w : World) c :
  starts_added k t0 s ->
  starts_added (S k) t0 (mkState w (driver_instance s) (is_logged_in s)
                                 (session_file s) (context s) (c :: trace s)).
Proof.
  intros (l & Hl & Hk). exists (c :: l). cbn. rewrite Hl. split; auto.
  unfold sequence_starts in *. cbn. destruct (is_step1_locate c); cbn; lia.
Qed.

Lemma starts_added_more k k' t0 (s : St) :
  k <= k' -> starts_added k t0 s -> starts_added k' t0 s.
Proof. intros Hk (l & Hl & H). exists l. split; [exact Hl | lia]. Qed.

End FurtherRules.


(** Helpers the blocks are built from. *)
Ltac unfold_helpers :=
  progress unfold
    on, switch_to_frame, switch_to_default_content, path_exists, write_file,
    read_file, remove_file, as_number, item, in_attribute, strategy,
    set_driver_instance, set_is_logged_in, set_session_file, set_context,
    pass.

Ltac split_block j :=
  match goal with
  | |- j (if ?b then _ else _) => destruct b eqn:?
  | |- j (match ?x with _ => _ end) => destruct x eqn:?
  | |- j (let _ := _ in _) => cbv zeta
  end.

(** [no_escape] proves [never_raises m] where every command of [m] is
    under a [try] whose handlers stay silent. *)
Ltac no_escape :=
  repeat first
    [ assumption
    | apply never_raises_ret | apply never_raises_return
    | apply never_raises_diverge | apply never_raises_read
    | apply never_raises_modify
    | apply never_raises_try_except; intros ?
    | apply never_raises_bind; [| intros ?]
    | apply never_raises_call
    | apply never_raises_for_each; intros ?
    | apply silent_never_raises; solve [auto with silence]
    | match goal with
      | |- never_raises (if ?b then _ else _) => destruct b eqn:?
      | |- never_raises (match ?x with _ => _ end) => destruct x eqn:?
      | |- never_raises (let _ := _ in _) => cbv zeta
      end
    | unfold_helpers ].

(** [no_fuel] proves [finishes m] for blocks without loops. *)
Ltac no_fuel :=
  repeat first
    [ assumption
    | apply finishes_ret | apply finishes_raise | apply finishes_return
    | apply finishes_read | apply finishes_modify
    | match goal with
      | |- finishes (perform ?o ?c) => exact (@finishes_perform _ o _ c)
      end
    | apply finishes_bind; [| intros ?]
    | apply finishes_try_except; [| intros ?]
    | apply finishes_call
    | apply finishes_for_each; intros ?
    | apply silent_finishes; solve [auto with silence]
    | match goal with
      | |- finishes (if ?b then _ else _) => destruct b eqn:?
      | |- finishes (match ?x with _ => _ end) => destruct x eqn:?
      | |- finishes (let _ := _ in _) => cbv zeta
      end
    | unfold_helpers ].

(** [values_with leaf] proves [yields QN QR m] along the structure of
    [m], asking nothing of the values that are passed on inside [m] but
    for a value that is returned as it comes; [leaf] proves that a
    returned value is as required. *)
Ltac values_with leaf :=
  repeat first
    [ assumption
    | exact Logic.I
    | match goal with
      | H : forall _, yields _ _ _ |- _ => apply H
      | H : forall _ _, yields _ _ _ |- _ => apply H
      end
    | apply yields_ret | apply yields_raise | apply yields_diverge
    | apply yields_return; leaf
    | apply yields_read; intros ?
    | apply yields_modify
    | match goal with
      | |- yields _ _ (perform ?o ?c) =>
          refine (@yields_perform _ o _ c _ _ _); intros ?
      | |- yields _ ?QR (bind _ (fun r => return_ r)) =>
          eapply yields_bind with (QN1 := QR);
          [| intros ? ?; apply yields_return; assumption]
      end
    | apply yields_call_any
    | eapply yields_bind with (QN1 := fun _ => True); [| intros ? _]
    | apply yields_try_except; [| intros ?]
    | apply yields_call
    | apply yields_for_each; [| intros ?]
    | match goal with
      | |- yields _ _ (if ?b then _ else _) => destruct b eqn:?
      | |- yields _ _ (match ?x with _ => _ end) => destruct x eqn:?
      | |- yields _ _ (let _ := _ in _) => cbv zeta
      end
    | unfold_helpers ].

Ltac values := values_with idtac.

Ltac unfold_steps :=
  unfold run_automation_internal_body, step_dashboard_pendency,
    execute_remaining_steps, steps_before_gate, steps_before_sweep,
    steps_after_sweep, step_alert_popup, step_dealer_registration,
    step_new_registration, step_view_detail, step_approve_gate,
    step_verification_checkbox, step_documents_tab, step_modify_view,
    find_modal_close, step_close_modal, step_close_popup,
    step_modify_view_again, sweep_checkbox, sweep_in_iframe,
    step_checkbox_sweep, step_save_options, step_file_movement,
    step_file_movement_modal, step_proceed_to_next_seat, step_save, step_yes.

Ltac result_leaf :=
  unfold result_ok;
  eexists _, _, _; cbn;
  repeat split; try reflexivity; intros; try discriminate; reflexivity.

(** [keeping leaf] proves [preserves I m] along the structure of [m];
    [leaf] shows that a command or an assignment keeps [I]. *)
Ltac keeping leaf :=
  repeat first
    [ assumption
    | match goal with
      | H : forall _, preserves _ _ |- _ => apply H
      | H : forall _ _, preserves _ _ |- _ => apply H
      | H : forall _ _ _, preserves _ _ |- _ => apply H
      | H : forall _ _ _ _, preserves _ _ |- _ => apply H
      end
    | apply preserves_ret | apply preserves_pass | apply preserves_raise
    | apply preserves_return | apply preserves_diverge | apply preserves_read
    | match goal with
      | |- preserves ?I (perform ?o ?c) =>
          refine (@preserves_perform _ o I _ c _); intros ? ? ?; leaf
      end
    | apply preserves_modify; intros ? ?; leaf
    | apply preserves_bind; [| intros ?]
    | apply preserves_try_except; [| intros ?]
    | apply preserves_call
    | apply preserves_for_each; intros ?
    | match goal with
      | |- preserves _ (if ?b then _ else _) => destruct b eqn:?
      | |- preserves _ (match ?x with _ => _ end) => destruct x eqn:?
      | |- preserves _ (let _ := _ in _) => cbv zeta
      end
    | unfold_helpers ].

Ltac other_command :=
  first [ assumption
        | apply starts_added_other; [reflexivity | assumption] ].

Create HintDb silence.
Create HintDb frame.

Tactic Notation "step" uconstr(Q) "as" simple_intropattern(x) :=
  eapply hoare_bind with (N1 := fun _ => Q); [| intros x].
Tactic Notation "step" uconstr(Q) := step Q as ?.

Ltac facts :=
  intros;
  unfold report_ok, agrees, engine_invariant, globals, flag_down, has_handle,
    is_not_None in *;
  cbn in *;
  repeat match goal with
         | H : _ /\ _ |- _ => destruct H
         | H : exists _, _ |- _ => destruct H
         end;
  subst;
  repeat match goal with
         | H : driver_instance _ = _ |- _ => rewrite H in *
         | H : is_logged_in _ = _ |- _ => rewrite H in *
         end;
  cbn in *;
  repeat split;
  try solve [ eauto | congruence | discriminate | eexists; reflexivity
            | intuition (try congruence; try discriminate) ].

Ltac about_facts :=
  let s := fresh "s" in let s' := fresh "s'" in
  let Hd := fresh "Hd" in let Hb := fresh "Hb" in
  intros s s' Hd Hb;
  unfold report_ok, agrees, engine_invariant, globals, flag_down, has_handle;
  rewrite ?Hd, ?Hb; exact (fun H => H).

Ltac keeps_side :=
  first [ solve [auto with frame]
        | match goal with
          | |- keeps_globals (perform ?o ?c) =>
              let d := fresh in let b := fresh in
              intros d b;
              refine (@preserves_perform _ o (globals d b) _ c _);
              intros ? ? ?; assumption
          end ].

Ltac plain_side :=
  first [ solve [auto with frame]
        | match goal with
          | |- plain (perform ?o ?c) => exact (@plain_perform _ o _ c)
          end ].

(** A block that assigns to neither global, under a condition on the
    globals. *)
Ltac frame :=
  match goal with
  | |- hoare _ ?m _ _ _ _ =>
      let K := fresh "K" in
      assert (K : keeps_globals m) by keeps_side;
      first
        [ apply hoare_keeps_silent;
            [exact K | solve [about_facts] | solve [auto with silence]
            | solve [facts]]
        | apply hoare_keeps_plain;
            [exact K | solve [about_facts] | plain_side
            | solve [facts] | solve [facts]]
        | apply hoare_keeps_call;
            [exact K | solve [about_facts] | solve [facts] | solve [facts]
            | solve [facts]]
        | apply hoare_keeps_no_return;
            [exact K | solve [about_facts] | solve [auto with frame]
            | solve [facts] | solve [facts] | solve [facts]]
        | apply hoare_keeps;
            [exact K | solve [about_facts] | solve [facts] | solve [facts]
            | solve [facts] | solve [facts]] ]
  end.

Ltac assign := apply hoare_modify; solve [facts].
Ltac returns := apply hoare_return; solve [facts].
Ltac goes_on := apply hoare_ret; solve [facts].
Ltac branch :=
  match goal with
  | |- hoare _ (if ?x then _ else _) _ _ _ _ => destruct x eqn:?
  | |- hoare _ (match ?x with _ => _ end) _ _ _ _ => destruct x eqn:?
  end.


Section Reports.

Context {World : Type}.
Variable oracle : oracle_type World.
Local Abbreviation St := (state World).

Lemma is_chrome_debugging_available_silent R :
  silent (is_chrome_debugging_available oracle (R:=R)).
Proof.
  unfold is_chrome_debugging_available.
  apply call_silent; [no_escape | no_fuel].
Qed.

Lemma try_connect_to_existing_chrome_silent R :
  silent (try_connect_to_existing_chrome oracle (R:=R)).
Proof.
  unfold try_connect_to_existing_chrome, is_chrome_debugging_available.
  apply call_silent; [no_escape | no_fuel].
Qed.

Lemma load_session_info_silent R : silent (load_session_info oracle (R:=R)).
Proof.
  unfold load_session_info. apply call_silent; [no_escape | no_fuel].
Qed.

Lemma check_for_back_to_home_page_silent R driver :
  silent (check_for_back_to_home_page oracle (R:=R) driver).
Proof.
  unfold check_for_back_to_home_page. apply call_silent; [no_escape | no_fuel].
Qed.

Lemma check_for_error_page_silent R driver :
  silent (check_for_error_page oracle (R:=R) driver).
Proof.
  unfold check_for_error_page. apply call_silent; [no_escape | no_fuel].
Qed.

#[local] Hint Resolve is_chrome_debugging_available_silent
  try_connect_to_existing_chrome_silent load_session_info_silent
  check_for_back_to_home_page_silent check_for_error_page_silent
  save_session_info_silent clear_session_info_silent : silence.

#[local] Hint Resolve is_chrome_debugging_available_keeps
  try_connect_to_existing_chrome_keeps create_vahan_driver_keeps
  save_session_info_keeps clear_session_info_keeps on_keeps item_keeps
  wait_for_login_keeps navigation_loop_keeps run_automation_loop_keeps
  on_plain item_plain : frame.

Lemma check_browser_status_reports R' (XR : R' -> St -> Prop) :
  hoare (fun _ => True) (check_browser_status oracle (R:=R'))
        report_ok XR (fun _ => False) (fun _ => False).
Proof.
  unfold check_browser_status. apply hoare_call.
  eapply hoare_bind with (N1 := fun handle s => driver_instance s = handle);
    [apply hoare_read; auto|].
  intros handle.
  step has_handle.
  - destruct handle as [d|]; cbn [is_not_None negb].
    + goes_on.
    + step (fun s : St => driver_instance s = None) as available; [frame|].
      step (fun s : St => driver_instance s = None).
      { destruct (negb available); [returns | goes_on]. }
      eapply hoare_try_except
        with (E1 := fun s : St => driver_instance s = None).
      * step (fun s : St => driver_instance s = None) as existing_driver;
          [frame|].
        destruct existing_driver as [d|]; [assign | returns].
      * intros e. returns.
  - eapply hoare_try_except with (E1 := fun _ => True).
    + eapply hoare_bind
        with (N1 := fun handle s => driver_instance s = handle /\ handle <> None);
        [apply hoare_read; facts|].
      intros [d|]; [|intros s [_ H]; congruence].
      apply hoare_weaken with (P' := fun s : St => driver_instance s = Some d);
        [facts|].
      step (fun s : St => driver_instance s = Some d) as current_url; [frame|].
      branch.
      * step (globals (Some d) true); [assign|].
        step (globals (Some d) true); [frame|]. returns.
      * step (globals (Some d) false); [assign|].
        step (globals (Some d) false); [frame|]. returns.
    + intros e.
      step (fun s : St => driver_instance s = None); [assign|].
      step (globals None false); [assign|].
      step (globals None false); [frame|]. returns.
Qed.

Lemma check_browser_status_result R (s : St) :
  exists status,
    fst (check_browser_status oracle (R:=R) s) = Normal status /\
    report_ok status (snd (check_browser_status oracle (R:=R) s)).
Proof.
  pose proof (@check_browser_status_reports R (fun _ _ => False) s Logic.I)
    as H.
  destruct (check_browser_status oracle s) as [[status|r|e|] s'];
    try contradiction.
  exists status. split; [reflexivity | exact H].
Qed.

(** The status report is always produced, whatever the browser, the port
    and the file system do, and it is accurate: [browser_open] says
    whether the engine holds a handle afterwards, [logged_in] whether it
    holds a handle with the login flag up. *)
Theorem status_report_is_accurate (s : St) :
  let r := check_browser_status oracle (R:=unit) s in
  exists status, fst r = Normal status /\ report_ok status (snd r).
Proof. intros r. apply check_browser_status_result. Qed.

Lemma navigation_loop_no_return R fuel driver max_retries :
  forall retry_count,
    yields (fun _ => True) (fun _ => False)
      (navigation_loop oracle (R:=R) fuel driver max_retries retry_count).
Proof.
  induction fuel as [|fuel IH]; intros retry_count; cbn [navigation_loop];
    values.
Qed.

#[local] Hint Resolve navigation_loop_no_return : frame.

Ltac start_facts :=
  intros; unfold start_result_ok, globals, has_handle in *; cbn in *;
  repeat match goal with H : _ /\ _ |- _ => destruct H end;
  eexists _, _;
  repeat split;
  try solve [ reflexivity | cbn; tauto | discriminate | congruence
            | intros; discriminate ].

Lemma start_vahan_browser_results R' (XR : R' -> St -> Prop) (fuel : nat) :
  hoare (fun _ => True) (start_vahan_browser oracle (R:=R') fuel)
        start_result_ok XR (fun _ => False) (fun _ => True).
Proof.
  unfold start_vahan_browser. apply hoare_call.
  eapply hoare_bind.
  { eapply hoare_consequence;
      [ apply check_browser_status_reports
      | intros a s H; exact H | intros r s H; exact H | auto | auto ]. }
  intros status. apply hoare_at. intros s0 (Hopen & Hlogged & message & _).
  apply hoare_weaken
    with (P' := globals (driver_instance s0) (is_logged_in s0));
    [intros s ->; split; reflexivity|].
  unfold item at 1. rewrite Hopen. apply hoare_ret_bind.
  unfold item at 1. rewrite Hlogged. apply hoare_ret_bind.
  destruct (driver_instance s0) as [d|]; cbn [is_not_None truthy andb negb].
  - destruct (is_logged_in s0); cbn [negb].
    + (* open and logged in *)
      eapply hoare_bind with (N1 := fun _ _ => False);
        [apply hoare_return; start_facts | intros; apply hoare_false].
    + (* open, on the login page *)
      step (globals (Some d) false); [apply hoare_ret; auto|].
      eapply hoare_bind with (N1 := fun _ _ => False);
        [| intros; apply hoare_false].
      eapply hoare_try_except with (E1 := fun _ => True).
      * step (globals (Some d) false); [apply hoare_read; auto|].
        step (globals (Some d) false) as login_success; [frame|].
        destruct login_success.
        -- step (globals (Some d) true); [assign|].
           apply hoare_return; start_facts.
        -- apply hoare_return; start_facts.
      * intros e. apply hoare_return; start_facts.
  - (* no browser *)
    set (b := is_logged_in s0). clearbody b.
    step (globals None b); [apply hoare_ret; auto|].
    step (globals None b); [apply hoare_ret; auto|].
    eapply hoare_try_except with (E1 := fun _ => True).
    + step (globals None b) as driver; [frame|].
      step (globals (Some driver) b); [assign|].
      step (globals (Some driver) b) as page_loaded; [frame|].
      step (globals (Some driver) b).
      { branch; [|apply hoare_ret; auto].
        apply hoare_weaken with (P' := fun _ => True); [auto|].
        step (fun _ : St => True); [apply hoare_read; auto|].
        step (fun _ : St => True); [|apply hoare_return; start_facts].
        branch; [|apply hoare_ret; auto].
        eapply hoare_try_except with (E1 := fun _ => True);
          [| intros; apply hoare_ret; auto].
        step (fun _ : St => True); [frame | apply hoare_modify; auto]. }
      step (globals (Some driver) b) as login_success; [frame|].
      destruct login_success.
      * step (globals (Some driver) true); [assign|].
        step (globals (Some driver) true); [frame|].
        apply hoare_return; start_facts.
      * apply hoare_return; start_facts.
    + intros e. cbv zeta.
      step (fun _ : St => True); [apply hoare_read; auto|].
      step (fun _ : St => True); [|apply hoare_return; start_facts].
      branch; [|apply hoare_ret; auto].
      eapply hoare_try_except with (E1 := fun _ => True);
        [| intros; apply hoare_ret; auto].
      step (fun _ : St => True); [frame|].
      step (fun _ : St => True); [apply hoare_modify; auto|].
      frame.
Qed.

(** [start_vahan_browser] lets no exception out, and what it returns is
    one of its five results; a result with [success] true is
    [already_logged_in] or [login_success], and the engine then holds a
    handle with the login flag up. *)
Theorem start_vahan_browser_result (fuel : nat) (s : St) :
  match start_vahan_browser oracle (R:=unit) fuel s with
  | (Normal result, s') => start_result_ok result s'
  | (Diverged, _) => True
  | _ => False
  end.
Proof.
  pose proof (@start_vahan_browser_results unit (fun _ _ => False) fuel s
                Logic.I) as H.
  destruct (start_vahan_browser oracle fuel s) as [[result|r|e|] s'];
    auto.
Qed.

(** [run_automation] drives the browser only when the status check finds
    a handle and the login flag up: otherwise it returns
    [browser_not_open] or [not_logged_in] in the state the status check
    left, and with them its result is that of the loop from that state. *)
Theorem run_automation_needs_login (fuel : nat) (s : St) :
  let s1 := snd (check_browser_status oracle (R:=dict) s) in
  run_automation oracle (R:=unit) fuel s =
  if negb (is_not_None (driver_instance s1)) then
    (Normal (failure "⚠️ Browser is not open. Please click 'Start' to open the browser and login first." "browser_not_open"), s1)
  else if negb (is_logged_in s1) then
    (Normal (failure "⚠️ You are not logged in. Please login to Vahan website first." "not_logged_in"), s1)
  else call (run_automation_loop oracle fuel 0 0) s1.
Proof.
  intros s1. subst s1.
  destruct (check_browser_status_result dict s)
    as (status & Hstatus & Hopen & Hlogged & _).
  unfold run_automation, call at 1. unfold bind at 1.
  destruct (check_browser_status oracle s) as [o s1]. cbn in *. subst o.
  unfold bind at 1, item at 1. rewrite Hopen. cbn.
  destruct (driver_instance s1) as [d|]; cbn; [|reflexivity].
  unfold bind at 1, item at 1. rewrite Hlogged. cbn.
  destruct (is_logged_in s1); cbn; reflexivity.
Qed.

(** In every state of the engine the login flag is up only while there is
    a handle. *)
Theorem login_flag_needs_handle (s : St) :
  reachable oracle s -> is_logged_in s = true ->
  is_not_None (driver_instance s) = true.
Proof.
  intros Hreach Hflag. apply reachable_invariant in Hreach.
  destruct (driver_instance s) as [d|] eqn:Hd; [reflexivity|].
  rewrite (Hreach Hd) in Hflag. discriminate.
Qed.

Lemma run_automation_internal_fuel_yields (fuel : nat) :
  forall retry_count max_retries,
    yields result_ok result_ok
      (run_automation_internal_fuel oracle fuel retry_count max_retries).
Proof.
  induction fuel as [|fuel IH]; intros retry_count max_retries;
    cbn [run_automation_internal_fuel].
  - apply yields_diverge.
  - unfold_steps. values_with result_leaf.
Qed.

Lemma run_automation_loop_yields (fuel : nat) :
  forall processed_count error_count,
    yields result_ok result_ok
      (run_automation_loop oracle fuel processed_count error_count).
Proof.
  induction fuel as [|fuel IH]; intros processed_count error_count;
    cbn [run_automation_loop].
  - apply yields_diverge.
  - eapply yields_bind with (QN1 := result_ok).
    { eapply yields_weaken;
        [apply (run_automation_internal_fuel_yields 3 0 2) | auto | auto]. }
    intros result (success & message & status & Hs & Hm & Hst & _).
    values_with ltac:(
      unfold result_ok, all_processed, stopped_on_errors, dict_get_default,
        dict_get;
      rewrite ?Hst, ?Hm;
      eexists _, _, _; cbn;
      repeat split; try reflexivity; intros; try discriminate; reflexivity).
Qed.

Lemma run_automation_yields R (QR : R -> Prop) (fuel : nat) :
  yields result_ok QR (run_automation oracle fuel).
Proof.
  pose proof (run_automation_loop_yields fuel 0 0) as Hloop.
  unfold run_automation. values_with result_leaf.
Qed.

(** Whatever the browser does, a result of the step sequencer, and a
    result of [run_automation], carries a boolean [success], a string
    [message] and a string [status], and [success] is true only with the
    status [completed]. *)
Theorem results_are_structured (fuel retry_count max_retries : nat) (s : St) :
  match fst (run_automation_internal oracle retry_count max_retries s) with
  | Normal result => result_ok result
  | _ => True
  end /\
  match fst (run_automation oracle (R:=unit) fuel s) with
  | Normal result => result_ok result
  | _ => True
  end.
Proof.
  split.
  - pose proof (run_automation_internal_fuel_yields
                  (S (max_retries - retry_count)) retry_count max_retries s)
      as H.
    unfold run_automation_internal.
    destruct (fst (run_automation_internal_fuel oracle _ _ _ s)); auto.
  - pose proof (@run_automation_yields unit (fun _ => True) fuel s) as H.
    destruct (fst (run_automation oracle fuel s)); auto.
Qed.

Lemma check_for_back_to_home_page_starts R driver k t0 :
  preserves (starts_added k t0)
            (check_for_back_to_home_page oracle (R:=R) driver).
Proof. unfold check_for_back_to_home_page. keeping other_command. Qed.

Lemma run_automation_internal_fuel_starts (fuel : nat) :
  forall retry_count max_retries k t0,
    hoare (starts_added k t0)
      (run_automation_internal_fuel oracle fuel retry_count max_retries)
      (fun _ => starts_added (k + S (max_retries - retry_count)) t0)
      (fun _ => starts_added (k + S (max_retries - retry_count)) t0)
      (starts_added (k + S (max_retries - retry_count)) t0)
      (starts_added (k + S (max_retries - retry_count)) t0).
Proof.
  induction fuel as [|fuel IH]; intros retry_count max_retries k t0;
    cbn [run_automation_internal_fuel].
  - apply hoare_diverge. intros s. apply starts_added_more. lia.
  - set (J := starts_added (k + S (max_retries - retry_count)) t0).
    assert (Hmore : forall s, starts_added (S k) t0 s -> J s).
    { intros s. apply starts_added_more. lia. }
    assert (Hrecur :
      Nat.ltb retry_count max_retries = true ->
      hoare (starts_added (S k) t0)
        (run_automation_internal_fuel oracle fuel (retry_count + 1) max_retries)
        (fun _ => J) (fun _ => J) J J).
    { intros Hlt. apply Nat.ltb_lt in Hlt.
      eapply hoare_consequence; [apply IH | ..]; intros; subst J;
        cbn beta in *; (eapply starts_added_more; [|eassumption]); lia. }
    pose proof (fun R driver =>
                  @check_for_back_to_home_page_starts R driver (S k) t0)
      as Hcheck.
    unfold run_automation_internal_body. apply hoare_call.
    eapply hoare_bind with (N1 := fun _ => starts_added k t0);
      [apply hoare_read; auto|].
    intros driver.
    eapply hoare_bind with (N1 := fun _ => starts_added k t0).
    { eapply hoare_consequence;
        [apply hoare_preserves with (J := J);
           [apply check_for_back_to_home_page_starts
           | intros s; apply starts_added_more; lia]
        | auto ..]. }
    intros _.
    eapply hoare_bind with (N1 := fun _ => starts_added (S k) t0).
    { (* step 1 *)
      unfold step_dashboard_pendency.
      eapply hoare_try_except with (E1 := starts_added (S k) t0).
      - eapply hoare_bind with (N1 := fun _ => starts_added (S k) t0).
        + unfold on. destruct driver as [d|].
          * intros s Hs. unfold perform.
            destruct (oracle (Driver d (WaitClickable 10 dashboard_pendency))
                             (world s)) as [[a|e] w]; cbn;
              apply starts_added_locate; exact Hs.
          * apply hoare_raise. intros s. apply starts_added_more. lia.
        + intros dashboard_button.
          eapply hoare_consequence;
            [apply hoare_preserves with (J := starts_added (S k) t0);
               [keeping other_command | auto]
            | auto ..].
      - intros e. destruct (is_TimeoutException e); [|apply hoare_raise; auto].
        eapply hoare_bind with (N1 := fun _ => starts_added (S k) t0);
          [| intros; apply hoare_return; auto].
        destruct (Nat.ltb retry_count max_retries) eqn:Hlt;
          [|apply hoare_ret; auto].
        eapply hoare_bind with (N1 := fun _ => starts_added (S k) t0).
        { eapply hoare_consequence;
            [apply hoare_preserves with (J := J); [apply Hcheck | exact Hmore]
            | auto ..]. }
        intros [|]; [|apply hoare_ret; auto].
        eapply hoare_bind with (N1 := fun _ => J); [apply Hrecur; reflexivity|].
        intros r. apply hoare_return. auto. }
    intros _.
    (* steps 2 to 20 *)
    eapply hoare_bind with (N1 := fun _ => J);
      [| intros r; apply hoare_return; auto].
    unfold execute_remaining_steps. apply hoare_call.
    eapply hoare_bind with (N1 := fun _ => starts_added (S k) t0).
    { eapply hoare_consequence;
        [apply hoare_preserves with (J := J);
           [unfold_steps; keeping other_command | exact Hmore]
        | auto ..]. }
    intros _.
    eapply hoare_try_except with (E1 := J).
    + eapply hoare_bind with (N1 := fun _ => starts_added (S k) t0).
      { eapply hoare_consequence;
          [apply hoare_preserves with (J := J);
             [unfold_steps; keeping other_command | exact Hmore]
          | auto ..]. }
      intros _.
      eapply hoare_bind with (N1 := fun _ => starts_added (S k) t0).
      { eapply hoare_consequence;
          [apply hoare_preserves with (J := J);
             [unfold_steps; keeping other_command | exact Hmore]
          | auto ..]. }
      intros _.
      eapply hoare_bind with (N1 := fun _ => starts_added (S k) t0).
      { eapply hoare_consequence;
          [apply hoare_preserves with (J := J);
             [unfold_steps; keeping other_command | exact Hmore]
          | auto ..]. }
      intros _.
      eapply hoare_bind with (N1 := fun _ => starts_added (S k) t0).
      { (* step 12 *)
        unfold step_checkbox_sweep.
        eapply hoare_try_except with (E1 := starts_added (S k) t0).
        - eapply hoare_consequence;
            [apply hoare_preserves with (J := starts_added (S k) t0);
               [unfold_steps; keeping other_command | auto]
            | auto ..].
        - intros e. destruct (is_TimeoutException e).
          + eapply hoare_bind with (N1 := fun _ => starts_added (S k) t0).
            { eapply hoare_consequence;
                [apply hoare_preserves with (J := J);
                   [keeping other_command | exact Hmore]
                | auto ..]. }
            intros _.
            eapply hoare_bind with (N1 := fun _ => starts_added (S k) t0).
            { eapply hoare_consequence;
                [apply hoare_preserves with (J := J);
                   [keeping other_command | exact Hmore]
                | auto ..]. }
            intros _.
            eapply hoare_bind with (N1 := fun _ => starts_added (S k) t0).
            { eapply hoare_consequence;
                [apply hoare_preserves with (J := J);
                   [apply Hcheck | exact Hmore]
                | auto ..]. }
            intros recovered.
            eapply hoare_bind with (N1 := fun _ => starts_added (S k) t0);
              [| intros; apply hoare_return; auto].
            destruct recovered; [|apply hoare_ret; auto].
            destruct (Nat.ltb retry_count max_retries) eqn:Hlt;
              [|apply hoare_ret; auto].
            eapply hoare_bind with (N1 := fun _ => J);
              [apply Hrecur; reflexivity|].
            intros r. apply hoare_return. auto.
          + eapply hoare_bind with (N1 := fun _ => starts_added (S k) t0);
              [| intros; apply hoare_return; auto].
            eapply hoare_consequence;
              [apply hoare_preserves with (J := J);
                 [keeping other_command | exact Hmore]
              | auto ..]. }
      intros _.
      eapply hoare_bind with (N1 := fun _ => starts_added (S k) t0);
        [| intros; apply hoare_return; auto].
      eapply hoare_consequence;
        [apply hoare_preserves with (J := J);
           [unfold_steps; keeping other_command | exact Hmore]
        | auto ..].
    + intros e. destruct (is_TimeoutException e); apply hoare_return; auto.
Qed.

(** Whatever the browser does, an invocation of the step sequencer ends,
    and it looks for the Dashboard Pendency button, and so starts the step
    sequence, at most once more than its recovery budget allows: with
    budget [max_retries] and [retry_count] restarts behind it, at most
    [max_retries - retry_count + 1] times. *)
Theorem restarts_within_budget (retry_count max_retries : nat) (s : St) :
  let r := run_automation_internal oracle retry_count max_retries s in
  match fst r with
  | Normal _ | Raise _ => True
  | _ => False
  end /\
  exists l,
    trace (snd r) = (l ++ trace s)%list /\
    sequence_starts l <= S (max_retries - retry_count).
Proof.
  intros r. subst r. split.
  - pose proof (@run_automation_internal_finishes _ oracle retry_count
                  max_retries s) as Hends.
    unfold run_automation_internal in *.
    cbn [run_automation_internal_fuel] in *.
    unfold run_automation_internal_body, call in *.
    match goal with
    | |- context [match ?body s with _ => _ end] =>
        destruct (body s) as [[a|a|e|] s1]
    end; cbn in *; auto.
  - pose proof (@run_automation_internal_fuel_starts
                  (S (max_retries - retry_count)) retry_count max_retries
                  0 (trace s) s) as H.
    unfold run_automation_internal.
    destruct (run_automation_internal_fuel oracle _ _ _ s) as [[a|a|e|] s'];
      cbn in *; apply H; exists []; split; auto.
Qed.

(** Steps 2 to 20 always end with a structured result: whatever the
    browser does they let no exception out, and with the recursion as
    deep as the recovery budget allows, or deeper, they do not run on. *)
Theorem remaining_steps_always_report
    (driver : option WebDriver) (extra retry_count max_retries : nat) (s : St) :
  match fst (execute_remaining_steps oracle driver
               (run_automation_internal_fuel oracle
                  (max_retries - retry_count + extra))
               retry_count max_retries s) with
  | Normal result => result_ok result
  | _ => False
  end.
Proof.
  set (recur := run_automation_internal_fuel oracle
                  (max_retries - retry_count + extra)).
  pose proof (@execute_remaining_steps_never_raises _ oracle driver recur
                retry_count max_retries s) as Hraise.
  assert (Hends : finishes (execute_remaining_steps oracle driver recur
                              retry_count max_retries)).
  { unfold execute_remaining_steps. unfold_steps. no_fuel.
    all: subst recur; apply run_automation_internal_fuel_finishes;
      match goal with
      | E : Nat.ltb _ _ = true |- _ => apply Nat.ltb_lt in E; lia
      end. }
  assert (Hy : yields result_ok (fun _ : dict => False)
                 (execute_remaining_steps oracle driver recur
                    retry_count max_retries)).
  { pose proof (run_automation_internal_fuel_yields
                  (max_retries - retry_count + extra)) as Hrecur.
    unfold execute_remaining_steps. apply yields_call.
    unfold_steps. subst recur. values_with result_leaf. }
  specialize (Hy s). specialize (Hends s).
  destruct (fst (execute_remaining_steps oracle driver recur
                   retry_count max_retries s))
    as [result|r|e|]; auto.
  exact (Hraise e eq_refl).
Qed.

Lemma successes_count (n : nat) :
  forall fuel processed_count error_count (s s' s'' : St) (result : dict),
    successes oracle n s s' ->
    run_automation_internal oracle 0 2 s' = (Normal result, s'') ->
    truthy (dict_get result "success") = false ->
    py_eq (dict_get result "status") (VStr "no_approve_button") = true ->
    run_automation_loop oracle (n + S fuel) processed_count error_count s
    = (Return (all_processed (processed_count + n)), s'').
Proof.
  induction n as [|n IH];
    intros fuel processed_count error_count s s' s'' result Hn Hlast Hs Hst.
  - cbn in Hn. subst s'. cbn [Nat.add].
    erewrite run_automation_loop_turn by exact Hlast. rewrite Hs, Hst.
    rewrite Nat.add_0_r. reflexivity.
  - destruct Hn as (r1 & s1 & Hrun & Hok & Hrest). cbn [Nat.add].
    erewrite run_automation_loop_turn by exact Hrun. rewrite Hok.
    rewrite (IH fuel (processed_count + 1) 0 s1 s' s'' result Hrest Hlast Hs Hst).
    replace (processed_count + 1 + n) with (processed_count + S n) by lia.
    reflexivity.
Qed.

(** The loop counts what it processed: when [n] invocations of the step
    sequencer in a row succeed and the next one finds no Approve button,
    the loop returns [completed] with [processed_count] grown by [n],
    whatever the error count was before. *)
Theorem loop_counts_successes
    (n fuel processed_count error_count : nat) (s s' s'' : St) (result : dict) :
  successes oracle n s s' ->
  run_automation_internal oracle 0 2 s' = (Normal result, s'') ->
  truthy (dict_get result "success") = false ->
  py_eq (dict_get result "status") (VStr "no_approve_button") = true ->
  run_automation_loop oracle (n + S fuel) processed_count error_count s
  = (Return (all_processed (processed_count + n)), s'') /\
  dict_get (all_processed (processed_count + n)) "processed_count"
  = VInt (processed_count + n).
Proof.
  intros Hn Hlast Hs Hst. split; [|reflexivity].
  eapply successes_count; eassumption.
Qed.

End Reports.

Section ClickRules.

Context {World : Type}.
Variable oracle : oracle_type World.
Local Abbreviation St := (state World).

Lemma happened_nothing (s : St) : happened oracle s s [].
Proof. exists []. split; reflexivity. Qed.

(** One more command: one more exchange. *)
Lemma happened_step (s0 : St) (h : list exchange) (w w' : World)
    (d : option WebDriver) (b : bool) (f : option dict)
    (cx : browsing_context) (t : list cmd) (c : cmd) (r : reply (answer c)) :
  happened oracle s0 (mkState w d b f cx t) h ->
  oracle c w = (r, w') ->
  happened oracle s0 (mkState w' d b f cx (c :: t))
           ({| sent := c; got := r |} :: h).
Proof.
  intros (l & Hl & Hr) Hc. cbn in *. exists (c :: l). split.
  - cbn. rewrite Hl. reflexivity.
  - cbn [replay]. rewrite Hr, Hc. reflexivity.
Qed.

(** A driver command under a condition on what happened: [FN] holds of
    what happened when the command is answered, [FE] when it is not. *)
Lemma hoare_on_seen {R} (s0 : St) (F FE : list exchange -> Prop)
    (driver : option WebDriver) (c : dcmd)
    (FN : danswer c -> list exchange -> Prop) (XR : R -> St -> Prop) XD :
  (forall h d a, F h -> FN a ({| sent := Driver d c; got := Ok a |} :: h)) ->
  (forall h d e, F h -> FE ({| sent := Driver d c; got := Err e |} :: h)) ->
  (forall h, F h -> FE h) ->
  hoare (seen oracle s0 F) (on oracle driver c)
        (fun a => seen oracle s0 (FN a)) XR (seen oracle s0 FE) XD.
Proof.
  intros HN HE Hnone [w0 d0 b0 f0 cx0 t0] (h & Hh & HF).
  unfold on, perform, raise.
  destruct driver as [d|]; [|exists h; auto].
  cbn [world driver_instance is_logged_in session_file context trace].
  destruct (oracle (Driver d c) w0) as [[a|e] w] eqn:E;
    (eexists; split; [eapply happened_step; [exact Hh | exact E] | auto]).
Qed.

Lemma hoare_for_each {R A} (I : St -> Prop) (xs : list A)
    (body : A -> M St R unit) (XR : R -> St -> Prop) XE XD :
  (forall x, hoare I (body x) (fun _ => I) XR XE XD) ->
  hoare I (for_each xs body) (fun _ => I) XR XE XD.
Proof.
  intros Hb. induction xs as [|x xs IH]; cbn [for_each].
  - apply hoare_ret. auto.
  - eapply hoare_bind; [apply Hb | intros ?; exact IH].
Qed.

End ClickRules.

(** [walk s0 leaf] proves a [hoare] statement along the structure of the
    block, keeping what happened since [s0], and of it no more than that
    the latest exchange is a click that was carried out where a click
    ended normally; [leaf] shows that a returned value is as required. *)
Ltac walk s0 leaf :=
  repeat first
    [ apply hoare_return; intros ? ?; leaf
    | apply hoare_ret; intros ? (? & ? & ?); eexists; split;
        [eassumption | exact Logic.I]
    | apply hoare_raise; intros ? (? & ? & ?); eexists; split;
        [eassumption | exact Logic.I]
    | match goal with
      | |- hoare _ (bind (on ?o ?d (Click ?el)) _) _ _ _ _ =>
          eapply hoare_bind
            with (N1 := fun _ => seen o s0 (click_carried_out));
          [ eapply hoare_weaken;
            [ | refine (@hoare_on_seen _ o _ s0 (fun _ => True)
                          (fun _ => True) d (Click el)
                          (fun _ => click_carried_out) _ _ _ _ _);
                [ intros; eexists _, _; repeat split | exact (fun _ _ _ _ => Logic.I) | exact (fun _ _ => Logic.I) ] ];
            intros ? (? & ? & ?); eexists; split;
              [eassumption | exact Logic.I]
          | intros ? ]
      | |- hoare _ (on ?o ?d ?c) _ _ _ _ =>
          eapply hoare_weaken;
          [ | refine (@hoare_on_seen _ o _ s0 (fun _ => True)
                        (fun _ => True) d c (fun _ _ => True) _ _
                        (fun _ _ _ _ => Logic.I) (fun _ _ _ _ => Logic.I)
                        (fun _ _ => Logic.I)) ];
          intros ? (? & ? & ?); eexists; split;
            [eassumption | exact Logic.I]
      end
    | eapply hoare_bind with (N1 := fun _ => seen _ s0 (fun _ => True));
        [| intros ?]
    | eapply hoare_try_except with (E1 := seen _ s0 (fun _ => True));
        [| intros ?]
    | apply hoare_for_each with (I := seen _ s0 (fun _ => True)); intros ?
    | match goal with
      | |- hoare _ (if ?b then _ else _) _ _ _ _ => destruct b eqn:?
      | |- hoare _ (match ?x with _ => _ end) _ _ _ _ => destruct x eqn:?
      end
    | progress unfold pass ].

Section Recovery.

Context {World : Type}.
Variable oracle : oracle_type World.
Local Abbreviation St := (state World).

Lemma check_for_back_to_home_page_clicks R' (XR : R' -> St -> Prop)
    (driver : option WebDriver) (s0 : St) :
  hoare (seen oracle s0 (fun _ => True))
        (check_for_back_to_home_page oracle (R:=R') driver)
        (fun found =>
           seen oracle s0
                (fun h => found = true -> click_carried_out h))
        XR (fun _ => True) (fun _ => True).
Proof.
  unfold check_for_back_to_home_page. apply hoare_call.
  eapply hoare_consequence with (XE' := seen oracle s0 (fun _ => True));
    [| intros ? ? H; exact H | intros ? ? H; exact H | auto
     | intros ? H; exact H ].
  walk s0 ltac:(
    cbv beta in *;
    match goal with
    | H : seen _ _ _ _ |- _ =>
        destruct H as (? & ? & ?); eexists; split; [eassumption|];
        first [ intros _; assumption | discriminate ]
    end).
Qed.

(** The recovery check always answers, and it answers true only when the
    last thing it did was a click on a page element that the browser
    carried out: the latest of the exchanges with the browser is the
    click, and its answer is no exception. *)
Theorem recovery_check_clicks (driver : option WebDriver) (s : St) :
  let r := check_for_back_to_home_page oracle (R:=unit) driver s in
  exists found h,
    fst r = Normal found /\
    happened oracle s (snd r) h /\
    (found = true -> click_carried_out h).
Proof.
  intros r. subst r.
  destruct (check_for_back_to_home_page_silent oracle unit driver s)
    as [found Hfound].
  pose proof (@check_for_back_to_home_page_clicks unit (fun _ _ => True)
                driver s s) as H.
  specialize (H (ex_intro _ [] (conj (happened_nothing oracle s) Logic.I))).
  destruct (check_for_back_to_home_page oracle driver s) as [o s'].
  cbn in *. subst o. destruct H as (h & Hh & Hc).
  exists found, h. auto.
Qed.

Ltac new_commands :=
  match goal with
  | |- exists l, ?c4 :: ?c3 :: ?c2 :: ?c1 :: ?t = (l ++ ?t)%list /\ _ =>
      exists [c4; c3; c2; c1]
  | |- exists l, ?c3 :: ?c2 :: ?c1 :: ?t = (l ++ ?t)%list /\ _ =>
      exists [c3; c2; c1]
  | |- exists l, ?c2 :: ?c1 :: ?t = (l ++ ?t)%list /\ _ => exists [c2; c1]
  | |- exists l, ?c1 :: ?t = (l ++ ?t)%list /\ _ => exists [c1]
  | |- exists l, ?t = (l ++ ?t)%list /\ _ => exists []
  end.

(** Bring together what the hypotheses say of the same answers. *)
Ltac agree :=
  repeat match goal with
         | H : (_, _) = (_, _) |- _ => inversion H; subst; clear H
         | H1 : ?o ?c ?w = _, H2 : ?o ?c ?w = _ |- _ => rewrite H1 in H2
         end.

Tactic Notation "answer_of" constr(c) constr(w)
    "as" ident(a) ident(e) ident(w') ident(H) :=
  destruct (oracle c w) as [[a|e] w'] eqn:H.

(** [check_for_error_page] always answers, and it only looks: it issues at
    most two commands, both lookups of elements, and leaves the globals,
    the session file and the browsing context as they were. *)
Theorem error_page_check_only_looks (driver : option WebDriver) (s : St) :
  let r := check_for_error_page oracle (R:=unit) driver s in
  (exists found, fst r = Normal found) /\
  (exists l, trace (snd r) = (l ++ trace s)%list /\
             Forall (fun c => lookup_cmd c = true) l /\ length l <= 2) /\
  same_engine s (snd r).
Proof.
  intros r. subst r.
  unfold check_for_error_page, call, try_except, bind, on, perform, return_,
    pass, ret, raise, same_engine.
  destruct driver as [d|]; cbn.
  - answer_of (Driver d (FindElements error_text)) (world s)
      as elements e1 w1 H1; cbn.
    + destruct elements as [|el els]; cbn.
      * answer_of (Driver d (FindElement back_button_id)) w1
          as button e2 w2 H2; cbn;
          (split; [eexists; reflexivity|]);
          (split; [new_commands; split; [reflexivity|];
                   split; [repeat constructor | cbn; lia]
                  | repeat split]).
      * split; [eexists; reflexivity|].
        split; [new_commands; split; [reflexivity|];
                split; [repeat constructor | cbn; lia]
               | repeat split].
    + split; [eexists; reflexivity|].
      split; [new_commands; split; [reflexivity|];
              split; [repeat constructor | cbn; lia]
             | repeat split].
  - split; [eexists; reflexivity|].
    split; [new_commands; split; [reflexivity|];
            split; [repeat constructor | cbn; lia]
           | repeat split].
Qed.

(** [try_connect_to_existing_chrome] always answers and starts no browser;
    it leaves the globals alone; and when the browser it attached to does
    not answer the location read, it quits that handle and answers
    [None]. *)
Theorem attach_only_connects (s : St) :
  let r := try_connect_to_existing_chrome oracle (R:=unit) s in
  (exists result, fst r = Normal result) /\
  (exists l, trace (snd r) = (l ++ trace s)%list /\
             Forall (fun c => creates_endpoint c = false) l) /\
  same_engine s (snd r) /\
  (forall d e w1 w2 w3,
     oracle (SocketConnect CHROME_DEBUG_PORT) (world s) = (Ok 0%Z, w1) ->
     oracle (UcChrome (Attach "127.0.0.1:9222")) w1 = (Ok d, w2) ->
     oracle (Driver d CurrentUrl) w2 = (Err e, w3) ->
     fst r = Normal None /\
     trace (snd r)
     = Driver d Quit :: Driver d CurrentUrl
         :: UcChrome (Attach "127.0.0.1:9222")
         :: SocketConnect CHROME_DEBUG_PORT :: trace s).
Proof.
  intros r. subst r.
  unfold try_connect_to_existing_chrome, is_chrome_debugging_available,
    call, try_except, bind, on, perform, return_, pass, ret, raise,
    same_engine.
  answer_of (SocketConnect CHROME_DEBUG_PORT) (world s)
    as code e1 w1 H1; cbn.
  - destruct (Z.eqb code 0) eqn:Hzero; cbn.
    + answer_of (UcChrome (Attach "127.0.0.1:9222")) w1
        as driver e2 w2 H2; cbn.
      * answer_of (Driver driver CurrentUrl) w2 as url e3 w3 H3; cbn.
        -- split; [eexists; reflexivity|].
           split; [new_commands; split; [reflexivity | repeat constructor]|].
           split; [repeat split|].
           intros d e w1' w2' w3' G1 G2 G3. exfalso; agree; discriminate.
        -- answer_of (Driver driver Quit) w3 as quitted e4 w4 H4; cbn;
             (split; [eexists; reflexivity|]);
             (split; [new_commands; split;
                        [reflexivity | repeat constructor]|]);
             (split; [repeat split|]);
             intros d e w1' w2' w3' G1 G2 G3; agree;
             split; reflexivity.
      * split; [eexists; reflexivity|].
        split; [new_commands; split; [reflexivity | repeat constructor]|].
        split; [repeat split|].
        intros d e w1' w2' w3' G1 G2 G3. exfalso; agree; discriminate.
    + split; [eexists; reflexivity|].
      split; [new_commands; split; [reflexivity | repeat constructor]|].
      split; [repeat split|].
      intros d e w1' w2' w3' G1 G2 G3. exfalso; agree; discriminate.
  - split; [eexists; reflexivity|].
    split; [new_commands; split; [reflexivity | repeat constructor]|].
    split; [repeat split|].
    intros d e w1' w2' w3' G1 G2 G3. exfalso; agree; discriminate.
Qed.

(** Run a block command by command, by the answers of the outside
    world. *)
Ltac run_strategies :=
  repeat (cbn;
          match goal with
          | |- context [oracle ?c ?w] =>
              destruct (oracle c w) as [[?|?] ?] eqn:?
          | |- context [Z.eqb ?code 0] => destruct (Z.eqb code 0) eqn:?
          end);
  cbn.

(** What happened on a path that has been run command by command. *)
Ltac history :=
  repeat (eapply happened_step; [|eassumption]); apply happened_nothing.

(** [create_vahan_driver] takes the first browser it gets and starts no
    other.  When it returns a browser, either that browser was taken
    over (the attach gave it, it answered, and nothing was launched or
    downloaded), or it was started by the launch that is the last thing
    [create_vahan_driver] did, and no launch before that one had given a
    browser.  When it raises, no launch gave a browser, and the exception
    is its own initialisation failure. *)
Theorem driver_creation_order (s : St) :
  let r := create_vahan_driver oracle (R:=unit) s in
  exists h,
    happened oracle s (snd r) h /\
    match fst r with
    | Normal d => taken_over d h \/ started d h
    | Raise e =>
        e = PyException creation_error_msg /\
        filter browser_started h = []
    | _ => False
    end.
Proof.
  destruct s as [w0 d0 b0 f0 cx0 t0]. cbv zeta.
  unfold create_vahan_driver, try_connect_to_existing_chrome,
    is_chrome_debugging_available.
  cbn [for_each].
  unfold call, try_except, bind, perform, return_, pass, ret, raise.
  run_strategies;
    (eexists; split; [history|]);
    first [ left; split; [eexists _, _; reflexivity | repeat constructor]
          | right; eexists _, _, _; split; reflexivity
          | split; reflexivity ].
Qed.

End Recovery.

Section CountRules.

Context {World : Type}.
Variable oracle : oracle_type World.
Local Abbreviation St := (state World).

Lemma same_engine_step (s0 s : St) (w : World) c :
  same_engine s0 s ->
  same_engine s0 (mkState w (driver_instance s) (is_logged_in s)
                          (session_file s) (context s) (c :: trace s)).
Proof. intros H. exact H. Qed.

Lemma same_engine_refl (s : St) : same_engine s s.
Proof. repeat split. Qed.

Lemma count_added_other p k t0 (s : St) (w : World) c :
  p c = false -> count_added p k t0 s ->
  count_added p k t0 (mkState w (driver_instance s) (is_logged_in s)
                              (session_file s) (context s) (c :: trace s)).
Proof.
  intros Hc (l & Hl & Hk). exists (c :: l). cbn. rewrite Hl. split; auto.
  rewrite Hc. exact Hk.
Qed.

Lemma count_added_one p k t0 (s : St) (w : World) c :
  count_added p k t0 s ->
  count_added p (S k) t0 (mkState w (driver_instance s) (is_logged_in s)
                                  (session_file s) (context s) (c :: trace s)).
Proof.
  intros (l & Hl & Hk). exists (c :: l). cbn. rewrite Hl. split; auto.
  destruct (p c); cbn; lia.
Qed.

Lemma count_added_more p k k' t0 (s : St) :
  k <= k' -> count_added p k t0 s -> count_added p k' t0 s.
Proof. intros Hk (l & Hl & H). exists l. split; [exact Hl | lia]. Qed.

Lemma block_silent {R A} (m : M St R A) :
  never_raises m -> finishes m -> yields (fun _ => True) (fun _ => False) m ->
  silent m.
Proof.
  intros Hr Hf Hy s. specialize (Hr s). specialize (Hf s). specialize (Hy s).
  destruct (fst (m s)) as [a|r|e|].
  - eexists; reflexivity.
  - contradiction.
  - exfalso. exact (Hr e eq_refl).
  - exfalso. exact (Hf eq_refl).
Qed.

Lemma hoare_assume {R A} (Q : Prop) (P : St -> Prop) (m : M St R A) N
    (XR : R -> St -> Prop) XE XD :
  (forall s, P s -> Q) -> (Q -> hoare P m N XR XE XD) ->
  hoare P m N XR XE XD.
Proof. intros HQ Hm s Hs. exact (Hm (HQ s Hs) s Hs). Qed.

Lemma hoare_perform {R} (c : cmd) (P : St -> Prop) (N : answer c -> St -> Prop)
    (XR : R -> St -> Prop) XE XD :
  (forall s w a, P s ->
     N a (mkState w (driver_instance s) (is_logged_in s) (session_file s)
                  (context s) (c :: trace s))) ->
  (forall s w, P s ->
     XE (mkState w (driver_instance s) (is_logged_in s) (session_file s)
                 (context s) (c :: trace s))) ->
  hoare P (perform oracle c) N XR XE XD.
Proof.
  intros HN HE s Hs. unfold perform.
  destruct (oracle c (world s)) as [[a|e] w]; cbn; auto.
Qed.

End CountRules.

Ltac not_counted :=
  first [ assumption
        | apply count_added_other; [reflexivity | assumption] ].

Ltac watched :=
  cbn; first [ assumption
             | apply issued_since_step; [reflexivity | assumption] ].

Ltac session_kept := first [assumption | cbn; assumption].

Ltac engine_kept :=
  first [ assumption | apply same_engine_step; assumption ].

Ltac unfold_session :=
  unfold check_browser_status, create_vahan_driver,
    try_connect_to_existing_chrome, is_chrome_debugging_available,
    save_session_info, load_session_info, clear_session_info.

Section Store.

Context {World : Type}.
Variable oracle : oracle_type World.
Local Abbreviation St := (state World).

(* ------------------------------------------------------------------ *)
(** *** Session store *)

(** The three helpers of the session store always end normally, whatever
    the clock and the file system do, and none of them changes a global
    or the browsing context; and without a session file
    [load_session_info] answers [None] and does nothing. *)
Theorem session_store_never_fails (s : St) :
  (fst (save_session_info oracle (R:=unit) s) = Normal tt /\
   globals (driver_instance s) (is_logged_in s)
           (snd (save_session_info oracle (R:=unit) s))) /\
  (fst (clear_session_info oracle (R:=unit) s) = Normal tt /\
   globals (driver_instance s) (is_logged_in s)
           (snd (clear_session_info oracle (R:=unit) s))) /\
  ((exists record, fst (load_session_info oracle (R:=unit) s) = Normal record) /\
   same_engine s (snd (load_session_info oracle (R:=unit) s))) /\
  (session_file s = None ->
   load_session_info oracle (R:=unit) s = (Normal None, s)).
Proof.
  split; [|split; [|split]].
  - split.
    + destruct (save_session_info_silent oracle unit s) as [[] H]. exact H.
    + apply (save_session_info_keeps oracle unit). split; reflexivity.
  - split.
    + destruct (clear_session_info_silent oracle unit s) as [[] H]. exact H.
    + apply (clear_session_info_keeps oracle unit). split; reflexivity.
  - split.
    + apply load_session_info_silent.
    + assert (H : preserves (same_engine s) (load_session_info oracle (R:=unit))).
      { unfold load_session_info. keeping engine_kept. }
      apply H. apply same_engine_refl.
  - intros Hnone. unfold load_session_info, call, try_except, bind, path_exists,
      read, return_, pass, ret. rewrite Hnone. reflexivity.
Qed.

(** A record without a timestamp counts as written at time 0, and one
    whose timestamp is no number is not loaded: with the file read and the
    clock at [now], [load_session_info] answers the record when the
    [timestamp] key is missing and [now < 3600], and [None] when the
    timestamp is a string or null. *)
Theorem load_session_info_odd_timestamps
    (s : St) (record : dict) (now : spec_float) (w1 w2 : World) :
  session_file s = Some record ->
  oracle FileRead (world s) = (Ok tt, w1) ->
  oracle TimeTime w1 = (Ok now, w2) ->
  match dict_lookup "timestamp" record with
  | None =>
      fst (load_session_info oracle (R:=unit) s)
      = Normal (if float_lt_int (float_sub now (float_of_int 0)) 3600
                then Some record else None)
  | Some (VStr _) | Some VNone =>
      fst (load_session_info oracle (R:=unit) s) = Normal None
  | Some _ => True
  end.
Proof.
  intros Hfile Hread Hnow.
  unfold load_session_info, path_exists, read_file, dict_get_default.
  unfold call, try_except, bind, read, perform, return_, pass, ret, raise.
  rewrite Hfile. cbn. rewrite Hread. cbn. rewrite Hfile. cbn.
  rewrite Hnow. cbn.
  destruct (dict_lookup "timestamp" record) as [[| | | |]|]; cbn; auto.
  change (float_of_int 0) with (S754_zero false).
  destruct (float_lt_int (float_sub now (S754_zero false)) 3600); reflexivity.
Qed.

(* ------------------------------------------------------------------ *)
(** *** Login gate *)

Lemma wait_for_login_loop_watches fuel driver timeout start_time login_url t0 :
  preserves (issued_since (fun c => watching_cmd c = true) t0)
    (wait_for_login_loop oracle fuel driver timeout start_time login_url).
Proof.
  induction fuel as [|fuel IH]; cbn [wait_for_login_loop].
  - apply preserves_diverge.
  - unfold wait_for_login_poll. keeping watched.
Qed.

Lemma wait_for_login_loop_same fuel driver timeout start_time login_url s0 :
  preserves (same_engine s0)
    (wait_for_login_loop oracle fuel driver timeout start_time login_url).
Proof.
  induction fuel as [|fuel IH]; cbn [wait_for_login_loop].
  - apply preserves_diverge.
  - unfold wait_for_login_poll. keeping engine_kept.
Qed.

(** The login gate only watches: whatever the browser does and however
    long it waits, it reads the clock and the location, looks for
    elements and sleeps, and issues no other command; it leaves the
    globals, the session file and the browsing context as they were. *)
Theorem login_gate_only_watches
    (fuel : nat) (driver : option WebDriver) (timeout : Z) (s : St) :
  let r := wait_for_login oracle (R:=unit) fuel driver timeout s in
  (exists l, trace (snd r) = (l ++ trace s)%list /\
             Forall (fun c => watching_cmd c = true) l) /\
  same_engine s (snd r).
Proof.
  intros r. subst r. split.
  - assert (H : preserves (issued_since (fun c => watching_cmd c = true)
                                        (trace s))
                  (wait_for_login oracle (R:=unit) fuel driver timeout)).
    { pose proof (fun start_time login_url =>
                    @wait_for_login_loop_watches fuel driver timeout
                      start_time login_url (trace s)) as Hloop.
      unfold wait_for_login. keeping watched. }
    apply H. exists []. split; [reflexivity | constructor].
  - assert (H : preserves (same_engine s)
                  (wait_for_login oracle (R:=unit) fuel driver timeout)).
    { pose proof (fun start_time login_url =>
                    @wait_for_login_loop_same fuel driver timeout
                      start_time login_url s) as Hloop.
      unfold wait_for_login. keeping engine_kept. }
    apply H. apply same_engine_refl.
Qed.

(* ------------------------------------------------------------------ *)
(** *** Closing twice *)

Lemma close_vahan_browser_clears_handle R (s : St) :
  (exists closed, fst (close_vahan_browser oracle (R:=R) s) = Normal closed) /\
  driver_instance (snd (close_vahan_browser oracle (R:=R) s)) = None.
Proof.
  assert (Hclear : forall s0 : St,
            exists s1, clear_session_info oracle (R:=bool) s0 = (Normal tt, s1)
                       /\ driver_instance s1 = driver_instance s0).
  { intros s0.
    destruct (clear_session_info_silent oracle bool s0) as [[] H].
    pose proof (clear_session_info_keeps oracle bool (s:=s0)
                  (conj eq_refl eq_refl)) as [Hd _].
    destruct (clear_session_info oracle s0) as [o s1]. cbn in *. subst o.
    exists s1. split; [reflexivity | exact Hd]. }
  destruct (close_vahan_browser oracle (R:=R) s) as [o s'] eqn:E.
  cbn [fst snd]. revert E.
  unfold close_vahan_browser, call, bind, read, try_except, perform,
    set_driver_instance, set_is_logged_in, modify, return_.
  destruct (driver_instance s) as [d|] eqn:Hd.
  - destruct (oracle (Driver d Quit) (world s)) as [[[]|e] w];
      match goal with
      | |- context [clear_session_info oracle ?s0] =>
          destruct (Hclear s0) as (s1 & -> & H1)
      end; cbn; intros [= <- <-]; cbn in *;
      (split; [eexists; reflexivity | exact H1]).
  - destruct (Hclear s) as (s1 & -> & H1). cbn. intros [= <- <-].
    split; [eexists; reflexivity | congruence].
Qed.

(** [close_vahan_browser] always answers and always leaves the handle
    cleared, also when quitting the browser or removing the session file
    fails; and closing again answers true. *)
Theorem close_always_answers (s : St) :
  let r := close_vahan_browser oracle (R:=unit) s in
  (exists closed, fst r = Normal closed) /\
  driver_instance (snd r) = None /\
  fst (close_vahan_browser oracle (R:=unit) (snd r)) = Normal true.
Proof.
  intros r. subst r.
  destruct (close_vahan_browser_clears_handle unit s) as [Hanswer Hcleared].
  split; [exact Hanswer|]. split; [exact Hcleared|].
  unfold close_vahan_browser at 1. unfold call, bind at 1, read at 1.
  rewrite Hcleared. unfold bind.
  destruct (clear_session_info_silent oracle bool
              (snd (close_vahan_browser oracle (R:=unit) s))) as [[] H].
  destruct (clear_session_info oracle _) as [o s1]. cbn in H. subst o.
  reflexivity.
Qed.

(* ------------------------------------------------------------------ *)
(** *** Checkbox sweep *)

(** The sweep goes on past every checkbox, and it never touches one that
    is disabled or ticked: when the four reads of the checkbox succeed
    and it is disabled, selected or carries the attribute [checked],
    nothing more is done with it. *)
Theorem sweep_skips_disabled_and_ticked
    (driver : option WebDriver) (checkbox : WebElement) (s : St) :
  (exists s', sweep_checkbox oracle driver checkbox s = (Normal tt, s')) /\
  (forall name disabled selected checked s1 s2 s3 s4,
     on oracle (R:=dict) driver (GetAttribute checkbox "name") s
     = (Normal name, s1) ->
     on oracle (R:=dict) driver (GetAttribute checkbox "disabled") s1
     = (Normal disabled, s2) ->
     on oracle (R:=dict) driver (IsSelected checkbox) s2
     = (Normal selected, s3) ->
     on oracle (R:=dict) driver (GetAttribute checkbox "checked") s3
     = (Normal checked, s4) ->
     orb (attribute_set disabled) (orb selected (attribute_set checked))
     = true ->
     sweep_checkbox oracle driver checkbox s = (Normal tt, s4)).
Proof.
  split.
  - assert (Hs : silent (sweep_checkbox oracle driver checkbox)).
    { unfold sweep_checkbox. apply block_silent; [no_escape | no_fuel | values]. }
    destruct (Hs s) as [[] H].
    destruct (sweep_checkbox oracle driver checkbox s) as [o s'].
    cbn in H. subst o. exists s'. reflexivity.
  - intros name disabled selected checked s1 s2 s3 s4 H1 H2 H3 H4 Hskip.
    unfold sweep_checkbox, try_except, bind.
    rewrite H1, H2, H3, H4.
    destruct (attribute_set disabled); [reflexivity|].
    cbn in Hskip. rewrite Hskip. reflexivity.
Qed.

(* ------------------------------------------------------------------ *)
(** *** Navigation *)

Lemma navigation_loop_counts R (fuel : nat) (driver : WebDriver)
    (max_retries : nat) :
  forall retry_count k t0,
    hoare (count_added is_navigation k t0)
      (navigation_loop oracle (R:=R) fuel driver max_retries retry_count)
      (fun _ => count_added is_navigation (k + (max_retries - retry_count)) t0)
      (fun _ => count_added is_navigation (k + (max_retries - retry_count)) t0)
      (count_added is_navigation (k + (max_retries - retry_count)) t0)
      (count_added is_navigation (k + (max_retries - retry_count)) t0).
Proof.
  induction fuel as [|fuel IH]; intros retry_count k t0;
    cbn [navigation_loop].
  - apply hoare_diverge. intros s. apply count_added_more. lia.
  - destruct (Nat.ltb retry_count max_retries) eqn:Hlt;
      [|apply hoare_ret; intros s; apply count_added_more; lia].
    apply Nat.ltb_lt in Hlt.
    set (J := count_added is_navigation (k + (max_retries - retry_count)) t0).
    assert (Hmore : forall s, count_added is_navigation (S k) t0 s -> J s).
    { intros s. apply count_added_more. lia. }
    eapply hoare_bind
      with (N1 := fun step s =>
                    count_added is_navigation (S k) t0 s /\
                    (fst step = false -> snd step = S retry_count)).
    + eapply hoare_try_except
        with (E1 := count_added is_navigation (S k) t0).
      * eapply hoare_bind
          with (N1 := fun _ => count_added is_navigation k t0).
        { apply hoare_perform; intros;
            first [ apply count_added_other; [reflexivity | assumption]
                  | apply count_added_one; assumption ]. }
        intros _.
        eapply hoare_bind
          with (N1 := fun _ => count_added is_navigation (S k) t0).
        { apply hoare_perform; intros; apply count_added_one; assumption. }
        intros _.
        eapply hoare_bind
          with (N1 := fun _ => count_added is_navigation (S k) t0).
        { apply hoare_perform; intros;
            (apply count_added_other; [reflexivity | assumption]). }
        intros _.
        eapply hoare_bind
          with (N1 := fun _ => count_added is_navigation (S k) t0).
        { apply hoare_perform; intros;
            (apply count_added_other; [reflexivity | assumption]). }
        intros current_url.
        destruct (orb _ _); apply hoare_ret; intros s Hs; split; auto;
          cbn; discriminate.
      * intros e.
        destruct (is_TimeoutException e);
          [apply hoare_ret; intros s Hs; split; auto|].
        destruct (is_WebDriverException e); [|apply hoare_raise; auto].
        destruct (orb _ _);
          [apply hoare_ret; intros s Hs; split; auto | apply hoare_raise; auto].
    + intros step. destruct (fst step) eqn:Hstep.
      * apply hoare_ret. intros s [Hs _]. auto.
      * apply hoare_assume with (Q := snd step = S retry_count);
          [intros s [_ H]; apply H; reflexivity|].
        intros ->.
        apply hoare_weaken with (P' := count_added is_navigation (S k) t0);
          [intros s [Hs _]; exact Hs|].
        eapply hoare_consequence; [apply IH | ..]; intros; subst J;
          cbn beta in *; (eapply count_added_more; [|eassumption]); lia.
Qed.

Lemma wait_for_login_counts R fuel driver timeout k t0 :
  preserves (count_added is_navigation k t0)
    (wait_for_login oracle (R:=R) fuel driver timeout).
Proof.
  assert (Hloop : forall start_time login_url,
            preserves (count_added is_navigation k t0)
              (wait_for_login_loop oracle fuel driver timeout start_time
                 login_url)).
  { induction fuel as [|fuel IH]; intros start_time login_url;
      cbn [wait_for_login_loop].
    - apply preserves_diverge.
    - unfold wait_for_login_poll. keeping not_counted. }
  unfold wait_for_login. keeping not_counted.
Qed.

Lemma start_vahan_browser_navigates R (fuel : nat) (t0 : list cmd) :
  hoare (count_added is_navigation 0 t0)
    (start_vahan_browser oracle (R:=R) fuel)
    (fun _ => count_added is_navigation 3 t0)
    (fun _ => count_added is_navigation 3 t0)
    (count_added is_navigation 3 t0)
    (count_added is_navigation 3 t0).
Proof.
  set (I0 := count_added is_navigation 0 t0).
  set (I3 := count_added is_navigation 3 t0).
  assert (Hmore : forall s, I0 s -> I3 s).
  { intros s. apply count_added_more. lia. }
  pose proof (fun R fuel driver timeout =>
                @wait_for_login_counts R fuel driver timeout 0 t0) as Hwait0.
  pose proof (fun R fuel driver timeout =>
                @wait_for_login_counts R fuel driver timeout 3 t0) as Hwait3.
  unfold start_vahan_browser. apply hoare_call.
  eapply hoare_bind with (N1 := fun _ => I0).
  { eapply hoare_consequence;
      [apply hoare_preserves with (J := I3);
         [unfold_session; keeping not_counted | exact Hmore]
      | auto ..]. }
  intros status.
  eapply hoare_bind with (N1 := fun _ => I0).
  { eapply hoare_consequence;
      [apply hoare_preserves with (J := I3);
         [keeping not_counted | exact Hmore]
      | auto ..]. }
  intros browser_open.
  eapply hoare_bind with (N1 := fun _ => I0).
  { eapply hoare_consequence;
      [apply hoare_preserves with (J := I3);
         [keeping not_counted | exact Hmore]
      | auto ..]. }
  intros logged_in.
  eapply hoare_bind with (N1 := fun _ => I0).
  { eapply hoare_consequence;
      [apply hoare_preserves with (J := I3);
         [keeping not_counted | exact Hmore]
      | auto ..]. }
  intros _.
  eapply hoare_bind with (N1 := fun _ => I0).
  { eapply hoare_consequence;
      [apply hoare_preserves with (J := I3);
         [keeping not_counted | exact Hmore]
      | auto ..]. }
  intros _.
  eapply hoare_try_except with (E1 := I3).
  - eapply hoare_bind with (N1 := fun _ => I0).
    { eapply hoare_consequence;
        [apply hoare_preserves with (J := I3);
           [unfold_session; keeping not_counted | exact Hmore]
        | auto ..]. }
    intros driver.
    eapply hoare_bind with (N1 := fun _ => I0).
    { apply hoare_modify. auto. }
    intros _.
    eapply hoare_bind with (N1 := fun _ => I3).
    { exact (@navigation_loop_counts dict 4 driver 3 0 0 t0). }
    intros page_loaded.
    eapply hoare_consequence;
      [apply hoare_preserves with (J := I3);
         [unfold_session; keeping not_counted | auto]
      | auto ..].
  - intros e.
    eapply hoare_consequence;
      [apply hoare_preserves with (J := I3);
         [unfold_session; keeping not_counted | auto]
      | auto ..].
Qed.

(** Whatever the browser does, [start_vahan_browser] loads the site at
    most three times. *)
Theorem start_navigates_at_most_thrice (fuel : nat) (s : St) :
  exists l,
    trace (snd (start_vahan_browser oracle (R:=unit) fuel s))
    = (l ++ trace s)%list /\
    length (filter is_navigation l) <= 3.
Proof.
  pose proof (@start_vahan_browser_navigates unit fuel (trace s) s) as H.
  destruct (start_vahan_browser oracle fuel s) as [[a|a|e|] s'];
    cbn in *; apply H; exists []; split; auto.
Qed.

(* ------------------------------------------------------------------ *)
(** *** What the step sequencer leaves alone *)

Lemma run_automation_internal_fuel_session (fuel : nat) (s0 : St) :
  forall retry_count max_retries,
    preserves (same_session s0)
      (run_automation_internal_fuel oracle fuel retry_count max_retries).
Proof.
  induction fuel as [|fuel IH]; intros retry_count max_retries;
    cbn [run_automation_internal_fuel].
  - apply preserves_diverge.
  - unfold_steps. unfold check_for_back_to_home_page.
    keeping session_kept.
Qed.

Lemma run_automation_loop_session (fuel : nat) (s0 : St) :
  forall processed_count error_count,
    preserves (same_session s0)
      (run_automation_loop oracle fuel processed_count error_count).
Proof.
  induction fuel as [|fuel IH]; intros processed_count error_count;
    cbn [run_automation_loop].
  - apply preserves_diverge.
  - apply preserves_bind;
      [apply (@run_automation_internal_fuel_session 3 s0 0 2)|].
    intros result. keeping session_kept.
Qed.

(** The step sequencer and the loop over it leave the session alone:
    whatever the browser does and however they end, [driver_instance],
    [is_logged_in] and the session file are as they were. *)
Theorem sequencer_leaves_session_alone
    (fuel retry_count max_retries processed_count error_count : nat) (s : St) :
  same_session s
    (snd (run_automation_internal oracle retry_count max_retries s)) /\
  same_session s
    (snd (run_automation_loop oracle fuel processed_count error_count s)).
Proof.
  split.
  - apply (@run_automation_internal_fuel_session
             (S (max_retries - retry_count)) s retry_count max_retries).
    repeat split.
  - apply (@run_automation_loop_session fuel s processed_count error_count).
    repeat split.
Qed.

(* ------------------------------------------------------------------ *)
(** *** The record after a status check *)

#[local] Hint Resolve is_chrome_debugging_available_silent
  try_connect_to_existing_chrome_silent save_session_info_silent
  clear_session_info_silent : silence.

#[local] Hint Resolve is_chrome_debugging_available_keeps
  try_connect_to_existing_chrome_keeps save_session_info_keeps
  clear_session_info_keeps on_keeps on_plain : frame.

Section Saving.

(** The clock can be read and the session file can be written. *)
Hypothesis clock_works :
  forall w, exists t w', oracle TimeTime w = (Ok t, w').
Hypothesis write_works :
  forall d w, exists w', oracle (FileWrite d) w = (Ok tt, w').

Lemma save_session_info_saves R (XR : R -> St -> Prop)
    (d : option WebDriver) (b : bool) :
  hoare (globals d b) (save_session_info oracle (R:=R))
        (fun _ s => globals d b s /\ record_saved s)
        XR (fun _ => True) (fun _ => True).
Proof.
  intros s [Hd Hb].
  destruct (clock_works (world s)) as (t & w1 & Hclock).
  destruct (write_works (session_data (is_not_None (driver_instance s))
                                      (is_logged_in s) t) w1)
    as (w2 & Hwrite).
  unfold save_session_info, write_file, set_session_file.
  unfold call, try_except, bind, read, perform, modify.
  rewrite Hclock. cbn. rewrite Hwrite. cbn.
  split; [split; assumption|]. exists t. reflexivity.
Qed.

Lemma check_browser_status_saves R' (XR : R' -> St -> Prop) :
  hoare (fun _ => True) (check_browser_status oracle (R:=R'))
        (fun _ s => driver_instance s <> None -> record_saved s)
        XR (fun _ => True) (fun _ => True).
Proof.
  unfold check_browser_status. apply hoare_call.
  eapply hoare_bind with (N1 := fun handle s => driver_instance s = handle);
    [apply hoare_read; auto|].
  intros handle.
  step (fun _ : St => True).
  - destruct handle as [d|]; cbn [is_not_None negb].
    + apply hoare_ret. auto.
    + step (fun s : St => driver_instance s = None) as available; [frame|].
      step (fun s : St => driver_instance s = None).
      { destruct (negb available);
          [apply hoare_return | apply hoare_ret]; intros s H; auto;
          intros Hn; contradiction. }
      eapply hoare_try_except
        with (E1 := fun s : St => driver_instance s = None).
      * step (fun s : St => driver_instance s = None) as existing_driver;
          [frame|].
        destruct existing_driver as [d|];
          [apply hoare_modify; auto
          | apply hoare_return; intros s H Hn; contradiction].
      * intros e. apply hoare_return. intros s H Hn. contradiction.
  - eapply hoare_try_except with (E1 := fun _ => True).
    + eapply hoare_bind
        with (N1 := fun handle s => driver_instance s = handle);
        [apply hoare_read; auto|].
      intros [d|].
      * step (fun s : St => driver_instance s = Some d) as current_url;
          [frame|].
        branch.
        -- step (globals (Some d) true); [assign|].
           eapply hoare_bind; [apply save_session_info_saves|].
           intros ?. apply hoare_return. intros s [_ H] _. exact H.
        -- step (globals (Some d) false); [assign|].
           eapply hoare_bind; [apply save_session_info_saves|].
           intros ?. apply hoare_return. intros s [_ H] _. exact H.
      * eapply hoare_bind with (N1 := fun _ _ => False);
          [apply hoare_raise; auto | intros; apply hoare_false].
    + intros e.
      step (fun s : St => driver_instance s = None); [assign|].
      step (globals None false); [assign|].
      step (globals None false); [frame|].
      apply hoare_return. intros s [H _] Hn. contradiction.
Qed.

End Saving.

(** Provided the clock can be read and the session file written: after
    every status check that leaves the engine with a handle, the session
    file holds the record of the globals as they are then, the login flag
    that the check has just set included. *)
Theorem status_check_saves_record (s : St) :
  (forall w, exists t w', oracle TimeTime w = (Ok t, w')) ->
  (forall d w, exists w', oracle (FileWrite d) w = (Ok tt, w')) ->
  let r := check_browser_status oracle (R:=unit) s in
  driver_instance (snd r) <> None -> record_saved (snd r).
Proof.
  intros Hclock Hwrite r. subst r.
  pose proof (@check_browser_status_saves Hclock Hwrite unit
                (fun _ _ => True) s Logic.I) as H.
  destruct (check_browser_status_result oracle unit s) as (status & Hst & _).
  destruct (check_browser_status oracle s) as [o s']. cbn in *. subst o.
  exact H.
Qed.

End Store.

Section ResponseRules.

Context {World : Type}.
Local Abbreviation St := (state World).

Lemma block_responds {R A} (Q : A -> Prop) (m : M St R A) (s : St) :
  never_raises m -> yields Q (fun _ => False) m ->
  match fst (m s) with
  | Normal a => Q a
  | Diverged => True
  | _ => False
  end.
Proof.
  intros Hr Hy. specialize (Hr s). specialize (Hy s).
  destruct (fst (m s)) as [a|r|e|]; auto. exact (Hr e eq_refl).
Qed.

End ResponseRules.

Section Http.

Context {World : Type}.
Variable oracle : oracle_type World.
Local Abbreviation St := (state World).

Ltac response_leaf :=
  unfold response_ok, dict_get_default;
  repeat match goal with
         | H : dict_lookup _ _ = Some _ |- _ => rewrite H
         end;
  eexists _, _; cbn; split; reflexivity.

Lemma check_browser_status_yields R (QR : R -> Prop) :
  yields (fun status => exists message,
            dict_lookup "message" status = Some (VStr message))
         QR (check_browser_status oracle).
Proof.
  intros s. destruct (check_browser_status_result oracle R s)
    as (status & Hstatus & _ & _ & Hmessage).
  rewrite Hstatus. exact Hmessage.
Qed.

Lemma start_vahan_browser_yields R (QR : R -> Prop) (fuel : nat) :
  yields (fun result => exists message,
            dict_lookup "message" result = Some (VStr message))
         QR (start_vahan_browser oracle fuel).
Proof.
  intros s.
  pose proof (@start_vahan_browser_results _ oracle R (fun _ _ => False) fuel s
                Logic.I) as H.
  destruct (start_vahan_browser oracle fuel s) as [[result|r|e|] s'];
    cbn in *; auto; try contradiction.
  destruct H as (message & status & Hmessage & _). eauto.
Qed.

(** The HTTP layer always responds: no exception of the engine gets
    through a route, every response carries a boolean [success] and a
    string [message], and an exception that [run_automation] lets out
    becomes the response with [success] false, status [error], the text
    of the exception and [processed_count] 0. *)
Theorem http_layer_always_responds (fuel : nat) (s : St) :
  match fst (start_browser_endpoint oracle (R:=unit) fuel s) with
  | Normal response => response_ok response
  | Diverged => True
  | _ => False
  end /\
  match fst (check_browser_status_endpoint oracle (R:=unit) s) with
  | Normal response => response_ok response
  | _ => False
  end /\
  match fst (close_browser_endpoint oracle (R:=unit) s) with
  | Normal response => response_ok response
  | _ => False
  end /\
  match fst (run_automation_endpoint oracle (R:=unit) fuel s) with
  | Normal response => response_ok response
  | Diverged => True
  | _ => False
  end /\
  (forall e s',
     run_automation oracle (R:=dict) fuel s = (Raise e, s') ->
     run_automation_endpoint oracle (R:=unit) fuel s
     = (Normal [("success", VBool false);
                ("message", VStr ("Error running automation: " ++ str e));
                ("status", VStr "error");
                ("processed_count", VInt 0);
                ("error", VStr (str e))], s')).
Proof.
  split; [|split; [|split; [|split]]].
  - apply block_responds.
    + unfold start_browser_endpoint. no_escape.
    + unfold start_browser_endpoint. apply yields_call.
      apply yields_try_except; [| intros e; apply yields_return; response_leaf].
      eapply yields_bind; [apply start_vahan_browser_yields|].
      intros result [message Hmessage].
      destruct (truthy _); apply yields_return; response_leaf.
  - assert (H : silent (check_browser_status_endpoint oracle (R:=unit))).
    { unfold check_browser_status_endpoint. apply call_silent.
      - no_escape.
      - apply finishes_try_except; [| intros; apply finishes_return].
        apply finishes_bind; [| intros; apply finishes_return].
        apply silent_finishes. intros s0.
        destruct (check_browser_status_result oracle dict s0) as (st & H & _).
        eauto. }
    destruct (H s) as [response Hresponse]. rewrite Hresponse.
    assert (Hy : yields response_ok (fun _ : unit => False)
                   (check_browser_status_endpoint oracle)).
    { unfold check_browser_status_endpoint. apply yields_call.
      apply yields_try_except; [| intros e; apply yields_return; response_leaf].
      eapply yields_bind; [apply check_browser_status_yields|].
      intros result [message Hmessage]. apply yields_return. response_leaf. }
    specialize (Hy s). rewrite Hresponse in Hy. exact Hy.
  - assert (H : silent (close_browser_endpoint oracle (R:=unit))).
    { unfold close_browser_endpoint. apply call_silent.
      - no_escape.
      - apply finishes_try_except; [| intros; apply finishes_return].
        apply finishes_bind;
          [| intros [|]; apply finishes_return].
        apply silent_finishes. intros s0.
        exact (proj1 (close_vahan_browser_clears_handle oracle dict s0)). }
    destruct (H s) as [response Hresponse]. rewrite Hresponse.
    assert (Hy : yields response_ok (fun _ : unit => False)
                   (close_browser_endpoint oracle)).
    { unfold close_browser_endpoint. apply yields_call.
      apply yields_try_except; [| intros e; apply yields_return; response_leaf].
      eapply yields_bind with (QN1 := fun _ => True);
        [apply yields_call_any|].
      intros [|] _; apply yields_return; response_leaf. }
    specialize (Hy s). rewrite Hresponse in Hy. exact Hy.
  - apply block_responds.
    + unfold run_automation_endpoint. no_escape.
    + unfold run_automation_endpoint. apply yields_call.
      apply yields_try_except; [| intros e; apply yields_return; response_leaf].
      eapply yields_bind; [apply run_automation_yields|].
      intros result (success & message & status & Hs & Hm & Hst & _).
      destruct (truthy _); apply yields_return; response_leaf.
  - intros e s' H.
    unfold run_automation_endpoint, call, try_except, bind.
    unfold dict in H. rewrite H.
    reflexivity.
Qed.

End Http.

Section IdRules.

Lemma upper_ascii_idempotent (c : ascii) :
  upper_ascii (upper_ascii c) = upper_ascii c.
Proof.
  destruct c as [[] [] [] [] [] [] [] []]; reflexivity.
Qed.

Lemma upper_ascii_base36 (c : ascii) :
  is_base36 c = true -> upper_ascii c = c.
Proof.
  destruct c as [[] [] [] [] [] [] [] []]; vm_compute;
    intros H; first [reflexivity | discriminate H].
Qed.

Lemma upper_idempotent (s : string) : upper (upper s) = upper s.
Proof.
  induction s as [|c s IH]; cbn [upper]; [reflexivity|].
  now rewrite upper_ascii_idempotent, IH.
Qed.

Lemma upper_app (s t : string) : upper (s ++ t) = upper s ++ upper t.
Proof.
  induction s as [|c s IH]; cbn [upper append]; [reflexivity|].
  now rewrite IH.
Qed.

Lemma upper_base36 (s : string) :
  forallb is_base36 (list_ascii_of_string s) = true -> upper s = s.
Proof.
  induction s as [|c s IH]; cbn [upper list_ascii_of_string forallb];
    [reflexivity|].
  intros H. apply andb_true_iff in H. destruct H as [Hc Hs].
  now rewrite (upper_ascii_base36 _ Hc), (IH Hs).
Qed.

Lemma char_at_base36 (remainder : N) :
  (remainder < 36)%N ->
  exists digit, char_at base36_chars remainder = Some digit
                /\ is_base36 digit = true.
Proof.
  intros H. unfold char_at.
  assert (Hn : N.to_nat remainder < 36) by lia.
  remember (N.to_nat remainder) as n eqn:E. clear E H.
  do 36 (destruct n as [|n]; [eexists; split; reflexivity|]).
  lia.
Qed.

Lemma base36_loop_ends (fuel : nat) :
  forall (big_int_value : N) (base36_result : string),
    (big_int_value < 2 ^ N.of_nat fuel)%N ->
    forallb is_base36 (list_ascii_of_string base36_result) = true ->
    exists r, base36_loop (S fuel) big_int_value base36_result = Some r
              /\ forallb is_base36 (list_ascii_of_string r) = true.
Proof.
  induction fuel as [|fuel IH]; intros n acc Hn Hacc.
  - cbn [base36_loop]. change (2 ^ N.of_nat 0)%N with 1%N in Hn.
    replace n with 0%N by lia. cbn. eauto.
  - cbn [base36_loop]. fold (base36_loop (S fuel)).
    destruct (0 <? n)%N eqn:Hpos; [|eauto].
    apply N.ltb_lt in Hpos.
    pose proof (N.div_eucl_spec n 36) as Hspec.
    pose proof (N.mod_lt n 36 ltac:(lia)) as Hmod.
    unfold N.modulo in Hmod.
    destruct (N.div_eucl n 36) as [q r]. cbn [snd] in Hmod.
    destruct (char_at_base36 Hmod) as (digit & Hdigit & Hok).
    rewrite Hdigit. apply IH.
    + replace (N.of_nat (S fuel)) with (N.succ (N.of_nat fuel)) in Hn by lia.
      rewrite N.pow_succ_r' in Hn. lia.
    + cbn [list_ascii_of_string forallb]. now rewrite Hok, Hacc.
Qed.

Lemma length_zeros (n : nat) :
  String.length (String.concat "" (repeat "0" n)) = n.
Proof.
  induction n as [|n IH]; [reflexivity|].
  cbn [repeat]. destruct n as [|n]; [reflexivity|].
  cbn [repeat String.concat] in *. cbn [append String.length] in *.
  now rewrite IH.
Qed.

Lemma base36_zeros (n : nat) :
  forallb is_base36 (list_ascii_of_string (String.concat "" (repeat "0" n)))
  = true.
Proof.
  induction n as [|n IH]; [reflexivity|].
  cbn [repeat]. destruct n as [|n]; [reflexivity|].
  cbn [repeat String.concat] in *.
  cbn [append list_ascii_of_string forallb] in *. now rewrite IH.
Qed.

Lemma base36_app (s t : string) :
  forallb is_base36 (list_ascii_of_string (s ++ t))
  = forallb is_base36 (list_ascii_of_string s)
    && forallb is_base36 (list_ascii_of_string t).
Proof.
  induction s as [|c s IH]; cbn [append list_ascii_of_string forallb];
    [reflexivity|].
  now rewrite IH, andb_assoc.
Qed.

Lemma length_app (s t : string) :
  String.length (s ++ t) = String.length s + String.length t.
Proof.
  induction s as [|c s IH]; cbn [append String.length]; [reflexivity|].
  now rewrite IH.
Qed.

Lemma zfill_length (width : nat) (s : string) :
  width <= String.length (zfill width s).
Proof.
  unfold zfill. destruct s as [|c s].
  - rewrite length_zeros. cbn. lia.
  - destruct (Ascii.eqb c "+" || Ascii.eqb c "-")%bool;
      cbn [String.length]; rewrite length_app, length_zeros;
      cbn [String.length]; lia.
Qed.

Lemma zfill_base36 (width : nat) (s : string) :
  forallb is_base36 (list_ascii_of_string s) = true ->
  forallb is_base36 (list_ascii_of_string (zfill width s)) = true.
Proof.
  intros H. unfold zfill. destruct s as [|c s].
  - apply base36_zeros.
  - destruct (Ascii.eqb c "+" || Ascii.eqb c "-")%bool.
    + cbn [list_ascii_of_string forallb] in *.
      apply andb_true_iff in H. destruct H as [Hc Hs].
      now rewrite Hc, base36_app, base36_zeros, Hs.
    + now rewrite base36_app, base36_zeros, H.
Qed.

Lemma prefix_length (n : nat) :
  forall s, n <= String.length s -> String.length (substring 0 n s) = n.
Proof.
  induction n as [|n IH]; intros s H.
  - now destruct s.
  - destruct s as [|c s]; cbn [String.length] in H; [lia|].
    cbn [substring String.length]. rewrite IH; [reflexivity | lia].
Qed.

Lemma prefix_base36 (n : nat) :
  forall s, forallb is_base36 (list_ascii_of_string s) = true ->
            forallb is_base36 (list_ascii_of_string (substring 0 n s)) = true.
Proof.
  induction n as [|n IH]; intros s H.
  - now destruct s.
  - destruct s as [|c s]; [reflexivity|].
    cbn [substring list_ascii_of_string forallb] in *.
    apply andb_true_iff in H. destruct H as [Hc Hs].
    now rewrite Hc, (IH _ Hs).
Qed.

(** A key of sixteen base-36 characters is cut into four groups. *)
Lemma groups_of_key (raw_key : string) :
  String.length raw_key = 16 ->
  forallb is_base36 (list_ascii_of_string raw_key) = true ->
  exists a b c d,
    String.concat "-"
      (map (fun i => slice i (i + 4) raw_key)
           (range_step (String.length raw_key) 4))
    = a ++ "-" ++ b ++ "-" ++ c ++ "-" ++ d
    /\ is_group a = true /\ is_group b = true
    /\ is_group c = true /\ is_group d = true.
Proof.
  intros Hlen Hok. rewrite Hlen.
  destruct raw_key
    as [|c1 [|c2 [|c3 [|c4 [|c5 [|c6 [|c7 [|c8 [|c9 [|c10 [|c11 [|c12
          [|c13 [|c14 [|c15 [|c16 [|? ?]]]]]]]]]]]]]]]]];
    try discriminate Hlen.
  clear Hlen.
  cbn [list_ascii_of_string forallb] in Hok.
  repeat (apply andb_true_iff in Hok; destruct Hok as [? Hok]). clear Hok.
  exists (String c1 (String c2 (String c3 (String c4 "")))),
         (String c5 (String c6 (String c7 (String c8 "")))),
         (String c9 (String c10 (String c11 (String c12 "")))),
         (String c13 (String c14 (String c15 (String c16 "")))).
  split; [reflexivity|].
  unfold is_group. cbn [String.length Nat.eqb list_ascii_of_string forallb].
  repeat match goal with H : is_base36 _ = true |- _ => rewrite H; clear H end.
  repeat split.
Qed.

End IdRules.

Section SystemId.

Variable blake2b : string -> N.

(** The model run on a sample: with the digest that [hashlib] computes
    for these serials it gives the identifier the Python function
    returns. *)
Example generate_systemId_sample :
  generate_systemId (fun _ => sample_digest) 64 "bfebfbff000906ea" "pf1abcde"
  = Some "35FI-I5EJ-9SA4-H24U".
Proof. vm_compute. reflexivity. Qed.

(** The system identifier always has the shape [XXXX-XXXX-XXXX-XXXX]:
    whatever the serials and whatever the digest, the loop ends (from
    some bound on, every fuel gives the result) and the identifier is
    four groups of four characters of the base-36 alphabet (digits and
    capital letters) joined by dashes; and the identifier does not depend
    on the letter case of the serials. *)
Theorem system_id_format (processorId motherboardSerial : string) :
  (exists bound, forall more, exists a b c d,
      generate_systemId blake2b (bound + more) processorId motherboardSerial
      = Some (a ++ "-" ++ b ++ "-" ++ c ++ "-" ++ d)
      /\ is_group a = true /\ is_group b = true
      /\ is_group c = true /\ is_group d = true)
  /\ (forall fuel,
         generate_systemId blake2b fuel
           (upper processorId) (upper motherboardSerial)
         = generate_systemId blake2b fuel processorId motherboardSerial).
Proof.
  split.
  - set (n := blake2b (upper (processorId ++ ":" ++ motherboardSerial))).
    exists (S (N.to_nat (N.size n))). intros more.
    unfold generate_systemId. fold n.
    change (S (N.to_nat (N.size n)) + more)
      with (S (N.to_nat (N.size n) + more)).
    destruct (@base36_loop_ends (N.to_nat (N.size n) + more) n "")
      as (r & Hr & Hok); [|reflexivity|].
    { pose proof (N.size_gt n) as Hsize.
      eapply N.lt_le_trans; [exact Hsize|].
      apply N.pow_le_mono_r; lia. }
    rewrite Hr.
    set (r' := if String.eqb r "" then "0" else r).
    assert (Hok' : forallb is_base36 (list_ascii_of_string r') = true).
    { subst r'. destruct (String.eqb r ""); [reflexivity | exact Hok]. }
    rewrite (upper_base36 _ Hok').
    set (raw_key := slice 0 16 (zfill 16 r')).
    destruct (@groups_of_key raw_key) as (a & b & c & d & E & H);
      [ apply prefix_length, zfill_length
      | apply prefix_base36, zfill_base36, Hok' | ].
    exists a, b, c, d. now rewrite E.
  - intros fuel. unfold generate_systemId.
    now rewrite !upper_app, !upper_idempotent.
Qed.

End SystemId.

Section RestartRules.

Context {World : Type}.
Variable oracle : oracle_type World.
Local Abbreviation St := (state World).

Lemma preserved_at {R A} (I : St -> Prop) (m : M St R A) (s s' : St) o :
  preserves I m -> m s = (o, s') -> I s -> I s'.
Proof. intros Hp Hm Hs. specialize (Hp s Hs). rewrite Hm in Hp. exact Hp. Qed.

Lemma looked_for_other n (s : St) (w : World) c :
  is_step1_locate c = false -> looked_for n s ->
  looked_for n (mkState w (driver_instance s) (is_logged_in s)
                        (session_file s) (context s) (c :: trace s)).
Proof.
  unfold looked_for, sequence_starts. cbn. intros Hc H. rewrite Hc. exact H.
Qed.

Lemma bind_Return_left {R A B} (m : M St R A) (k : A -> M St R B)
    (s s' : St) (r : R) :
  m s = (Return r, s') -> bind m k s = (Return r, s').
Proof. intros H. unfold bind. rewrite H. reflexivity. Qed.

Lemma bind_Raise_left {R A B} (m : M St R A) (k : A -> M St R B)
    (s s' : St) (e : exn) :
  m s = (Raise e, s') -> bind m k s = (Raise e, s').
Proof. intros H. unfold bind. rewrite H. reflexivity. Qed.

Lemma bind_Normal_left {R A B} (m : M St R A) (k : A -> M St R B)
    (s s' : St) (a : A) :
  m s = (Normal a, s') -> bind m k s = k a s'.
Proof. intros H. unfold bind. rewrite H. reflexivity. Qed.

End RestartRules.

(** From a state in which the button has been looked for [n] times to
    the state [s'] that a block without such a look leaves. *)
Ltac onward L Hn s' :=
  match type of Hn with
  | looked_for ?n _ =>
      let H' := fresh in
      assert (H' : looked_for n s')
        by (eapply preserved_at; [apply L | eassumption | exact Hn]);
      clear Hn; rename H' into Hn
  end.

Ltac not_the_locate :=
  first [ assumption
        | apply looked_for_other; [reflexivity | assumption] ].

Section Restarts.

Context {World : Type}.
Variable oracle : oracle_type World.
Local Abbreviation St := (state World).

(* ------------------------------------------------------------------ *)
(** *** The steps on their own *)

Section OneInvocation.

Variable recur : nat -> nat -> M St dict dict.
Variables retry_count max_retries : nat.
Variable driver : option WebDriver.

Local Abbreviation locate :=
  (on oracle (R:=dict) driver (WaitClickable 10 dashboard_pendency)).

Lemma step_1_passes (s s' : St) :
  step_1_try oracle driver s = (Normal tt, s') ->
  step_dashboard_pendency oracle driver recur retry_count max_retries s
  = (Normal tt, s').
Proof.
  intros H. unfold step_dashboard_pendency, try_except.
  change (bind locate (fun b => on oracle driver (Click b)))
    with (step_1_try oracle driver).
  rewrite H. reflexivity.
Qed.

Lemma step_1_handler (s s2 : St) :
  times_out locate s s2 ->
  step_dashboard_pendency oracle driver recur retry_count max_retries s
  = ((if Nat.ltb retry_count max_retries then
        recovered <- check_for_back_to_home_page oracle driver ;;
        if recovered then
          r <- recur (retry_count + 1) max_retries ;;
          return_ r
        else pass
      else pass) ;;
     return_ button_not_found) s2.
Proof.
  intros (e & He & H). unfold step_dashboard_pendency, try_except.
  assert (Hb : step_1_try oracle driver s = (Raise e, s2)).
  { unfold step_1_try, bind. rewrite H. reflexivity. }
  unfold step_1_try in Hb. rewrite Hb, He. reflexivity.
Qed.

Lemma step_1_restarts (s s2 s' s_end : St) (r : dict) :
  retry_count < max_retries ->
  times_out locate s s2 ->
  check_for_back_to_home_page oracle (R:=dict) driver s2 = (Normal true, s') ->
  recur (retry_count + 1) max_retries s' = (Normal r, s_end) ->
  step_dashboard_pendency oracle driver recur retry_count max_retries s
  = (Return r, s_end).
Proof.
  intros Hlt Ht Hc Hr. rewrite (step_1_handler Ht).
  apply Nat.ltb_lt in Hlt. rewrite Hlt.
  unfold bind, return_. rewrite Hc, Hr. reflexivity.
Qed.

Lemma step_1_budget_spent (s s' : St) :
  max_retries <= retry_count ->
  times_out locate s s' ->
  step_dashboard_pendency oracle driver recur retry_count max_retries s
  = (Return button_not_found, s').
Proof.
  intros Hle Ht. rewrite (step_1_handler Ht).
  apply Nat.ltb_ge in Hle. rewrite Hle. reflexivity.
Qed.

Lemma step_1_button_away (s s2 s' : St) :
  retry_count < max_retries ->
  times_out locate s s2 ->
  check_for_back_to_home_page oracle (R:=dict) driver s2 = (Normal false, s') ->
  step_dashboard_pendency oracle driver recur retry_count max_retries s
  = (Return button_not_found, s').
Proof.
  intros Hlt Ht Hc. rewrite (step_1_handler Ht).
  apply Nat.ltb_lt in Hlt. rewrite Hlt.
  unfold bind, return_, pass, ret. rewrite Hc. reflexivity.
Qed.

Lemma step_6_times_out (s s' : St) :
  times_out (on oracle (R:=dict) driver (WaitPresence 15 verify_check_value))
            s s' ->
  steps_before_sweep oracle driver s = (Return checkbox_not_found, s').
Proof.
  intros (e & He & H). unfold steps_before_sweep.
  apply bind_Return_left.
  unfold step_verification_checkbox, try_except.
  rewrite (bind_Raise_left _ _ _ H), He. reflexivity.
Qed.

Lemma step_12_handler (s s2 s' : St) (found : bool) :
  times_out (sweep_in_iframe oracle driver) s s2 ->
  after_sweep_timeout oracle driver s2 = (Normal found, s') ->
  step_checkbox_sweep oracle driver recur retry_count max_retries s
  = ((if found then
        if Nat.ltb retry_count max_retries then
          r <- recur (retry_count + 1) max_retries ;;
          return_ r
        else pass
      else pass) ;;
     return_ checkboxes_not_found) s'.
Proof.
  intros (e & He & H) Ha.
  unfold after_sweep_timeout in Ha.
  apply bind_Normal_inv in Ha. destruct Ha as ([] & sa & Ha & Hb).
  apply bind_Normal_inv in Hb. destruct Hb as ([] & sb & Hb & Hc).
  unfold step_checkbox_sweep. unfold try_except at 1. rewrite H, He.
  rewrite (bind_Normal_left _ _ _ Ha), (bind_Normal_left _ _ _ Hb),
    (bind_Normal_left _ _ _ Hc).
  reflexivity.
Qed.

Lemma step_12_restarts (s s2 s' s_end : St) (r : dict) :
  retry_count < max_retries ->
  times_out (sweep_in_iframe oracle driver) s s2 ->
  after_sweep_timeout oracle driver s2 = (Normal true, s') ->
  recur (retry_count + 1) max_retries s' = (Normal r, s_end) ->
  step_checkbox_sweep oracle driver recur retry_count max_retries s
  = (Return r, s_end).
Proof.
  intros Hlt Ht Ha Hr. rewrite (step_12_handler Ht Ha).
  apply Nat.ltb_lt in Hlt. rewrite Hlt.
  unfold bind, return_. rewrite Hr. reflexivity.
Qed.

Lemma step_12_no_restart (s s2 s' : St) (found : bool) :
  times_out (sweep_in_iframe oracle driver) s s2 ->
  after_sweep_timeout oracle driver s2 = (Normal found, s') ->
  found = false \/ max_retries <= retry_count ->
  step_checkbox_sweep oracle driver recur retry_count max_retries s
  = (Return checkboxes_not_found, s').
Proof.
  intros Ht Ha Hno. rewrite (step_12_handler Ht Ha).
  destruct Hno as [-> | Hle]; [reflexivity|].
  apply Nat.ltb_ge in Hle. rewrite Hle. destruct found; reflexivity.
Qed.

End OneInvocation.

(* ------------------------------------------------------------------ *)
(** *** One invocation as a whole *)

Section Invocation.

Variable recur : nat -> nat -> M St dict dict.
Variables retry_count max_retries : nat.

Local Abbreviation body :=
  (run_automation_internal_body oracle recur retry_count max_retries).

(** An invocation that returns in step 1. *)
Lemma returns_in_step_1 (s s1 s' : St) (r : dict) :
  opens oracle s s1 ->
  step_dashboard_pendency oracle (driver_instance s) recur retry_count
    max_retries s1 = (Return r, s') ->
  body s = (Normal r, s').
Proof.
  intros (found & Ho) H.
  unfold run_automation_internal_body, call.
  unfold bind at 1. unfold read at 1.
  rewrite (bind_Normal_left _ _ _ Ho), (bind_Return_left _ _ _ H). reflexivity.
Qed.

(** An invocation that returns in the part of steps 5 to 20 that starts
    at the gate. *)
Lemma returns_after_gate (s sg s' : St) (r : dict) :
  reaches_gate oracle s sg ->
  (step_approve_gate oracle (driver_instance s) ;;
   steps_before_sweep oracle (driver_instance s) ;;
   step_checkbox_sweep oracle (driver_instance s) recur retry_count
     max_retries ;;
   steps_after_sweep oracle (driver_instance s) ;;
   return_ (A:=dict) completed_once) sg = (Return r, s') ->
  body s = (Normal r, s').
Proof.
  intros (s1 & (found & Ho) & Hg) H. cbv zeta in Hg.
  apply bind_Normal_inv in Hg. destruct Hg as ([] & sa & Ha & Hg).
  apply bind_Normal_inv in Hg. destruct Hg as ([] & sb & Hb & Hc).
  unfold run_automation_internal_body, call.
  unfold bind at 1. unfold read at 1.
  rewrite (bind_Normal_left _ _ _ Ho).
  assert (H1 : step_dashboard_pendency oracle (driver_instance s) recur
                 retry_count max_retries s1 = (Normal tt, sa))
    by (apply step_1_passes; exact Ha).
  rewrite (bind_Normal_left _ _ _ H1).
  unfold execute_remaining_steps.
  unfold bind at 1. unfold call at 1.
  rewrite (bind_Normal_left _ _ _ Hb).
  unfold try_except.
  rewrite (bind_Normal_left _ _ _ Hc), H. reflexivity.
Qed.

Lemma returns_in_gate (s sg s' : St) (r : dict) :
  reaches_gate oracle s sg ->
  step_approve_gate oracle (driver_instance s) sg = (Return r, s') ->
  body s = (Normal r, s').
Proof.
  intros Hg H. apply (returns_after_gate Hg). apply bind_Return_left. exact H.
Qed.

Lemma returns_before_sweep (s s6 s' : St) (r : dict) :
  reaches_step_6 oracle s s6 ->
  steps_before_sweep oracle (driver_instance s) s6 = (Return r, s') ->
  body s = (Normal r, s').
Proof.
  intros (sg & Hg & H5) H. apply (returns_after_gate Hg).
  rewrite (bind_Normal_left _ _ _ H5). apply bind_Return_left. exact H.
Qed.

Lemma returns_in_sweep (s s12 s' : St) (r : dict) :
  reaches_sweep oracle s s12 ->
  step_checkbox_sweep oracle (driver_instance s) recur retry_count
    max_retries s12 = (Return r, s') ->
  body s = (Normal r, s').
Proof.
  intros (s6 & (sg & Hg & H5) & H6) H. apply (returns_after_gate Hg).
  rewrite (bind_Normal_left _ _ _ H5), (bind_Normal_left _ _ _ H6).
  apply bind_Return_left. exact H.
Qed.

(** A recovery hands over to the next invocation: what that returns is
    what this one returns. *)
Lemma recovery_hands_over (s s' s_end : St) (r : dict) :
  recovery oracle retry_count max_retries s s' ->
  recur (retry_count + 1) max_retries s' = (Normal r, s_end) ->
  body s = (Normal r, s_end).
Proof.
  intros [Hlt [(s1 & s2 & Ho & Ht & Hc) | (s12 & s2 & Hs & Ht & Ha)]] Hr.
  - apply (returns_in_step_1 Ho). eapply step_1_restarts; eassumption.
  - apply (returns_in_sweep Hs). eapply step_12_restarts; eassumption.
Qed.

(** An invocation that gives up returns the failure of its step, in the
    state in which it gave up. *)
Lemma gives_up_returns (s s' : St) (result : dict) :
  gives_up oracle retry_count max_retries s s' result ->
  body s = (Normal result, s').
Proof.
  intros [s1 Hle Ho Ht | s1 s2 Hlt Ho Ht Hc | s6 H6 Ht
         | s12 s2 found Hs Ht Ha Hno].
  - apply (returns_in_step_1 Ho). eapply step_1_budget_spent; eassumption.
  - apply (returns_in_step_1 Ho). eapply step_1_button_away; eassumption.
  - apply (returns_before_sweep H6). eapply step_6_times_out; eassumption.
  - apply (returns_in_sweep Hs). eapply step_12_no_restart; eassumption.
Qed.

(** An invocation whose gate finds nothing returns the terminal result
    in the state the lookup leaves. *)
Lemma empty_gate_returns (s sg s' : St) :
  reaches_gate oracle s sg ->
  gate_finds_nothing oracle (driver_instance s) sg s' ->
  body s = (Normal no_approve_button, s').
Proof.
  intros Hg (table & s2 & H2 & H3). apply (returns_in_gate Hg).
  eapply step_approve_gate_empty; eassumption.
Qed.

End Invocation.

(* ------------------------------------------------------------------ *)
(** *** From one invocation to the next *)

Lemma restart_after_recovery (retry_count max_retries : nat)
    (s s' s_end : St) (r : dict) :
  recovery oracle retry_count max_retries s s' ->
  run_automation_internal oracle (retry_count + 1) max_retries s'
  = (Normal r, s_end) ->
  run_automation_internal oracle retry_count max_retries s
  = (Normal r, s_end).
Proof.
  intros Hrec Hr. unfold run_automation_internal.
  cbn [run_automation_internal_fuel].
  apply recovery_hands_over with (s' := s'); [exact Hrec|].
  destruct Hrec as [Hlt _].
  replace (max_retries - retry_count)
    with (S (max_retries - (retry_count + 1))) by lia.
  exact Hr.
Qed.

Lemma restart_after_recoveries (j : nat) :
  forall retry_count max_retries (s s' s_end : St) (r : dict),
    recoveries oracle j retry_count max_retries s s' ->
    run_automation_internal oracle (retry_count + j) max_retries s'
    = (Normal r, s_end) ->
    run_automation_internal oracle retry_count max_retries s
    = (Normal r, s_end).
Proof.
  induction j as [|j IH]; intros retry_count max_retries s s' s_end r Hj Hr;
    cbn [recoveries] in Hj.
  - subst s'. rewrite Nat.add_0_r in Hr. exact Hr.
  - destruct Hj as (s1 & Hrec & Hj).
    apply restart_after_recovery with (s' := s1); [exact Hrec|].
    apply IH with (s' := s'); [exact Hj|].
    replace (retry_count + 1 + j) with (retry_count + S j) by lia.
    exact Hr.
Qed.

Lemma recoveries_within_budget (j : nat) :
  forall retry_count max_retries (s s' : St),
    recoveries oracle j retry_count max_retries s s' ->
    j <= max_retries - retry_count.
Proof.
  induction j as [|j IH]; intros retry_count max_retries s s' Hj; [lia|].
  destruct Hj as (s1 & [Hlt _] & Hj). apply IH in Hj. lia.
Qed.

(* ------------------------------------------------------------------ *)
(** *** Looks for the Dashboard Pendency button *)

Lemma check_for_back_to_home_page_no_locate R driver n :
  preserves (looked_for n) (check_for_back_to_home_page oracle (R:=R) driver).
Proof. unfold check_for_back_to_home_page. keeping not_the_locate. Qed.

Lemma steps_to_gate_no_locate driver n :
  preserves (looked_for n)
    (step_alert_popup oracle driver ;; steps_before_gate oracle driver).
Proof. unfold_steps. keeping not_the_locate. Qed.

Lemma step_approve_gate_no_locate driver n :
  preserves (looked_for n) (step_approve_gate oracle driver).
Proof. unfold_steps. keeping not_the_locate. Qed.

Lemma steps_before_sweep_no_locate driver n :
  preserves (looked_for n) (steps_before_sweep oracle driver).
Proof. unfold_steps. keeping not_the_locate. Qed.

Lemma sweep_in_iframe_no_locate driver n :
  preserves (looked_for n) (sweep_in_iframe oracle driver).
Proof. unfold_steps. keeping not_the_locate. Qed.

Lemma after_sweep_timeout_no_locate driver n :
  preserves (looked_for n) (after_sweep_timeout oracle driver).
Proof.
  pose proof (@check_for_back_to_home_page_no_locate dict driver n).
  unfold after_sweep_timeout. keeping not_the_locate.
Qed.

Lemma locate_is_counted driver (s s' : St) o n :
  on oracle (R:=dict) driver (WaitClickable 10 dashboard_pendency) s = (o, s') ->
  driver <> None ->
  looked_for n s -> looked_for (S n) s'.
Proof.
  intros H Hd Hn. destruct driver as [d|]; [|congruence].
  unfold on, perform in H.
  destruct (oracle (Driver d (WaitClickable 10 dashboard_pendency)) (world s))
    as [[a|e] w]; inversion H; subst;
    unfold looked_for, sequence_starts in *; cbn [trace];
    change (S (length (filter is_step1_locate (trace s))) = S n);
    congruence.
Qed.

Lemma times_out_on_driver driver c (s s' : St) :
  times_out (on oracle driver c) s s' -> driver <> None.
Proof.
  intros (e & He & H) ->. unfold on, raise in H. inversion H; subst.
  discriminate.
Qed.

Lemma opens_no_locate (s s1 : St) n :
  opens oracle s s1 -> looked_for n s -> looked_for n s1.
Proof.
  intros (found & H) Hn.
  onward check_for_back_to_home_page_no_locate Hn s1. exact Hn.
Qed.

Lemma reaches_gate_locates_once (s sg : St) n :
  reaches_gate oracle s sg -> looked_for n s -> looked_for (S n) sg.
Proof.
  intros (s1 & Ho & Hg) Hn. cbv zeta in Hg.
  apply (opens_no_locate Ho) in Hn.
  apply bind_Normal_inv in Hg. destruct Hg as ([] & sa & Ha & Hg).
  unfold step_1_try in Ha.
  apply bind_Normal_inv in Ha. destruct Ha as (b & sl & Hl & Hc).
  assert (Hd : driver_instance s <> None).
  { intros E. rewrite E in Hl. discriminate. }
  apply (locate_is_counted Hl Hd) in Hn.
  assert (Hclick : preserves (looked_for (S n))
                     (on oracle (R:=dict) (driver_instance s) (Click b)))
    by keeping not_the_locate.
  onward Hclick Hn sa.
  onward steps_to_gate_no_locate Hn sg. exact Hn.
Qed.

Lemma reaches_step_6_locates_once (s s6 : St) n :
  reaches_step_6 oracle s s6 -> looked_for n s -> looked_for (S n) s6.
Proof.
  intros (sg & Hg & H5) Hn. apply (reaches_gate_locates_once Hg) in Hn.
  onward step_approve_gate_no_locate Hn s6. exact Hn.
Qed.

Lemma reaches_sweep_locates_once (s s12 : St) n :
  reaches_sweep oracle s s12 -> looked_for n s -> looked_for (S n) s12.
Proof.
  intros (s6 & H6 & H) Hn. apply (reaches_step_6_locates_once H6) in Hn.
  onward steps_before_sweep_no_locate Hn s12. exact Hn.
Qed.

Lemma recovery_locates_once (retry_count max_retries : nat) (s s' : St) n :
  recovery oracle retry_count max_retries s s' ->
  looked_for n s -> looked_for (S n) s'.
Proof.
  intros [_ [(s1 & s2 & Ho & Ht & Hc) | (s12 & s2 & Hs & Ht & Ha)]] Hn.
  - apply (opens_no_locate Ho) in Hn.
    assert (Hd : driver_instance s <> None)
      by (eapply times_out_on_driver; exact Ht).
    destruct Ht as (e & _ & Ht).
    apply (locate_is_counted Ht Hd) in Hn.
    onward check_for_back_to_home_page_no_locate Hn s'. exact Hn.
  - apply (reaches_sweep_locates_once Hs) in Hn.
    destruct Ht as (e & _ & Ht).
    onward sweep_in_iframe_no_locate Hn s2.
    onward after_sweep_timeout_no_locate Hn s'. exact Hn.
Qed.

Lemma recoveries_locate (j : nat) :
  forall retry_count max_retries (s s' : St) n,
    recoveries oracle j retry_count max_retries s s' ->
    looked_for n s -> looked_for (j + n) s'.
Proof.
  induction j as [|j IH]; intros retry_count max_retries s s' n Hj Hn;
    cbn [recoveries] in Hj.
  - subst s'. exact Hn.
  - destruct Hj as (s1 & Hrec & Hj).
    apply (recovery_locates_once Hrec) in Hn.
    apply (IH _ _ _ _ _ Hj) in Hn.
    replace (S j + n) with (j + S n) by lia. exact Hn.
Qed.

Lemma gives_up_locates_once (retry_count max_retries : nat) (s s' : St)
    (result : dict) n :
  gives_up oracle retry_count max_retries s s' result ->
  looked_for n s -> looked_for (S n) s'.
Proof.
  intros [s1 Hle Ho Ht | s1 s2 Hlt Ho Ht Hc | s6 H6 Ht
         | s12 s2 found Hs Ht Ha Hno] Hn.
  - apply (opens_no_locate Ho) in Hn.
    assert (Hd : driver_instance s <> None)
      by (eapply times_out_on_driver; exact Ht).
    destruct Ht as (e & _ & Ht).
    exact (locate_is_counted Ht Hd Hn).
  - apply (opens_no_locate Ho) in Hn.
    assert (Hd : driver_instance s <> None)
      by (eapply times_out_on_driver; exact Ht).
    destruct Ht as (e & _ & Ht).
    apply (locate_is_counted Ht Hd) in Hn.
    onward check_for_back_to_home_page_no_locate Hn s'. exact Hn.
  - apply (reaches_step_6_locates_once H6) in Hn.
    destruct Ht as (e & _ & Ht).
    assert (Hwait : preserves (looked_for (S n))
                      (on oracle (R:=dict) (driver_instance s)
                          (WaitPresence 15 verify_check_value)))
      by keeping not_the_locate.
    onward Hwait Hn s'. exact Hn.
  - apply (reaches_sweep_locates_once Hs) in Hn.
    destruct Ht as (e & _ & Ht).
    onward sweep_in_iframe_no_locate Hn s2.
    onward after_sweep_timeout_no_locate Hn s'. exact Hn.
Qed.

Lemma gives_up_is_failure (retry_count max_retries : nat) (s s' : St)
    (result : dict) :
  gives_up oracle retry_count max_retries s s' result -> is_failure result.
Proof. intros []; split; reflexivity. Qed.

(* ------------------------------------------------------------------ *)
(** *** Terminal detection and bounded recovery *)

(** C2.  Terminal detection.  Take any invocation of the step sequencer,
    with any number [j] of recoveries behind it (restarts of the sequence
    after a timeout at step 1 or at step 12).  When, in the run of the
    sequence that the last recovery started (the invocation itself when
    [j = 0]), the steps before the gate run to their end and the gate's
    lookup of approve buttons in the table returns no element, then the
    invocation returns the terminal result at once, in the state that
    lookup leaves; and when it is the loop that invoked it, the loop
    returns [completed] with the count it had before that iteration. *)
Theorem empty_gate_completes_loop
    (j retry_count max_retries : nat) (s s' sg s_end : St)
    (processed_count error_count fuel : nat) :
  recoveries oracle j retry_count max_retries s s' ->
  reaches_gate oracle s' sg ->
  gate_finds_nothing oracle (driver_instance s') sg s_end ->
  run_automation_internal oracle retry_count max_retries s
  = (Normal no_approve_button, s_end)
  /\ (retry_count = 0 -> max_retries = 2 ->
      run_automation_loop oracle (S fuel) processed_count error_count s
      = (Return (all_processed processed_count), s_end))
  /\ dict_get (all_processed processed_count) "status" = VStr "completed"
  /\ dict_get (all_processed processed_count) "processed_count"
     = VInt processed_count.
Proof.
  intros Hj Hg Hnone.
  assert (H : run_automation_internal oracle retry_count max_retries s
              = (Normal no_approve_button, s_end)).
  { eapply restart_after_recoveries; [exact Hj|].
    unfold run_automation_internal. cbn [run_automation_internal_fuel].
    eapply empty_gate_returns; eassumption. }
  split; [exact H|]. split; [|split; reflexivity].
  intros -> ->. erewrite run_automation_loop_turn; [|exact H]. reflexivity.
Qed.

(** C3, as the code has it.  Bounded recovery.  Take any invocation of the
    step sequencer with [retry_count] and [max_retries] (the loop passes 0
    and 2).  A recovery is a timeout at step 1 (the Dashboard Pendency
    button) or at step 12 (the approvedStatus checkboxes in the iframe)
    after which the check finds the Back to Home-Page button, while the
    retry count is below [max_retries]; each recovery starts the sequence
    again with the retry count one higher.  When, after [j] recoveries,
    the sequence gives up on a timeout (at step 1 with the budget used up,
    where no check is made; at step 1 or step 12 when the check does not
    find the button; at step 12 with the budget used up, whatever the
    check finds; at step 6, where no check is made), then
    - the invocation returns the failure of the step at which it gave up,
      in the state in which it gave up;
    - the sequence has been started [j + 1] times: once and [j] restarts;
    - [j] is within the budget [max_retries - retry_count]. *)
Theorem recovery_restarts
    (j retry_count max_retries : nat) (s s' s_end : St) (result : dict) :
  recoveries oracle j retry_count max_retries s s' ->
  gives_up oracle (retry_count + j) max_retries s' s_end result ->
  run_automation_internal oracle retry_count max_retries s
  = (Normal result, s_end)
  /\ is_failure result
  /\ sequence_starts (trace s_end) = sequence_starts (trace s) + j + 1
  /\ j <= max_retries - retry_count.
Proof.
  intros Hj Hend. split; [|split; [|split]].
  - eapply restart_after_recoveries; [exact Hj|].
    unfold run_automation_internal. cbn [run_automation_internal_fuel].
    eapply gives_up_returns; exact Hend.
  - eapply gives_up_is_failure; exact Hend.
  - assert (Hn : looked_for (sequence_starts (trace s)) s) by reflexivity.
    eapply recoveries_locate in Hn; [|exact Hj].
    eapply gives_up_locates_once in Hn; [|exact Hend].
    unfold looked_for in Hn. lia.
  - eapply recoveries_within_budget; exact Hj.
Qed.

End Restarts.

(* ================================================================== *)
(** ** The engine on the simulated browser *)

(** The button shown once at step 1, and shown three times at step 6. *)
Lemma recovery_restarts_not_min_k :
  restarts (trace (snd (run_automation_internal sim_oracle 0 2
                          (attached (stuck_at_dashboard (shown_from_now 1))))))
  <> Nat.min 1 2
  /\
  restarts (trace (snd (run_automation_internal sim_oracle 0 2
                          (attached (stuck_at_verification
                                       (shown_from_now 3))))))
  <> Nat.min 3 2.
Proof. split; vm_compute; discriminate. Qed.

(** C4 at the failing input.  The browser shows the Dashboard Pendency
    button but intercepts the click: the exception of the click leaves
    [run_automation_internal], and leaves [run_automation] to its caller;
    no result dictionary is produced. *)
Theorem step1_exception_escapes (fuel : nat) :
  fst (run_automation_internal sim_oracle 0 2 (attached clicks_blocked))
  = Raise (WebDriverException "element click intercepted") /\
  fst (run_automation sim_oracle (R:=unit) (S fuel) (attached clicks_blocked))
  = Raise (WebDriverException "element click intercepted").
Proof. split; vm_compute; reflexivity. Qed.

(** C9 at the failing input.  The browser is open on the login page and
    the operator logs in while [start_vahan_browser] waits: it returns
    [login_success] with the login flag set, and the session file still
    says [is_logged_in] false. *)
Theorem login_on_open_browser_not_saved (fuel : nat) :
  let r := start_vahan_browser sim_oracle (R:=unit) (S fuel)
             (mkState operator_logs_in (Some 0) false None TopLevel []) in
  (exists d, fst r = Normal d /\ dict_get d "status" = VStr "login_success") /\
  is_logged_in (snd r) = true /\
  (exists d, session_file (snd r) = Some d /\
             dict_get d "is_logged_in" = VBool false).
Proof.
  cbv zeta. split; [|split].
  - eexists. split; vm_compute; reflexivity.
  - vm_compute. reflexivity.
  - eexists. split; vm_compute; reflexivity.
Qed.

(** C10 where it fails.  The engine has attached to the logged-in
    browser through a status check, which wrote the session record;
    removing the file fails: [close_vahan_browser] returns true with the
    handle cleared and the flag down, and the record is still there. *)
Lemma close_keeps_record_when_remove_fails :
  let s := after locked_file_oracle Status
             (mkState tt None false None TopLevel []) in
  let r := close_vahan_browser locked_file_oracle (R:=unit) s in
  reachable locked_file_oracle s /\
  fst r = Normal true /\
  driver_instance (snd r) = None /\
  is_logged_in (snd r) = false /\
  session_file (snd r)
  = Some (session_data true true (S754_zero false)).
Proof.
  cbv zeta. split.
  - apply reachable_operation. apply reachable_loaded; reflexivity.
  - vm_compute. repeat split; reflexivity.
Qed.


(** C7 where it fails.  The browser lets the driver into the iframe and
    not out of it, and the checkboxes do not appear: the locate times
    out, the handler's [switch_to.default_content()] fails and is
    swallowed, and the step sequencer returns [checkboxes_not_found] with
    the driver still inside the iframe. *)
Lemma frame_kept_when_restore_fails :
  let r := run_automation_internal trap_oracle 0 2
             (mkState false (Some 0) true None TopLevel []) in
  fst r = Normal checkboxes_not_found /\ context (snd r) = InFrame.
Proof. vm_compute. split; reflexivity. Qed.

(* ------------------------------------------------------------------ *)
(** *** The properties at concrete runs *)

(** Three failing iterations on a browser that never shows the Dashboard
    Pendency button, after five processed items. *)
Lemma loop_stops_after_three_failures_witness :
  let s0 := attached (stuck_at_dashboard []) in
  let s1 := snd (run_automation_internal sim_oracle 0 2 s0) in
  let s2 := snd (run_automation_internal sim_oracle 0 2 s1) in
  let s3 := snd (run_automation_internal sim_oracle 0 2 s2) in
  is_failure button_not_found /\
  run_automation_loop sim_oracle 3 5 0 s0
  = (Return (stopped_on_errors 5 button_not_found), s3).
Proof.
  intros s0 s1 s2 s3.
  assert (F : is_failure button_not_found) by (split; reflexivity).
  split; [exact F|].
  refine (proj1 (@loop_stops_after_three_failures sim sim_oracle s0 s1 s2 s3
                   button_not_found button_not_found button_not_found 5 0
                   _ F _ F _ F));
    vm_compute; reflexivity.
Defined.

(** The status probe when nothing listens on the control port. *)
Lemma status_probe_never_creates_witness :
  driver_instance (fresh no_browser) = None /\
  trace (snd (check_browser_status sim_oracle (R:=unit) (fresh no_browser)))
  = [SocketConnect CHROME_DEBUG_PORT].
Proof.
  split; [reflexivity|].
  refine (proj2 (proj2 (proj2 (@status_probe_never_creates sim sim_oracle
                                 (fresh no_browser) eq_refl) _))).
  vm_compute. discriminate.
Defined.


(** An invocation that enters the iframe, times out there, recovers once
    and times out again. *)
Lemma sequencer_leaves_frame_witness :
  context (snd (run_automation_internal sim_oracle 0 2
                  (attached (stuck_at_checkboxes (shown_at_timeouts 1))))) = TopLevel.
Proof.
  refine (proj2 (@sequencer_leaves_frame sim sim_oracle 3 0 2 (Some 0)
                   (attached (stuck_at_checkboxes (shown_at_timeouts 1))) _ eq_refl)).
  intros d w. reflexivity.
Defined.

(** The operator logs in between the first and the second poll. *)
Lemma login_gate_verdict_witness :
  fst (wait_for_login sim_oracle (R:=unit) 2 (Some 0) 300
         (mkState operator_logs_in (Some 0) false None TopLevel []))
  = Normal true.
Proof.
  set (s := mkState operator_logs_in (Some 0) false None TopLevel []).
  set (s0 := snd (perform sim_oracle (R:=bool) TimeTime s)).
  set (s1 := snd (on sim_oracle (R:=bool) (Some 0) CurrentUrl s0)).
  refine (proj2 (proj1 (proj2 (@login_gate_verdict sim sim_oracle 2 (Some 0)
                                 300%Z (S754_zero false) s s0 eq_refl)
                           VAHAN_URL s1 eq_refl))
                _).
  exists 1.
  eexists. eexists. split; [lia|]. split; [|split].
  - cbn. eexists. split; [|reflexivity].
    eexists. split.
    + exists (S754_zero false). split; reflexivity.
    + eexists _, _, _. split; [reflexivity|]. split; [reflexivity|].
      split; [left; reflexivity | reflexivity].
  - exists (S754_zero false). split; reflexivity.
  - eexists _, _. split; [reflexivity|]. left.
    split; [discriminate | reflexivity].
Defined.

(** Closing an attached session. *)
Lemma close_clears_session_witness :
  let s := after sim_oracle Status (fresh calm) in
  let r := close_vahan_browser sim_oracle (R:=unit) s in
  driver_instance (snd r) = None /\ is_logged_in (snd r) = false /\
  fst r = Normal true /\ session_file (snd r) = None.
Proof.
  intros s r.
  destruct (@close_clears_session sim sim_oracle s) as (H1 & H2 & H3 & H4).
  split; [exact H1|]. split; [|split; [exact H3|]].
  - apply H2. apply reachable_operation. apply reachable_loaded; reflexivity.
  - apply H4. intros w. reflexivity.
Defined.

(* ------------------------------------------------------------------ *)
(** *** Further properties at concrete runs *)

Lemma login_flag_needs_handle_witness :
  is_not_None (driver_instance (after sim_oracle Status (fresh calm))) = true.
Proof.
  apply (@login_flag_needs_handle sim sim_oracle).
  - apply reachable_operation. apply reachable_loaded; reflexivity.
  - vm_compute. reflexivity.
Defined.

Lemma loop_counts_successes_witness :
  fst (run_automation_loop queue_oracle 3 0 0 (at_office 2))
  = Return (all_processed 2).
Proof.
  set (s0 := at_office 2).
  set (r1 := run_automation_internal queue_oracle 0 2 s0).
  set (r2 := run_automation_internal queue_oracle 0 2 (snd r1)).
  set (r3 := run_automation_internal queue_oracle 0 2 (snd r2)).
  assert (H := @loop_counts_successes nat queue_oracle 2 0 0 0 s0 (snd r2)
                 (snd r3) no_approve_button).
  destruct H as [H _].
  - exists completed_once, (snd r1). split; [vm_compute; reflexivity|].
    split; [reflexivity|].
    exists completed_once, (snd r2). split; [vm_compute; reflexivity|].
    split; [reflexivity | reflexivity].
  - vm_compute. reflexivity.
  - reflexivity.
  - reflexivity.
  - change (2 + 1) with 3 in H. rewrite H. reflexivity.
Defined.

Lemma attach_only_connects_witness :
  fst (try_connect_to_existing_chrome mute_oracle (R:=unit)
         (mkState tt None false None TopLevel []))
  = Normal None /\
  trace (snd (try_connect_to_existing_chrome mute_oracle (R:=unit)
                (mkState tt None false None TopLevel [])))
  = [Driver 0 Quit; Driver 0 CurrentUrl; UcChrome (Attach "127.0.0.1:9222");
     SocketConnect CHROME_DEBUG_PORT].
Proof.
  refine (proj2 (proj2 (proj2 (@attach_only_connects unit mute_oracle
                                 (mkState tt None false None TopLevel []))))
                0 (WebDriverException "no such window") tt tt tt _ _ _);
    reflexivity.
Defined.

Lemma status_check_saves_record_witness :
  session_file (snd (check_browser_status sim_oracle (R:=unit) (fresh calm)))
  = Some (session_data true true (S754_zero false)).
Proof.
  destruct (@status_check_saves_record sim sim_oracle (fresh calm)) as [t Ht].
  - intros w. exists (S754_zero false), w. reflexivity.
  - intros d w. exists w. reflexivity.
  - vm_compute. discriminate.
  - rewrite Ht. vm_compute in Ht. inversion Ht. reflexivity.
Defined.

Lemma sweep_skips_disabled_and_ticked_witness :
  trace (snd (sweep_checkbox sim_oracle (Some 0) 7 (attached calm)))
  = [Driver 0 (GetAttribute 7 "checked"); Driver 0 (IsSelected 7);
     Driver 0 (GetAttribute 7 "disabled"); Driver 0 (GetAttribute 7 "name")].
Proof.
  rewrite (proj2 (@sweep_skips_disabled_and_ticked sim sim_oracle (Some 0) 7
                    (attached calm))
             _ _ _ _ _ _ _ _ eq_refl eq_refl eq_refl eq_refl eq_refl).
  reflexivity.
Defined.

Lemma load_session_info_odd_timestamps_witness :
  fst (load_session_info sim_oracle (R:=unit)
         (mkState calm None false (Some [("has_driver", VBool true)])
                  TopLevel []))
  = Normal (Some [("has_driver", VBool true)])
  /\
  fst (load_session_info sim_oracle (R:=unit)
         (mkState calm None false (Some [("timestamp", VStr "yesterday")])
                  TopLevel []))
  = Normal None.
Proof.
  split.
  - exact (@load_session_info_odd_timestamps sim sim_oracle
             (mkState calm None false (Some [("has_driver", VBool true)])
                      TopLevel [])
             [("has_driver", VBool true)] (S754_zero false) calm calm
             eq_refl eq_refl eq_refl).
  - exact (@load_session_info_odd_timestamps sim sim_oracle
             (mkState calm None false (Some [("timestamp", VStr "yesterday")])
                      TopLevel [])
             [("timestamp", VStr "yesterday")] (S754_zero false) calm calm
             eq_refl eq_refl eq_refl).
Defined.

Lemma http_layer_always_responds_witness :
  fst (run_automation_endpoint sim_oracle (R:=unit) 1 (attached clicks_blocked))
  = Normal [("success", VBool false);
            ("message", VStr "Error running automation: element click intercepted");
            ("status", VStr "error");
            ("processed_count", VInt 0);
            ("error", VStr "element click intercepted")].
Proof.
  set (r := run_automation sim_oracle (R:=dict) 1 (attached clicks_blocked)).
  rewrite (proj2 (proj2 (proj2 (proj2
             (@http_layer_always_responds sim sim_oracle 1
                (attached clicks_blocked)))))
             (WebDriverException "element click intercepted") (snd r)).
  - reflexivity.
  - vm_compute. reflexivity.
Defined.

(** One recovery at step 1, then an empty table: the first iteration of
    the loop on a browser that leaves its error page at the second click
    on the Back to Home-Page button, after four processed items. *)
Lemma empty_gate_completes_loop_witness :
  let r := run_automation_loop revived_oracle 1 4 0 on_error_page in
  fst r = Return (all_processed 4) /\ restarts (trace (snd r)) = 1.
Proof.
  intros r.
  set (driver := Some 0).
  set (check := check_for_back_to_home_page revived_oracle (R:=dict) driver).
  set (locate := on revived_oracle (R:=dict) driver
                    (WaitClickable 10 dashboard_pendency)).
  set (a1 := snd (check on_error_page)).
  set (a2 := snd (locate a1)).
  set (a3 := snd (check a2)).
  set (b1 := snd (check a3)).
  set (sg := snd ((step_1_try revived_oracle driver ;;
                   step_alert_popup revived_oracle driver ;;
                   steps_before_gate revived_oracle driver) b1)).
  set (s2 := snd (on revived_oracle (R:=dict) driver
                     (WaitPresence 15 work_details) sg)).
  set (s3 := snd (on revived_oracle (R:=dict) driver
                     (FindElements approve_button) s2)).
  destruct (@empty_gate_completes_loop nat revived_oracle 1 0 2
              on_error_page a3 sg s3 4 0 0) as (_ & H & _).
  - exists a3. split; [|reflexivity].
    split; [lia|]. left. exists a1, a2. split; [|split].
    + exists true. vm_compute. reflexivity.
    + exists (TimeoutException "Message: "). split; [reflexivity|].
      vm_compute. reflexivity.
    + vm_compute. reflexivity.
  - exists b1. split.
    + exists true. vm_compute. reflexivity.
    + vm_compute. reflexivity.
  - exists 0, s2. split; vm_compute; reflexivity.
  - subst r. rewrite (H eq_refl eq_refl). split; vm_compute; reflexivity.
Defined.

(** Two recoveries at step 1 and a third timeout there with the budget
    used up: the Back to Home-Page button is away at each start of the
    sequence and on the page after each timeout. *)
Lemma recovery_restarts_witness :
  let r := run_automation_internal sim_oracle 0 2
             (attached (stuck_at_dashboard (shown_at_timeouts 3))) in
  fst r = Normal button_not_found /\ restarts (trace (snd r)) = 2.
Proof.
  intros r.
  set (s := attached (stuck_at_dashboard (shown_at_timeouts 3))) in *.
  set (driver := Some 0).
  set (check := check_for_back_to_home_page sim_oracle (R:=dict) driver).
  set (locate := on sim_oracle (R:=dict) driver
                    (WaitClickable 10 dashboard_pendency)).
  set (a1 := snd (check s)).
  set (a2 := snd (locate a1)).
  set (a3 := snd (check a2)).
  set (b1 := snd (check a3)).
  set (b2 := snd (locate b1)).
  set (b3 := snd (check b2)).
  set (c1 := snd (check b3)).
  set (c2 := snd (locate c1)).
  destruct (@recovery_restarts sim sim_oracle 2 0 2 s b3 c2 button_not_found)
    as (H1 & _ & H3 & _).
  - exists a3. split.
    { split; [lia|]. left. exists a1, a2. split; [|split].
      - exists false. vm_compute. reflexivity.
      - exists (TimeoutException "Message: "). split; [reflexivity|].
        vm_compute. reflexivity.
      - vm_compute. reflexivity. }
    exists b3. split; [|reflexivity].
    split; [lia|]. left. exists b1, b2. split; [|split].
    + exists false. vm_compute. reflexivity.
    + exists (TimeoutException "Message: "). split; [reflexivity|].
      vm_compute. reflexivity.
    + vm_compute. reflexivity.
  - apply budget_spent_at_step_1 with (s1 := c1).
    + cbn. lia.
    + exists false. vm_compute. reflexivity.
    + exists (TimeoutException "Message: "). split; [reflexivity|].
      vm_compute. reflexivity.
  - subst r. rewrite H1. split; [reflexivity|].
    cbn [snd]. unfold restarts. rewrite H3. reflexivity.
Defined.
